(** * OCR Vision: the request-assembly and provider-dispatch pipeline

    A shallow embedding of the HTTP handler [POST /api/ocr] (both revisions
    found in the repository: the single-image handler of
    [src/app/api/ocr/route.ts] and the multi-page handler with JSON output),
    of the prompt builder [buildSystemPrompt], and of the client-side
    [compressImage] preprocessor, together with the properties stated for
    them.

    JavaScript strings are modelled as [string] (their UTF-8 bytes), file
    sizes and image dimensions as [N], the fractional intermediate values of
    the scaling computation as exact rationals [Q].  Console logging, the
    reading of the request body and the call to the provider are recorded
    as events of an explicit trace.  An awaited promise is fulfilled,
    rejected, or never settles, and a run that awaits one that never
    settles never ends. *)

From Stdlib Require Import String Ascii List Bool NArith ZArith QArith Qround Lia.
From Stdlib Require Import DecimalString.
From Stdlib.Strings Require Import Byte.
Import ListNotations.

Set Warnings "-register-all".

Local Open Scope string_scope.
Local Open Scope list_scope.

(* ===================================================================== *)
(** ** JavaScript strings *)
(* ===================================================================== *)

Module JS.

(** ["\n"] *)
Definition nl : string := String (ascii_of_nat 10) EmptyString.

(** [s.startsWith(p)] *)
Definition startsWith (s p : string) : bool := String.prefix p s.

(** [s.includes(sub)] *)
Fixpoint includes (s sub : string) : bool :=
  String.prefix sub s
  || match s with
     | EmptyString => false
     | String _ rest => includes rest sub
     end.

(** [parts.join(sep)] *)
Definition join (sep : string) (parts : list string) : string :=
  String.concat sep parts.

(** Truthiness of a string: only the empty string is falsy. *)
Definition truthy (s : string) : bool :=
  match s with EmptyString => false | _ => true end.

(** [a || b] on strings. *)
Definition or_else (a b : string) : string :=
  if truthy a then a else b.

(** [x || b] where [x] may be [undefined] / [null]. *)
Definition opt_or_else (a : option string) (b : string) : string :=
  match a with Some s => or_else s b | None => b end.

(** [s.toLowerCase()], on the ASCII letters. *)
Definition lower_ascii (c : ascii) : ascii :=
  let n := nat_of_ascii c in
  if (65 <=? n)%nat && (n <=? 90)%nat then ascii_of_nat (n + 32) else c.

Fixpoint toLowerCase (s : string) : string :=
  match s with
  | EmptyString => EmptyString
  | String c rest => String (lower_ascii c) (toLowerCase rest)
  end.

(** Decimal rendering of a non-negative integer, as template literals
    do for integral numbers. *)
Definition number_to_string (n : N) : string :=
  NilZero.string_of_uint (N.to_uint n).

(** [Math.round(n / 1024 / 1024)] for a non-negative integer [n]:
    both divisions are by powers of two, hence exact, and [Math.round]
    rounds halves upwards. *)
Definition round_MiB (n : N) : N := ((n + 524288) / 1048576)%N.

(** [Buffer.from(bytes).toString("base64")] *)
Definition b64_alphabet : string :=
  "ABCDEFGHIJKLMNOPQRSTUVWXYZabcdefghijklmnopqrstuvwxyz0123456789+/".

Definition b64_digit (n : N) : ascii :=
  match String.get (N.to_nat n) b64_alphabet with
  | Some c => c
  | None => "="%char
  end.

Fixpoint base64 (bs : list byte) : string :=
  match bs with
  | [] => ""
  | [a] =>
      let x := Byte.to_N a in
      String (b64_digit (x / 4))
        (String (b64_digit ((x mod 4) * 16)) "==")
  | [a; b] =>
      let x := Byte.to_N a in
      let y := Byte.to_N b in
      String (b64_digit (x / 4))
        (String (b64_digit ((x mod 4) * 16 + y / 16))
           (String (b64_digit ((y mod 16) * 4)) "="))
  | a :: b :: c :: rest =>
      let x := Byte.to_N a in
      let y := Byte.to_N b in
      let z := Byte.to_N c in
      String (b64_digit (x / 4))
        (String (b64_digit ((x mod 4) * 16 + y / 16))
           (String (b64_digit ((y mod 16) * 4 + z / 64))
              (String (b64_digit (z mod 64)) (base64 rest))))
  end%N.

End JS.

(* ===================================================================== *)
(** ** Web platform values *)
(* ===================================================================== *)

(** A [File]: the attributes the handlers read ([name], [type], [size])
    and the content delivered by [arrayBuffer()]. *)
Record File : Type := mkFile {
  name : string;
  type : string;
  size : N;
  arrayBuffer : list byte
}.

(** [FormDataEntryValue = string | File] *)
Inductive FormDataEntryValue : Type :=
| EntryString (s : string)
| EntryFile (f : File).

(** The entries of a [FormData], in submission order. *)
Definition FormData : Type := list (string * FormDataEntryValue).

Module Form.

(** [form.get(key)]: the first entry of that name, or [null]. *)
Fixpoint get (key : string) (form : FormData) : option FormDataEntryValue :=
  match form with
  | [] => None
  | (k, v) :: rest => if String.eqb k key then Some v else get key rest
  end.

(** [form.getAll(key)]: every entry of that name, in order. *)
Fixpoint getAll (key : string) (form : FormData) : list FormDataEntryValue :=
  match form with
  | [] => []
  | (k, v) :: rest =>
      if String.eqb k key then v :: getAll key rest else getAll key rest
  end.

(** [String(v || dflt)] for [v = form.get(...)]: [null] and the empty
    string are falsy, a [File] stringifies to ["[object File]"]. *)
Definition string_or (v : option FormDataEntryValue) (dflt : string) : string :=
  match v with
  | None => dflt
  | Some (EntryString s) => JS.or_else s dflt
  | Some (EntryFile _) => "[object File]"
  end.

End Form.

(** A value caught by [catch (err)]: an [Error] with its message, or
    anything else. *)
Inductive Thrown : Type :=
| JsError (message : string)
| NonError.

(** What awaiting a promise comes to: the value it is fulfilled with,
    the value it is rejected with, or nothing at all when the promise
    never settles. *)
Inductive Task (A : Type) : Type :=
| Resolved (a : A)
| Rejected (err : Thrown)
| Pending.

Arguments Resolved {A} a.
Arguments Rejected {A} err.
Arguments Pending {A}.

(** The part of a [NextRequest] the handler looks at: the
    [content-type] header and what awaiting [req.formData()] comes to
    ([Pending] when the body never arrives in full). *)
Record NextRequest : Type := mkRequest {
  content_type : option string;
  formData : Task FormData
}.

(** A number as [JSON.parse] reads it: a double, or an infinity when the
    literal lies beyond the range of the doubles
    ([JSON.parse("1e400")] is [Infinity]). *)
Inductive JSNumber : Type :=
| Finite (q : Q)
| Infinity (negative : bool).

(** JSON values, as produced by [JSON.parse]. *)
Inductive JSON : Type :=
| JNull
| JBool (b : bool)
| JNumber (n : JSNumber)
| JString (s : string)
| JArray (items : list JSON)
| JObject (members : list (string * JSON)).

(** [JSON.stringify(value)], which [Response.json] sends as the body. *)
Module Json.

(** The double quote and the backslash. *)
Definition dquote : string := String (ascii_of_nat 34) EmptyString.
Definition backslash : string := String (ascii_of_nat 92) EmptyString.

Definition hex_digit (n : nat) : ascii :=
  match String.get n "0123456789abcdef" with
  | Some c => c
  | None => "0"%char
  end.

(** The escape of one character inside a string literal: the quote, the
    backslash and the control characters are escaped, everything else
    is copied. *)
Definition escape_char (c : ascii) : string :=
  let n := nat_of_ascii c in
  if (n =? 34)%nat then backslash ++ dquote
  else if (n =? 92)%nat then backslash ++ backslash
  else if (n =? 8)%nat then backslash ++ "b"
  else if (n =? 12)%nat then backslash ++ "f"
  else if (n =? 10)%nat then backslash ++ "n"
  else if (n =? 13)%nat then backslash ++ "r"
  else if (n =? 9)%nat then backslash ++ "t"
  else if (n <? 32)%nat then
    backslash ++ "u00"
      ++ String (hex_digit (n / 16)) (String (hex_digit (n mod 16)) "")
  else String c "".

Fixpoint escape (s : string) : string :=
  match s with
  | EmptyString => EmptyString
  | String c rest => escape_char c ++ escape rest
  end.

(** A string literal. *)
Definition quote (s : string) : string := dquote ++ escape s ++ dquote.

Fixpoint traverse {A B} (f : A -> option B) (l : list A) : option (list B) :=
  match l with
  | [] => Some []
  | a :: rest =>
      match f a, traverse f rest with
      | Some b, Some bs => Some (b :: bs)
      | _, _ => None
      end
  end.

(** The serialisation of a value, [None] when it throws: the serialiser
    recurses into arrays and objects and fails with a [RangeError] once
    the nesting exceeds what the stack allows ([depth] levels).  A number
    that is not finite is written [null]; a finite one is written by
    [print]. *)
Fixpoint stringify (print : Q -> string) (depth : nat) (value : JSON)
    {struct depth} : option string :=
  match value with
  | JNull => Some "null"
  | JBool true => Some "true"
  | JBool false => Some "false"
  | JNumber (Finite q) => Some (print q)
  | JNumber (Infinity _) => Some "null"
  | JString s => Some (quote s)
  | JArray items =>
      match depth with
      | O => None
      | S depth' =>
          option_map (fun parts => ("[" ++ JS.join "," parts ++ "]")%string)
                     (traverse (stringify print depth') items)
      end
  | JObject members =>
      match depth with
      | O => None
      | S depth' =>
          option_map (fun parts => ("{" ++ JS.join "," parts ++ "}")%string)
                     (traverse
                        (fun kv =>
                           option_map (fun text => (quote (fst kv) ++ ":" ++ text)%string)
                                      (stringify print depth' (snd kv)))
                        members)
      end
  end.

End Json.

(** The body of a response, as its text. *)
Inductive Body : Type :=
| BodyText (text : string).

Record Response : Type := mkResponse {
  status : N;
  headers : list (string * string);
  body : Body
}.

Definition header (key : string) (hs : list (string * string)) : option string :=
  option_map snd (find (fun kv => String.eqb (fst kv) key) hs).

(** [new Response(text, { status, headers })]; a textual body without an
    explicit content type gets the platform default. *)
Definition new_Response (text : string) (st : N) (hs : list (string * string)) : Response :=
  {| status := st;
     headers := match header "content-type" hs with
                | Some _ => hs
                | None => ("content-type", "text/plain;charset=UTF-8") :: hs
                end;
     body := BodyText text |}.

(* ===================================================================== *)
(** ** The provider interface *)
(* ===================================================================== *)

(** What [createClient()] returns. *)
Inductive Client : Type :=
| OpenRouter (apiKey : string)
| TogetherDefault
| TogetherAI (apiKey baseURL : string).

Inductive ContentPart : Type :=
| TextPart (text : string)
| ImagePart (image : string).

Record Message : Type := mkMessage {
  role : string;
  content : list ContentPart
}.

(** The argument object of [generateText]. *)
Record GenerateTextArgs : Type := mkArgs {
  model : Client * string;
  temperature : Q;
  maxSteps : option N;
  system : string;
  messages : list Message
}.

(** What the handler is run against: the process environment; the
    provider, that is what awaiting [generateText(args)] comes to
    ([out.text] when it is fulfilled, the thrown value when it is
    rejected, [Pending] when the provider never answers); [JSON.parse]
    ([None] when it throws); the rendering of a finite number by
    [JSON.stringify]; and the levels of nesting, below the outermost
    one, that [JSON.stringify] can descend into before the stack of the
    engine is exhausted. *)
Record Runtime : Type := mkRuntime {
  process_env : string -> option string;
  generateText : GenerateTextArgs -> Task string;
  JSON_parse : string -> option JSON;
  Number_toString : Q -> string;
  stack_depth : nat
}.

(** [JSON.stringify(value)] in that runtime. *)
Definition JSON_stringify (rt : Runtime) (value : JSON) : option string :=
  Json.stringify (Number_toString rt) (S (stack_depth rt)) value.

(* ===================================================================== *)
(** ** Effects of a request: a trace of events and exceptions *)
(* ===================================================================== *)

Inductive Event : Type :=
| console_warn (msg : string)
| console_info (msg : string)
| console_error (msg : string)
| req_formData
| file_arrayBuffer (f : File)
| provider_call (args : GenerateTextArgs).

(** A run of asynchronous code: the events it produces, and whether it
    returns a value, throws, or stops for ever at an [await] whose
    promise never settles. *)
Definition Eff (A : Type) : Type := list Event * Task A.

Definition ret {A} (a : A) : Eff A := ([], Resolved a).

Definition bind {A B} (m : Eff A) (k : A -> Eff B) : Eff B :=
  match m with
  | (t, Resolved a) => let (t', r) := k a in (t ++ t', r)
  | (t, Rejected e) => (t, Rejected e)
  | (t, Pending) => (t, Pending)
  end.

Definition emit (e : Event) : Eff unit := ([e], Resolved tt).

Definition throw {A} (e : Thrown) : Eff A := ([], Rejected e).

(** [try { m } catch (err) { handler err }] *)
Definition try_catch {A} (m : Eff A) (handler : Thrown -> Eff A) : Eff A :=
  match m with
  | (t, Rejected e) => let (t', r) := handler e in (t ++ t', r)
  | (t, r) => (t, r)
  end.

(** [await] of an operation, recorded as an event. *)
Definition await {A} (e : Event) (r : Task A) : Eff A :=
  ([e], r).

Declare Scope eff_scope.
Delimit Scope eff_scope with eff.
Notation "x <- m ;; k" := (bind m (fun x => k))
  (at level 61, m at next level, right associativity) : eff_scope.
Notation "m ;;; k" := (bind m (fun _ => k))
  (at level 61, right associativity) : eff_scope.

Fixpoint mapM {A B} (f : A -> Eff B) (l : list A) : Eff (list B) :=
  match l with
  | [] => ret []
  | a :: rest =>
      (b <- f a ;;
       bs <- mapM f rest ;;
       ret (b :: bs))%eff
  end.

(** The events of a run and the response it ends with. *)
Definition trace {A} (m : Eff A) : list Event := fst m.
Definition outcome {A} (m : Eff A) : Task A := snd m.

Definition is_provider_call (e : Event) : bool :=
  match e with provider_call _ => true | _ => false end.

Definition provider_calls {A} (m : Eff A) : list Event :=
  filter is_provider_call (trace m).

Definition reads_body {A} (m : Eff A) : bool :=
  existsb (fun e => match e with req_formData => true | _ => false end) (trace m).

(* ===================================================================== *)
(** ** Process-wide configuration (identical in both handlers) *)
(* ===================================================================== *)

Definition createClient (env : string -> option string) : Client :=
  let provider := JS.toLowerCase (JS.opt_or_else (env "OCR_PROVIDER") "together") in
  if String.eqb provider "openrouter" then
    let apiKey := JS.opt_or_else (env "OPENROUTER_API_KEY") "" in
    OpenRouter apiKey
  else
    let apiKey :=
      JS.or_else (JS.opt_or_else (env "TOGETHER_AI_API_KEY") "")
                 (JS.opt_or_else (env "TOGETHER_API_KEY") "") in
    let baseURL := "https://api.together.xyz/v1" in
    if negb (JS.truthy apiKey) then TogetherDefault
    else TogetherAI apiKey baseURL.

(** The language directive common to every system prompt. *)
Definition shouldTranslate (targetLang : string) : bool :=
  JS.truthy targetLang && negb (String.eqb targetLang "auto").

Definition languageDirective (targetLang : string) : string :=
  if shouldTranslate targetLang then
    "Output language: " ++ targetLang ++ ". Translate ALL textual content into "
      ++ targetLang
      ++ ", including brand and product names, headings, labels, tables and lists. Do NOT mix languages. Preserve numbers, currency symbols, and layout semantics."
  else "Output language: keep the original language; do NOT translate.".

(** The hint repeated at the head of the user message. *)
Definition translateHint (targetLang : string) : string :=
  if shouldTranslate targetLang then
    "Target language: " ++ targetLang ++ ". Translate ALL textual content into "
      ++ targetLang ++ ". Preserve numbers, currency symbols, and layout semantics."
  else "Target language: source language (no translation).".

Definition maxSize : N := 4 * 1024 * 1024.

Definition markdownContentType : string := "text/markdown; charset=utf-8".

(** The outer [catch] of both handlers. *)
Definition failure (err : Thrown) : Eff Response :=
  let message := match err with JsError m => m | NonError => "unknown" end in
  (emit (console_error "/api/ocr: failure") ;;;
   ret (new_Response ("Erreur: " ++ message)%string 500 []))%eff.

(** [Response.json(value)]: the body is [JSON.stringify(value)], and the
    call throws when the serialisation does. *)
Definition Response_json (rt : Runtime) (value : JSON) : Eff Response :=
  match JSON_stringify rt value with
  | Some text =>
      ret {| status := 200;
             headers := [("content-type", "application/json")];
             body := BodyText text |}
  | None => throw (JsError "Maximum call stack size exceeded")
  end.

(** The inner [catch] around the provider call: log and rethrow. *)
Definition callProvider (rt : Runtime) (args : GenerateTextArgs) : Eff string :=
  try_catch
    (await (provider_call args) (generateText rt args))
    (fun err =>
       (emit (console_error "/api/ocr: provider call failed") ;;;
        throw err)%eff).

(* ===================================================================== *)
(** ** The single-image handler: src/app/api/ocr/route.ts *)
(* ===================================================================== *)

Module Route.

Definition resolveModel (env : string -> option string) : string :=
  if JS.truthy (JS.opt_or_else (env "OCR_MODEL") "") then
    JS.opt_or_else (env "OCR_MODEL") ""
  else
    let provider := JS.toLowerCase (JS.opt_or_else (env "OCR_PROVIDER") "together") in
    if String.eqb provider "openrouter" then
      JS.opt_or_else (env "OPENROUTER_MODEL") "meta-llama/llama-4-maverick:free"
    else
      JS.opt_or_else (env "TOGETHER_VISION_MODEL")
                     "meta-llama/Llama-4-Scout-17B-16E-Instruct".

Definition buildSystemPrompt (targetLang : string) : string :=
  JS.join JS.nl [
    "You are a reliable, precise vision OCR engine.";
    "Goal: accurately extract the text and structure from the image and return valid Markdown.";
    "General rules:";
    languageDirective targetLang;
    "- Do not hallucinate. If something is missing or unreadable, use 'UNKNOWN'.";
    "- Preserve the logical reading order (left → right, top → bottom).";
    "- Preserve case, numbers, dates, symbols, units, and punctuation.";
    "- For tables, render as proper Markdown tables with headers if present.";
    "- For lists, use Markdown lists (unordered or ordered).";
    "- For headings, use consistent Markdown levels (#, ##, ###).";
    "- Do not add explanations beyond OCR content.";
    "- Return only valid Markdown."
  ].

(** The accepted types: [image/jpeg] and [image/png] only. *)
Definition invalidMime (file : File) : bool :=
  negb (JS.startsWith (type file) "image/")
  || (negb (String.eqb (type file) "image/jpeg")
      && negb (String.eqb (type file) "image/png")).

Definition userText (targetLang : string) : string :=
  translateHint targetLang
    ++ " Analyze this image, extract text and structure, and return valid Markdown.".

(** The data URL built from the accepted file. *)
Definition dataUrl (file : File) : string :=
  let base64 := JS.base64 (arrayBuffer file) in
  let mimeType := JS.or_else (type file) "image/jpeg" in
  "data:" ++ mimeType ++ ";base64," ++ base64.

Definition providerArgs (rt : Runtime) (targetLang : string) (dataUrl : string)
    : GenerateTextArgs :=
  {| model := (createClient (process_env rt), resolveModel (process_env rt));
     temperature := 2 # 10;
     maxSteps := None;
     system := buildSystemPrompt targetLang;
     messages :=
       [ {| role := "user";
            content := [ TextPart (userText targetLang); ImagePart dataUrl ] |} ] |}.

(** The body of the [try] block once [req.formData()] has settled. *)
Definition dispatch (rt : Runtime) (form : FormData) : Eff Response :=
  (let single := Form.get "file" form in
   let targetLang := Form.string_or (Form.get "targetLang" form) "auto" in
   match single with
   | Some (EntryFile file) =>
       if invalidMime file then
         emit (console_warn "/api/ocr: invalid mime type") ;;;
         ret (new_Response "Only JPEG and PNG images are accepted" 415 [])
       else if (maxSize <? size file)%N then
         emit (console_warn "/api/ocr: file too large") ;;;
         ret (new_Response
                ("Fichier trop volumineux ("
                   ++ JS.number_to_string (JS.round_MiB (size file))
                   ++ "MB > 4MB).")%string 413 [])
       else
         _ <- await (file_arrayBuffer file) (Resolved (arrayBuffer file)) ;;
         emit (console_info "/api/ocr: request") ;;;
         emit (console_info "/api/ocr: prepare call") ;;;
         text <- callProvider rt (providerArgs rt targetLang (dataUrl file)) ;;
         emit (console_info "/api/ocr: success") ;;;
         ret (new_Response text 200 [("content-type", markdownContentType)])
   | _ =>
       emit (console_warn "/api/ocr: missing or invalid file field") ;;;
       ret (new_Response "Missing image file (JPEG/PNG only)" 400 [])
   end)%eff.

(** The [try] block, from its first statement. *)
Definition handle (rt : Runtime) (req : NextRequest) : Eff Response :=
  (let contentType := JS.opt_or_else (content_type req) "" in
   if negb (JS.includes contentType "multipart/form-data") then
     emit (console_warn "/api/ocr: invalid content-type") ;;;
     ret (new_Response "Content-Type must be multipart/form-data" 400 [])
   else
     form <- await req_formData (formData req) ;;
     dispatch rt form)%eff.

Definition POST (rt : Runtime) (req : NextRequest) : Eff Response :=
  try_catch (handle rt req) failure.

End Route.

(* ===================================================================== *)
(** ** The multi-page handler with JSON output (second revision of
       route.ts, kept under src/unnamed) *)
(* ===================================================================== *)

Module RouteMulti.

Definition resolveModel (env : string -> option string) : string :=
  if JS.truthy (JS.opt_or_else (env "OCR_MODEL") "") then
    JS.opt_or_else (env "OCR_MODEL") ""
  else
    let provider := JS.toLowerCase (JS.opt_or_else (env "OCR_PROVIDER") "together") in
    if String.eqb provider "openrouter" then
      JS.opt_or_else (env "OPENROUTER_MODEL")
                     "mistralai/mistral-small-3.2-24b-instruct:free"
    else
      JS.opt_or_else (env "TOGETHER_VISION_MODEL")
                     "meta-llama/Llama-4-Scout-17B-16E-Instruct".

Definition buildSystemPrompt (targetLang format : string) : string :=
  if String.eqb format "json" then
    JS.join JS.nl [
      "You are a reliable, precise vision OCR engine.";
      "Goal: detect the document type and return STRICT JSON only (no extra text).";
      languageDirective targetLang;
      "Rules:";
      "- Return ONLY valid JSON (no prose, no code fences).";
      "- No hallucinations: omit unknown fields; use 'UNKNOWN' if unreadable.";
      "- Keys MUST be camelCase; values plain strings/numbers/arrays/objects.";
      "- Include language (BCP-47) and text in reading order.";
      "Suggested flexible schema (include only relevant keys):";
      "{";
      "  documentType: string,";
      "  language?: string,";
      "  title?: string,";
      "  text: string,";
      "  keyValues?: [{ key: string, value: string }],";
      "  sections?: [{ title?: string, keyValues?: [{ key: string, value: string }], paragraphs?: string[] }],";
      "  lists?: [{ ordered: boolean, items: string[] }],";
      "  tables?: [{ headers?: string[], rows: string[][] }],";
      "  entities?: [{ label: string, value: string }],";
      "  totals?: { currency?: string, subtotal?: number, tax?: number, tip?: number, total?: number },";
      "  parties?: { seller?: { name?: string, address?: string, vatId?: string }, buyer?: { name?: string, address?: string, vatId?: string } },";
      "  references?: { invoiceNumber?: string, orderNumber?: string, transactionId?: string }";
      "}";
      "Constraints:";
      "- Dates ISO when possible (YYYY-MM-DD); amounts as numbers (no currency symbol).";
      "- Preserve numbers, currency symbols in text where applicable."
    ]
  else
    JS.join JS.nl [
      "You are a reliable, precise vision OCR engine.";
      "Goal: accurately extract the text and structure from the image and return valid Markdown.";
      "General rules:";
      languageDirective targetLang;
      "- Do not hallucinate. If something is missing or unreadable, use 'UNKNOWN'.";
      "- Preserve the logical reading order (left → right, top → bottom).";
      "- Preserve case, numbers, dates, symbols, units, and punctuation.";
      "- For tables, render as proper Markdown tables with headers if present.";
      "- For lists, use Markdown lists (unordered or ordered).";
      "- For headings, use consistent Markdown levels (#, ##, ###).";
      "- Do not add explanations beyond OCR content.";
      "- Return only valid Markdown."
    ].

(** [inputFiles]: the array filled by the two [push] statements. *)
Definition push_if_File (acc : list File) (v : FormDataEntryValue) : list File :=
  match v with
  | EntryFile f => acc ++ [f]
  | EntryString _ => acc
  end.

Definition inputFiles (form : FormData) : list File :=
  let single := Form.get "file" form in
  let many := Form.getAll "files[]" form in
  let inputFiles := [] in
  let inputFiles :=
    match single with
    | Some v => push_if_File inputFiles v
    | None => inputFiles
    end in
  fold_left push_if_File many inputFiles.

(** The first file the MIME loop stops at, if any. *)
Definition invalidMime (f : File) : bool :=
  negb (JS.startsWith (type f) "image/").

(** [inputFiles.reduce((s, f) => s + f.size, 0)] *)
Definition totalSize (files : list File) : N :=
  fold_left (fun s f => (s + size f)%N) files 0%N.

Record DataUrl : Type := mkDataUrl {
  dataUrl : string;
  mimeType : string;
  dsize : N
}.

(** The record pushed on [dataUrls] for one file. *)
Definition encoded (f : File) : DataUrl :=
  let base64 := JS.base64 (arrayBuffer f) in
  let mimeType := JS.or_else (type f) "image/jpeg" in
  {| dataUrl := "data:" ++ mimeType ++ ";base64," ++ base64;
     mimeType := mimeType;
     dsize := size f |}.

Definition encodeFile (f : File) : Eff DataUrl :=
  (_ <- await (file_arrayBuffer f) (Resolved (arrayBuffer f)) ;;
   ret (encoded f))%eff.

Definition userText (targetLang format : string) : string :=
  if String.eqb format "json" then
    translateHint targetLang
      ++ " Analyze these page image(s) and return ONLY valid JSON following the schema and rules above."
  else
    translateHint targetLang
      ++ " Analyze these page image(s), extract text and structure, and return valid Markdown.".

Definition providerArgs (rt : Runtime) (targetLang format : string)
    (dataUrls : list DataUrl) : GenerateTextArgs :=
  {| model := (createClient (process_env rt), resolveModel (process_env rt));
     temperature := 1 # 10;
     maxSteps := Some 1%N;
     system := buildSystemPrompt targetLang format;
     messages :=
       [ {| role := "user";
            content := TextPart (userText targetLang format)
                         :: map (fun d => ImagePart (dataUrl d)) dataUrls |} ] |}.

(** The normalisation of the provider's text into the response.  In
    the JSON branch the [try] covers [JSON.parse] and the
    [Response.json] of the parsed value alike; the [catch] answers the
    text wrapped in an object. *)
Definition respond (rt : Runtime) (format text : string) : Eff Response :=
  (if String.eqb format "json" then
     try_catch
       match JSON_parse rt text with
       | Some parsed => Response_json rt parsed
       | None => throw (JsError "Unexpected token in JSON")
       end
       (fun _ => Response_json rt (JObject [("content", JString text)]))
   else
     emit (console_info "/api/ocr: success") ;;;
     ret (new_Response text 200 [("content-type", markdownContentType)]))%eff.

(** The body of the [try] block once [req.formData()] has settled. *)
Definition dispatch (rt : Runtime) (form : FormData) : Eff Response :=
  (let targetLang := Form.string_or (Form.get "targetLang" form) "auto" in
   let inputFiles := inputFiles form in
   if (length inputFiles =? 0)%nat then
     emit (console_warn "/api/ocr: missing or invalid file(s) field") ;;;
     ret (new_Response "Missing image file(s) (JPEG/PNG only)" 400 [])
   else
     match find invalidMime inputFiles with
     | Some _ =>
         emit (console_warn "/api/ocr: invalid mime type") ;;;
         ret (new_Response
                "Only JPEG and PNG images are accepted (PDF must be converted client-side)"
                415 [])
     | None =>
         let totalSize := totalSize inputFiles in
         if (maxSize <? totalSize)%N then
           emit (console_warn "/api/ocr: files too large") ;;;
           ret (new_Response
                  ("Fichiers trop volumineux ("
                     ++ JS.number_to_string (JS.round_MiB totalSize)
                     ++ "MB > 4MB).")%string 413 [])
         else
           dataUrls <- mapM encodeFile inputFiles ;;
           let format := Form.string_or (Form.get "format" form) "markdown" in
           emit (console_info "/api/ocr: request") ;;;
           emit (console_info "/api/ocr: prepare call") ;;;
           text <- callProvider rt (providerArgs rt targetLang format dataUrls) ;;
           respond rt format text
     end)%eff.

(** The [try] block, from its first statement. *)
Definition handle (rt : Runtime) (req : NextRequest) : Eff Response :=
  (let contentType := JS.opt_or_else (content_type req) "" in
   if negb (JS.includes contentType "multipart/form-data") then
     emit (console_warn "/api/ocr: invalid content-type") ;;;
     ret (new_Response "Content-Type must be multipart/form-data" 400 [])
   else
     form <- await req_formData (formData req) ;;
     dispatch rt form)%eff.

Definition POST (rt : Runtime) (req : NextRequest) : Eff Response :=
  try_catch (handle rt req) failure.

End RouteMulti.

(* ===================================================================== *)
(** ** The client preprocessor: compressImage *)
(* ===================================================================== *)

Module Client.

(** A canvas at the moment [toBlob] is called: its bitmap dimensions and
    what was drawn on it (image, destination width and height). *)
Record Canvas : Type := mkCanvas {
  width : N;
  height : N;
  drawn : option (File * Q * Q)
}.

Record Blob : Type := mkBlob {
  blob_type : string;
  blob_bytes : list byte
}.

(** The browser: the dimensions of the decoded image when [onload]
    fires ([None] when it never does), whether a 2d context is
    available, and the encoder behind [canvas.toBlob]. *)
Record Browser : Type := mkBrowser {
  decode : File -> option (N * N);
  getContext2d : bool;
  toBlob : Canvas -> string -> Q -> option Blob
}.

(** [new File([blob], name, { type })] *)
Definition new_File (blob : Blob) (nm ty : string) : File :=
  {| name := nm;
     type := ty;
     size := N.of_nat (length (blob_bytes blob));
     arrayBuffer := blob_bytes blob |}.

Definition of_N (n : N) : Q := inject_Z (Z.of_N n).

Definition Qgt_bool (a b : Q) : bool := negb (Qle_bool a b).

(** The new [width] and [height] computed in [img.onload].  The source
    computes in doubles; the dimensions of an image are integers, their
    products with [maxDimension] are exact and the quotients are taken
    here as exact rationals. *)
Definition scale (maxDimension : N) (w h : N) : Q * Q :=
  let width := of_N w in
  let height := of_N h in
  let maxDimension := of_N maxDimension in
  if Qgt_bool width height && Qgt_bool width maxDimension then
    let height := (height * maxDimension) / width in
    let width := maxDimension in
    (width, height)
  else if Qgt_bool height maxDimension then
    let width := (width * maxDimension) / height in
    let height := maxDimension in
    (width, height)
  else (width, height).

(** Assignment to [canvas.width] / [canvas.height], an [unsigned long]
    attribute: the fraction is dropped. *)
Definition to_unsigned_long (x : Q) : N := (Z.to_N (Qfloor x) mod 2 ^ 32)%N.

(** The canvas handed to [toBlob]. *)
Definition render (br : Browser) (maxDimension : N) (file : File) (w h : N) : Canvas :=
  let '(width, height) := scale maxDimension w h in
  {| width := to_unsigned_long width;
     height := to_unsigned_long height;
     drawn := if getContext2d br then Some (file, width, height) else None |}.

(** [compressImage(file)]: what the returned promise resolves to, [None]
    when it stays pending. *)
Definition compressImage (maxDimension : N) (quality : Q) (br : Browser)
    (file : File) : option File :=
  match decode br file with
  | None => None
  | Some (w, h) =>
      let canvas := render br maxDimension file w h in
      match toBlob br canvas "image/jpeg" quality with
      | Some blob => Some (new_File blob (name file) "image/jpeg")
      | None => Some file
      end
  end.

(** The single-image client (the two earlier revisions of page.tsx):
    [maxDimension = 1200], quality [0.8]. *)
Definition compressImage_single : Browser -> File -> option File :=
  compressImage 1200 (8 # 10).

(** The multi-page client (src/app/page.tsx): [maxDimension = 720],
    quality [0.6]. *)
Definition compressImage_multi : Browser -> File -> option File :=
  compressImage 720 (6 # 10).

(** The encoder is faithful when the image it produces from a canvas
    decodes to the dimensions of that canvas. *)
Definition faithful (br : Browser) : Prop :=
  forall canvas ty q blob nm ty',
    toBlob br canvas ty q = Some blob ->
    decode br (new_File blob nm ty') = Some (width canvas, height canvas).

(** The longest dimension of a file, as the browser decodes it. *)
Definition longest (br : Browser) (f : File) : option N :=
  match decode br f with
  | Some (w, h) => Some (N.max w h)
  | None => None
  end.

End Client.

(* ===================================================================== *)
(** ** Vocabulary of the statements *)
(* ===================================================================== *)

(** The status of the response a run ends with. *)
Definition status_of (m : Eff Response) : option N :=
  match outcome m with
  | Resolved r => Some (status r)
  | _ => None
  end.

(** The Content-Type header declares multipart form data. *)
Definition multipart (req : NextRequest) : bool :=
  JS.includes (JS.opt_or_else (content_type req) "") "multipart/form-data".

Definition isImage (f : File) : bool := JS.startsWith (type f) "image/".

Fixpoint Files_of (vs : list FormDataEntryValue) : list File :=
  match vs with
  | [] => []
  | EntryFile f :: rest => f :: Files_of rest
  | EntryString _ :: rest => Files_of rest
  end.

(** The image sequence as the specification words it: the singular
    [file] first, if present, then the [files[]] entries in submission
    order. *)
Definition imageSequence (form : FormData) : list File :=
  match Form.get "file" form with
  | Some (EntryFile f) => [f]
  | _ => []
  end ++ Files_of (Form.getAll "files[]" form).

(** The image part sent to the provider for an accepted file. *)
Definition imagePart (f : File) : ContentPart :=
  ImagePart ("data:" ++ type f ++ ";base64," ++ JS.base64 (arrayBuffer f)).

(** A form passes the three file checks of the multi-page handler. *)
Definition accepted (form : FormData) : bool :=
  negb (length (RouteMulti.inputFiles form) =? 0)%nat
  && forallb isImage (RouteMulti.inputFiles form)
  && (RouteMulti.totalSize (RouteMulti.inputFiles form) <=? maxSize)%N.

(** The format the multi-page handler works with. *)
Definition formatOf (form : FormData) : string :=
  Form.string_or (Form.get "format" form) "markdown".

Definition targetLangOf (form : FormData) : string :=
  Form.string_or (Form.get "targetLang" form) "auto".

(** The call the multi-page handler issues for an accepted form. *)
Definition callOf (rt : Runtime) (form : FormData) : GenerateTextArgs :=
  RouteMulti.providerArgs rt (targetLangOf form) (formatOf form)
    (map RouteMulti.encoded (RouteMulti.inputFiles form)).

(** The object the JSON branch falls back to, and its serialisation:
    one member, [content], holding the text as a string literal. *)
Definition wrapped (text : string) : JSON := JObject [("content", JString text)].

Definition wrappedBody (text : string) : string :=
  ("{" ++ Json.quote "content" ++ ":" ++ Json.quote text ++ "}")%string.

(** The body the JSON branch answers to the provider's [text]: the
    serialisation of the parsed value when the text parses and the value
    serialises, that of the wrapped text otherwise. *)
Definition jsonBody (rt : Runtime) (text : string) : string :=
  match JSON_parse rt text with
  | Some parsed =>
      match JSON_stringify rt parsed with
      | Some serialised => serialised
      | None => wrappedBody text
      end
  | None => wrappedBody text
  end.

(** The response [Response.json] builds around a serialisation. *)
Definition jsonResponse (serialised : string) : Response :=
  {| status := 200;
     headers := [("content-type", "application/json")];
     body := BodyText serialised |}.

(** A run that stops at a validation step: one warning, one response. *)
Definition rejected (msg : string) (r : Response) : Eff Response :=
  ([console_warn msg], Resolved r).

(** The events of an accepted request of the multi-page handler, from
    the reading of the files up to and including the call. *)
Definition upToCall (rt : Runtime) (form : FormData) : list Event :=
  map file_arrayBuffer (RouteMulti.inputFiles form)
    ++ [console_info "/api/ocr: request";
        console_info "/api/ocr: prepare call";
        provider_call (callOf rt form)].

(** The message of the outer [catch]. *)
Definition messageOf (err : Thrown) : string :=
  match err with JsError m => m | NonError => "unknown" end.

(** A request with a readable body. *)
Definition requestOf (ct : option string) (form : FormData) : NextRequest :=
  {| content_type := ct; formData := Resolved form |}.

(** The form with a leading entry, which is what [form.get] then returns. *)
Definition withField (key : string) (v : FormDataEntryValue) (form : FormData)
    : FormData :=
  (key, v) :: form.

(** The form without the entries of a given name. *)
Definition without (key : string) (form : FormData) : FormData :=
  filter (fun kv => negb (String.eqb (fst kv) key)) form.

(** The files whose content a run reads, in order. *)
Definition files_read {A} (m : Eff A) : list File :=
  flat_map (fun e => match e with file_arrayBuffer f => [f] | _ => [] end)
           (trace m).



(** A string without a space character, as a language code is. *)
Fixpoint nospace (s : string) : bool :=
  match s with
  | EmptyString => true
  | String c rest => negb (Ascii.eqb c " ") && nospace rest
  end.

(** The words of a string: what lies between its space characters. *)
Fixpoint words (s : string) : list string :=
  match s with
  | EmptyString => [EmptyString]
  | String c rest =>
      if Ascii.eqb c " " then EmptyString :: words rest
      else match words rest with
           | [] => [String c EmptyString]
           | w :: ws => String c w :: ws
           end
  end.

(** The concrete language codes the clients offer. *)
Definition languageCodes : list string :=
  ["en"; "fr"; "es"; "de"; "it"; "pt"; "nl"; "ja"; "zh"].

(** The outcome asked of [compressImage maxDimension quality br file]
    for an image decoded at [w] x [h]. *)
Definition compressed_or_original (maxDimension : N) (quality : Q)
    (br : Client.Browser) (file : File) (w h : N) (out : File) : Prop :=
  let canvas := Client.render br maxDimension file w h in
  match Client.toBlob br canvas "image/jpeg" quality with
  | Some _ =>
      type out = "image/jpeg"
      /\ exists d, Client.longest br out = Some d /\ (d <= maxDimension)%N
  | None => out = file
  end.

(* ===================================================================== *)
(** ** Sample inputs *)
(* ===================================================================== *)

Module Sample.

Definition MiB : N := 1024 * 1024.

Definition png (sz : N) : File :=
  {| name := "scan.png"; type := "image/png"; size := sz;
     arrayBuffer := [x4d; x61; x6e]%byte |}.

Definition gif : File :=
  {| name := "anim.gif"; type := "image/gif"; size := 2048;
     arrayBuffer := [x47; x49; x46]%byte |}.

Definition pdf (sz : N) : File :=
  {| name := "doc.pdf"; type := "application/pdf"; size := sz;
     arrayBuffer := [x25; x50; x44; x46]%byte |}.

(** A provider that answers every call with the same text, in an engine
    whose [JSON.parse] reads the text [null] and no other. *)
Definition answering (text : string) : Runtime :=
  {| process_env := fun _ => None;
     generateText := fun _ => Resolved text;
     JSON_parse := fun s => if String.eqb s "null" then Some JNull else None;
     Number_toString := fun q => JS.number_to_string (Z.to_N (Qfloor q));
     stack_depth := 100 |}.

Definition request (ct : string) (form : FormData) : NextRequest :=
  {| content_type := Some ct; formData := Resolved form |}.

Definition multipartCT : string := "multipart/form-data; boundary=----x".

(** A browser whose encoder succeeds on the 720 x 480 canvas only, with
    a two-byte blob, and whose decoder recognises such a blob; any other
    file decodes as a 1440 x 960 image. *)
Definition jpeg720x480 : list byte := [xff; xd8]%byte.

Definition browser : Client.Browser :=
  {| Client.decode := fun f =>
       if (length (arrayBuffer f) =? 2)%nat
       then Some (720, 480)%N else Some (1440, 960)%N;
     Client.getContext2d := true;
     Client.toBlob := fun c _ _ =>
       if ((Client.width c =? 720) && (Client.height c =? 480))%N
       then Some {| Client.blob_type := "image/jpeg";
                    Client.blob_bytes := jpeg720x480 |}
       else None |}.

Definition photo : File :=
  {| name := "photo.png"; type := "image/png"; size := 3;
     arrayBuffer := [x89; x50; x4e]%byte |}.

End Sample.

(* ===================================================================== *)
(** ** The page: file selection and submission (src/app/page.tsx) *)
(* ===================================================================== *)

Module Page.

(** What [pdfToImg] resolves to: [string | string[]]. *)
Inductive PdfImages : Type :=
| OneImage (url : string)
| ManyImages (urls : list string).

(** A fetched asset: [response.ok] and [response.blob()]. *)
Record AssetResponse : Type := mkAsset {
  asset_ok : bool;
  asset_blob : Client.Blob
}.

(** The answer of [fetch("/api/ocr")]: [res.status] and [res.text()]. *)
Record OcrResponse : Type := mkOcrResponse {
  res_status : N;
  res_text : string
}.

(** [res.ok] *)
Definition res_ok (res : OcrResponse) : bool :=
  ((200 <=? res_status res) && (res_status res <=? 299))%N.

(** What the page runs against: the browser of [compressImage], the PDF
    rasteriser (source file, page selection, scale), [fetch] of an asset
    or object URL ([None] for [undefined]), what awaiting [fetch] of
    the endpoint comes to, [JSON.parse] behind [res.json()] and
    [JSON.stringify(_, null, 2)]. *)
Record Env : Type := mkEnv {
  browser : Client.Browser;
  pdfToImg : File -> string -> Q -> Thrown + PdfImages;
  fetch : option string -> Thrown + AssetResponse;
  fetchOcr : FormData -> Task OcrResponse;
  res_json : string -> Thrown + JSON;
  JSON_stringify : JSON -> string
}.

(** The React state of [Home]. *)
Record State : Type := mkState {
  dragOver : bool;
  imageFile : option File;
  pdfFile : option File;
  targetLang : string;
  outputFormat : string;
  result : string;
  loading : bool
}.

Definition setDragOver (b : bool) (st : State) : State :=
  {| dragOver := b; imageFile := imageFile st; pdfFile := pdfFile st;
     targetLang := targetLang st; outputFormat := outputFormat st;
     result := result st; loading := loading st |}.

Definition setImageFile (f : option File) (st : State) : State :=
  {| dragOver := dragOver st; imageFile := f; pdfFile := pdfFile st;
     targetLang := targetLang st; outputFormat := outputFormat st;
     result := result st; loading := loading st |}.

Definition setPdfFile (f : option File) (st : State) : State :=
  {| dragOver := dragOver st; imageFile := imageFile st; pdfFile := f;
     targetLang := targetLang st; outputFormat := outputFormat st;
     result := result st; loading := loading st |}.

Definition setResult (r : string) (st : State) : State :=
  {| dragOver := dragOver st; imageFile := imageFile st; pdfFile := pdfFile st;
     targetLang := targetLang st; outputFormat := outputFormat st;
     result := r; loading := loading st |}.

Definition setLoading (b : bool) (st : State) : State :=
  {| dragOver := dragOver st; imageFile := imageFile st; pdfFile := pdfFile st;
     targetLang := targetLang st; outputFormat := outputFormat st;
     result := result st; loading := b |}.

(** [if (images)]: an array is truthy, a string unless it is empty. *)
Definition truthyImages (images : PdfImages) : bool :=
  match images with
  | OneImage url => JS.truthy url
  | ManyImages _ => true
  end.

(** [Array.isArray(images) ? images[0] : images] *)
Definition firstImage (images : PdfImages) : option string :=
  match images with
  | OneImage url => Some url
  | ManyImages urls => hd_error urls
  end.

(** The preview of a PDF: its first page as a JPEG file, or nothing when
    any step fails (the [catch] ignores the failure). *)
Definition previewOf (env : Env) (file : File) (scale : Q) : option File :=
  match pdfToImg env file "firstPage" scale with
  | inl _ => None
  | inr images =>
      if truthyImages images then
        match fetch env (firstImage images) with
        | inl _ => None
        | inr response =>
            Some (Client.new_File (asset_blob response)
                    (name file ++ "-page1.jpg") "image/jpeg")
        end
      else None
  end.

(** The part [onDrop] and [onSelectFile] share, from [setResult("")]. *)
Definition choose (env : Env) (scale : Q) (file : File) (st : State) : State :=
  let st := setResult "" st in
  if String.eqb (type file) "application/pdf" then
    let st := setPdfFile (Some file) st in
    let st := setImageFile None st in
    match previewOf env file scale with
    | Some previewFile => setImageFile (Some previewFile) st
    | None => st
    end
  else if String.eqb (type file) "image/jpeg" || String.eqb (type file) "image/png" then
    let st := setImageFile (Some file) st in
    setPdfFile None st
  else st.

(** [onDrop], [file] being [e.dataTransfer.files?.[0]]. *)
Definition onDrop (env : Env) (file : option File) (st : State) : State :=
  let st := setDragOver false st in
  match file with
  | None => st
  | Some file => choose env (8 # 10) file st
  end.

(** [onSelectFile], [file] being [e.target.files?.[0] || null]. *)
Definition onSelectFile (env : Env) (file : option File) (st : State) : State :=
  match file with
  | None => st
  | Some file => choose env 1 file st
  end.

Definition importExample (env : Env) (st : State) : State :=
  match fetch env (Some "/example.jpg") with
  | inl _ => st
  | inr response =>
      if negb (asset_ok response) then st
      else
        let file := Client.new_File (asset_blob response) "example.jpg" "image/jpeg" in
        let st := setImageFile (Some file) st in
        let st := setPdfFile None st in
        setResult "" st
  end.

Definition importExamplePdf (env : Env) (st : State) : State :=
  match fetch env (Some "/example.pdf") with
  | inl _ => st
  | inr response =>
      if negb (asset_ok response) then st
      else
        let file := Client.new_File (asset_blob response) "example.pdf" "application/pdf" in
        let st := setPdfFile (Some file) st in
        let st := setImageFile None st in
        let st :=
          match previewOf env file (8 # 10) with
          | Some previewFile => setImageFile (Some previewFile) st
          | None => st
          end in
        setResult "" st
  end.

Definition andThen {A B} (t : Task A) (k : A -> Task B) : Task B :=
  match t with
  | Resolved a => k a
  | Rejected err => Rejected err
  | Pending => Pending
  end.

Definition settled {A} (r : Thrown + A) : Task A :=
  match r with
  | inl err => Rejected err
  | inr a => Resolved a
  end.

Definition catch {A} (t : Task A) (handler : Thrown -> Task A) : Task A :=
  match t with
  | Rejected err => handler err
  | _ => t
  end.

(** [await compressImage(file)] *)
Definition compressImage (env : Env) (file : File) : Task File :=
  match Client.compressImage_multi (browser env) file with
  | Some out => Resolved out
  | None => Pending
  end.

(** [form.append(key, value)] *)
Definition append (key : string) (v : FormDataEntryValue) (form : FormData) : FormData :=
  form ++ [(key, v)].

(** One page image: fetched, wrapped in a JPEG-typed file, compressed. *)
Definition pageOf (env : Env) (pdf : File) (url : string) (i : N) : Task File :=
  andThen (settled (fetch env (Some url))) (fun response =>
    let pageFile :=
      Client.new_File (asset_blob response)
        (name pdf ++ "-page" ++ JS.number_to_string (i + 1) ++ ".jpg") "image/jpeg" in
    compressImage env pageFile).

(** The loop [for (let i = 0; i < images.length; i++)] from index [i]. *)
Fixpoint appendPages (env : Env) (pdf : File) (urls : list string) (i : N)
    (form : FormData) : Task FormData :=
  match urls with
  | [] => Resolved form
  | url :: rest =>
      andThen (pageOf env pdf url i) (fun compressed =>
        appendPages env pdf rest (i + 1) (append "files[]" (EntryFile compressed) form))
  end.

(** The form of [runOcr], up to the call of [fetch]. *)
Definition buildForm (env : Env) (st : State) : Task FormData :=
  let form : FormData := [] in
  andThen
    match pdfFile st with
    | Some pdf =>
        catch
          (andThen (settled (pdfToImg env pdf "all" (8 # 10))) (fun images =>
             match images with
             | ManyImages urls => appendPages env pdf urls 0 form
             | OneImage url =>
                 if JS.truthy url then
                   andThen (pageOf env pdf url 0) (fun compressed =>
                     Resolved (append "file" (EntryFile compressed) form))
                 else Resolved form
             end))
          (fun _ => Rejected (JsError "Failed to convert PDF to images"))
    | None =>
        match imageFile st with
        | Some image =>
            andThen (compressImage env image) (fun compressedFile =>
              Resolved (append "file" (EntryFile compressedFile) form))
        | None => Resolved form
        end
    end
    (fun form =>
       let form := append "targetLang" (EntryString (targetLang st)) form in
       Resolved (append "format" (EntryString (outputFormat st)) form)).

(** From the answer of the endpoint to the text shown. *)
Definition readAnswer (env : Env) (st : State) (res : OcrResponse) : Task string :=
  if negb (res_ok res) then
    let errText := res_text res in
    Rejected (JsError (JS.or_else errText ("HTTP " ++ JS.number_to_string (res_status res))))
  else if String.eqb (outputFormat st) "json" then
    andThen (settled (res_json env (res_text res))) (fun data =>
      Resolved (JSON_stringify env data))
  else Resolved (res_text res).

(** A run of [runOcr]: finished, with the state it leaves and the
    requests it sent, or hanging on a promise that never settles.  The
    optional analytics calls ([window.umami?.track?.(...)]) are left
    out. *)
Inductive Run : Type :=
| Done (st : State) (sent : list FormData)
| Hanging (st : State).

Definition failed (err : Thrown) (st : State) : State :=
  let message := match err with JsError m => m | NonError => "unknown" end in
  setLoading false (setResult ("Erreur: " ++ message) st).

(** What the result pane renders:
    [result || (loading ? "Analysing..." : "No result yet.")]. *)
Definition rendered (st : State) : string :=
  JS.or_else (result st) (if loading st then "Analysing..." else "No result yet.").

Definition runOcr (env : Env) (st : State) : Run :=
  match imageFile st, pdfFile st with
  | None, None => Done st []
  | _, _ =>
      let st := setResult "" (setLoading true st) in
      match buildForm env st with
      | Pending => Hanging st
      | Rejected err => Done (failed err st) []
      | Resolved form =>
          match andThen (fetchOcr env form) (readAnswer env st) with
          | Pending => Hanging st
          | Rejected err => Done (failed err st) [form]
          | Resolved text => Done (setLoading false (setResult text st)) [form]
          end
      end
  end.

End Page.

(* ===================================================================== *)
(** ** Vocabulary of the further statements *)
(* ===================================================================== *)

(** The statuses the handlers answer with. *)
Definition knownStatus (st : N) : bool :=
  ((st =? 200) || (st =? 400) || (st =? 413) || (st =? 415) || (st =? 500))%N.

(** The provider the environment selects. *)
Definition providerOf (env : string -> option string) : string :=
  JS.toLowerCase (JS.opt_or_else (env "OCR_PROVIDER") "together").

(** The Together key the environment provides, if any. *)
Definition togetherKey (env : string -> option string) : string :=
  JS.or_else (JS.opt_or_else (env "TOGETHER_AI_API_KEY") "")
             (JS.opt_or_else (env "TOGETHER_API_KEY") "").

(** The files of the state have the types the page selects them by. *)
Definition imageTyped (f : File) : Prop :=
  type f = "image/jpeg" \/ type f = "image/png".

Definition wellTyped (st : Page.State) : Prop :=
  (forall f, Page.imageFile st = Some f -> imageTyped f)
  /\ (forall f, Page.pdfFile st = Some f -> type f = "application/pdf").

(** The files a form carries, whatever the field. *)
Fixpoint filesOf (form : FormData) : list File :=
  match form with
  | [] => []
  | (_, EntryFile f) :: rest => f :: filesOf rest
  | (_, EntryString _) :: rest => filesOf rest
  end.

(** The endpoint as [fetch] sees it: the browser declares the multipart
    content type of a [FormData] body, the body of the response is its
    text, and no answer comes while the handler has not returned. *)
Definition formContentType : string := "multipart/form-data; boundary=----form".

Definition viaServer (handler : NextRequest -> Eff Response)
    (form : FormData) : Task Page.OcrResponse :=
  match outcome (handler (requestOf (Some formContentType) form)) with
  | Resolved r =>
      Resolved {| Page.res_status := status r;
                  Page.res_text := match body r with BodyText text => text end |}
  | Rejected err => Rejected err
  | Pending => Pending
  end.

(** The state in which [runOcr] starts its work. *)
Definition started (st : Page.State) : Page.State :=
  Page.setResult "" (Page.setLoading true st).

Definition selected (st : Page.State) : Prop :=
  Page.imageFile st <> None \/ Page.pdfFile st <> None.

(** The text in the result pane at the end of a run, if the run ends. *)
Definition shown (run : Page.Run) : option string :=
  match run with
  | Page.Done st _ => Some (Page.rendered st)
  | Page.Hanging _ => None
  end.

Definition requests (run : Page.Run) : list FormData :=
  match run with
  | Page.Done _ sent => sent
  | Page.Hanging _ => []
  end.

(** A browser that, as the HTML standard asks, encodes no blob from a
    canvas without pixels. *)
Definition nullOnEmpty (br : Client.Browser) : Prop :=
  forall canvas ty q,
    (Client.width canvas = 0 \/ Client.height canvas = 0)%N ->
    Client.toBlob br canvas ty q = None.

(** The name given to the page of index [i] of a PDF. *)
Definition pageName (pdf : File) (i : N) : string :=
  name pdf ++ "-page" ++ JS.number_to_string (i + 1) ++ ".jpg".

Fixpoint pageNames (pdf : File) (count : nat) (i : N) : list string :=
  match count with
  | O => []
  | S count' => pageName pdf i :: pageNames pdf count' (i + 1)
  end.

(* ===================================================================== *)
(** ** Further sample inputs *)
(* ===================================================================== *)

Module Demo.

(** A provider that fails every call. *)
Definition failing (err : Thrown) : Runtime :=
  {| process_env := fun _ => None;
     generateText := fun _ => Rejected err;
     JSON_parse := fun _ => None;
     Number_toString := fun q => JS.number_to_string (Z.to_N (Qfloor q));
     stack_depth := 100 |}.

(** A provider that never answers. *)
Definition silent : Runtime :=
  {| process_env := fun _ => None;
     generateText := fun _ => Pending;
     JSON_parse := fun _ => None;
     Number_toString := fun q => JS.number_to_string (Z.to_N (Qfloor q));
     stack_depth := 100 |}.

(** Arrays nested [n] levels below the outermost one, and the text
    [JSON.parse] reads them from. *)
Fixpoint nested (n : nat) : JSON :=
  match n with
  | O => JArray []
  | S n' => JArray [nested n']
  end.

Fixpoint brackets (n : nat) : string :=
  match n with
  | O => "[]"
  | S n' => "[" ++ brackets n' ++ "]"
  end.

(** A provider that answers every call with the same text, in an engine
    whose [JSON.parse] reads three texts, as every engine reads them:
    [null]; a number literal beyond the range of the doubles; and
    arrays nested deeper than its serialiser can descend. *)
Definition engine (text : string) : Runtime :=
  {| process_env := fun _ => None;
     generateText := fun _ => Resolved text;
     JSON_parse := fun s =>
       if String.eqb s "null" then Some JNull
       else if String.eqb s "1e400" then Some (JNumber (Infinity false))
       else if String.eqb s (brackets 1001) then Some (nested 1001)
       else None;
     Number_toString := fun q => JS.number_to_string (Z.to_N (Qfloor q));
     stack_depth := 1000 |}.

(** An environment that selects OpenRouter, in mixed case. *)
Definition openrouterEnv (key : string) : option string :=
  if String.eqb key "OCR_PROVIDER" then Some "OpenRouter"
  else if String.eqb key "OPENROUTER_API_KEY" then Some "sk-or"
  else if String.eqb key "TOGETHER_VISION_MODEL" then Some "some/together-model"
  else None.

(** An environment with an explicit model and an empty provider. *)
Definition overrideEnv (key : string) : option string :=
  if String.eqb key "OCR_MODEL" then Some "acme/vision-1"
  else if String.eqb key "OCR_PROVIDER" then Some ""
  else None.

Definition blob : Client.Blob :=
  {| Client.blob_type := "image/jpeg"; Client.blob_bytes := [xff; xd8; xff]%byte |}.

(** A browser in which every image is 10000 x 10 pixels and the encoder
    works on every canvas that has pixels. *)
Definition panorama : Client.Browser :=
  {| Client.decode := fun _ => Some (10000, 10)%N;
     Client.getContext2d := true;
     Client.toBlob := fun c _ _ =>
       if ((Client.width c =? 0) || (Client.height c =? 0))%N then None
       else Some blob |}.

(** A browser in which every image is 1000 x 800 pixels. *)
Definition working : Client.Browser :=
  {| Client.decode := fun _ => Some (1000, 800)%N;
     Client.getContext2d := true;
     Client.toBlob := fun c _ _ =>
       if ((Client.width c =? 0) || (Client.height c =? 0))%N then None
       else Some blob |}.

(** A browser in which no image ever loads. *)
Definition dead : Client.Browser :=
  {| Client.decode := fun _ => None;
     Client.getContext2d := true;
     Client.toBlob := fun _ _ _ => None |}.

(** A page in front of the multi-page handler: PDFs have two pages. *)
Definition env (br : Client.Browser) (rt : Runtime) : Page.Env :=
  {| Page.browser := br;
     Page.pdfToImg := fun _ pages _ =>
       if String.eqb pages "firstPage" then inr (Page.OneImage "blob:page-1")
       else inr (Page.ManyImages ["blob:page-1"; "blob:page-2"]);
     Page.fetch := fun _ => inr {| Page.asset_ok := true; Page.asset_blob := blob |};
     Page.fetchOcr := viaServer (RouteMulti.POST rt);
     Page.res_json := fun _ => inl (JsError "Unexpected token");
     Page.JSON_stringify := fun _ => "{}" |}.

(** The same page with a rasteriser that fails, or finds no page. *)
Definition envWith (images : Thrown + Page.PdfImages) (rt : Runtime) : Page.Env :=
  {| Page.browser := working;
     Page.pdfToImg := fun _ _ _ => images;
     Page.fetch := fun _ => inr {| Page.asset_ok := true; Page.asset_blob := blob |};
     Page.fetchOcr := viaServer (RouteMulti.POST rt);
     Page.res_json := fun _ => inl (JsError "Unexpected token");
     Page.JSON_stringify := fun _ => "{}" |}.

(** A page in front of a given endpoint, in a browser whose JSON reader
    knows [null] only and whose printers always print [null]. *)
Definition envVia (fetchOcr : FormData -> Task Page.OcrResponse) : Page.Env :=
  {| Page.browser := working;
     Page.pdfToImg := fun _ pages _ =>
       if String.eqb pages "firstPage" then inr (Page.OneImage "blob:page-1")
       else inr (Page.ManyImages ["blob:page-1"; "blob:page-2"]);
     Page.fetch := fun _ => inr {| Page.asset_ok := true; Page.asset_blob := blob |};
     Page.fetchOcr := fetchOcr;
     Page.res_json := fun s =>
       if String.eqb s "null" then inr JNull
       else inl (JsError "Unexpected token # in JSON at position 0");
     Page.JSON_stringify := fun _ => "null" |}.

Definition initial : Page.State :=
  {| Page.dragOver := false; Page.imageFile := None; Page.pdfFile := None;
     Page.targetLang := "auto"; Page.outputFormat := "markdown";
     Page.result := ""; Page.loading := false |}.

Definition document : File :=
  {| name := "report.pdf"; type := "application/pdf"; size := 90000;
     arrayBuffer := [x25; x50; x44; x46]%byte |}.

Definition notes : File :=
  {| name := "notes.txt"; type := "text/plain"; size := 12;
     arrayBuffer := [x68; x69]%byte |}.

(** A PNG cut off after the first four bytes of its signature, as an
    interrupted download leaves it. *)
Definition truncated : File :=
  {| name := "scan.png"; type := "image/png"; size := 4;
     arrayBuffer := [x89; x50; x4e; x47]%byte |}.

(** A browser that loads the images which have at least the eight bytes
    of a signature, as 1000 x 800 pixels, and no other file. *)
Definition strict : Client.Browser :=
  {| Client.decode := fun f =>
       if (length (arrayBuffer f) <? 8)%nat then None else Some (1000, 800)%N;
     Client.getContext2d := true;
     Client.toBlob := fun c _ _ =>
       if ((Client.width c =? 0) || (Client.height c =? 0))%N then None
       else Some blob |}.

End Demo.

(* ===================================================================== *)
(** * Properties *)
(* ===================================================================== *)

(** ** The model on sample inputs *)

Example base64_Man : JS.base64 [x4d; x61; x6e]%byte = "TWFu".
Proof. reflexivity. Qed.

Example base64_padding : JS.base64 [x4d; x61]%byte = "TWE=" /\ JS.base64 [x4d]%byte = "TQ==".
Proof. split; reflexivity. Qed.

Example round_MiB_half_up :
  JS.round_MiB (4 * Sample.MiB + 1) = 4%N /\ JS.round_MiB (4 * Sample.MiB + Sample.MiB / 2) = 5%N.
Proof. split; reflexivity. Qed.

Example multi_png_markdown :
  RouteMulti.POST (Sample.answering "# Title")
    (Sample.request Sample.multipartCT
       [("files[]", EntryFile (Sample.png 10)); ("targetLang", EntryString "fr")])
  = ([req_formData; file_arrayBuffer (Sample.png 10);
      console_info "/api/ocr: request"; console_info "/api/ocr: prepare call";
      provider_call
        (RouteMulti.providerArgs (Sample.answering "# Title") "fr" "markdown"
           [ {| RouteMulti.dataUrl := "data:image/png;base64,TWFu";
                RouteMulti.mimeType := "image/png";
                RouteMulti.dsize := 10 |} ]);
      console_info "/api/ocr: success"],
     Resolved {| status := 200;
            headers := [("content-type", "text/markdown; charset=utf-8")];
            body := BodyText "# Title" |}).
Proof. reflexivity. Qed.

Example provider_failure_is_500 :
  RouteMulti.POST (Demo.failing (JsError "rate limited"))
    (Sample.request Sample.multipartCT [("file", EntryFile (Sample.png 10))])
  = ([req_formData; file_arrayBuffer (Sample.png 10);
      console_info "/api/ocr: request"; console_info "/api/ocr: prepare call";
      provider_call
        (RouteMulti.providerArgs (Sample.answering "") "auto" "markdown"
           [RouteMulti.encoded (Sample.png 10)]);
      console_error "/api/ocr: provider call failed";
      console_error "/api/ocr: failure"],
     Resolved (new_Response "Erreur: rate limited" 500 [])).
Proof. reflexivity. Qed.

Example scale_landscape :
  Client.width (Client.render Sample.browser 720 Sample.photo 1440 960) = 720%N
  /\ Client.height (Client.render Sample.browser 720 Sample.photo 1440 960) = 480%N.
Proof. split; reflexivity. Qed.

Example scale_fraction_dropped :
  Client.height (Client.render Sample.browser 720 Sample.photo 1000 333) = 239%N.
Proof. reflexivity. Qed.

Example languageCodes_are_codes :
  forallb (fun code => shouldTranslate code && nospace code) languageCodes = true.
Proof. reflexivity. Qed.

Example words_of_hint :
  words (translateHint "auto")
  = ["Target"; "language:"; "source"; "language"; "(no"; "translation)."].
Proof. reflexivity. Qed.

(** ** Strings *)





Lemma startsWith_nonempty (s : string) :
  JS.startsWith s "image/" = true -> JS.or_else s "image/jpeg" = s.
Proof. destruct s; [discriminate | reflexivity]. Qed.

(** ** The file checks *)

Lemma fold_push (vs : list FormDataEntryValue) (acc : list File) :
  fold_left RouteMulti.push_if_File vs acc = acc ++ Files_of vs.
Proof.
  revert acc. induction vs as [|v vs IH]; intros acc; simpl.
  - now rewrite app_nil_r.
  - destruct v as [s|f]; simpl; rewrite IH; [reflexivity|].
    now rewrite <- app_assoc.
Qed.

Lemma inputFiles_sequence (form : FormData) :
  RouteMulti.inputFiles form = imageSequence form.
Proof.
  unfold RouteMulti.inputFiles, imageSequence.
  rewrite fold_push.
  destruct (Form.get "file" form) as [[s|f]|]; reflexivity.
Qed.

Lemma find_invalid_none (files : list File) :
  find RouteMulti.invalidMime files = None <-> forallb isImage files = true.
Proof.
  unfold RouteMulti.invalidMime, isImage.
  induction files as [|f files IH]; simpl; [tauto|].
  destruct (JS.startsWith (type f) "image/"); simpl; [exact IH|].
  split; discriminate.
Qed.

(** ** Running the effects *)

Lemma mapM_encodeFile (files : list File) :
  mapM RouteMulti.encodeFile files
  = (map file_arrayBuffer files, Resolved (map RouteMulti.encoded files)).
Proof.
  induction files as [|f files IH]; simpl; [reflexivity|].
  rewrite IH. simpl. now rewrite app_nil_r.
Qed.

Lemma encoded_dataUrl (f : File) :
  isImage f = true ->
  ImagePart (RouteMulti.dataUrl (RouteMulti.encoded f)) = imagePart f.
Proof.
  intros H. unfold imagePart, RouteMulti.encoded. simpl.
  now rewrite (startsWith_nonempty _ H).
Qed.

Lemma encoded_parts (files : list File) :
  forallb isImage files = true ->
  map (fun d => ImagePart (RouteMulti.dataUrl d)) (map RouteMulti.encoded files)
  = map imagePart files.
Proof.
  induction files as [|f files IH]; [reflexivity|].
  cbn [forallb map]. intros H. apply andb_true_iff in H as [Hf Hr].
  rewrite (encoded_dataUrl _ Hf), IH; auto.
Qed.

Lemma length_eqb_pos {A} (l : list A) : l <> [] -> (length l =? 0)%nat = false.
Proof. destruct l; simpl; congruence. Qed.

Arguments RouteMulti.providerArgs : simpl never.
Arguments RouteMulti.respond : simpl never.
Arguments Route.providerArgs : simpl never.
Arguments new_Response : simpl never.

(** ** The JSON branch *)

(** The object the [catch] of the JSON branch answers. *)
Lemma stringify_wrapped (rt : Runtime) (text : string) :
  JSON_stringify rt (wrapped text) = Some (wrappedBody text).
Proof. unfold JSON_stringify. destruct (stack_depth rt); reflexivity. Qed.

Lemma respond_json (rt : Runtime) (format text : string) :
  String.eqb format "json" = true ->
  RouteMulti.respond rt format text
  = ([], Resolved (jsonResponse (jsonBody rt text))).
Proof.
  intros Hj. unfold RouteMulti.respond, jsonBody, Response_json. rewrite Hj.
  fold (wrapped text).
  destruct (JSON_parse rt text) as [parsed|];
    [destruct (JSON_stringify rt parsed)|];
    try reflexivity; simpl; rewrite stringify_wrapped; reflexivity.
Qed.

Lemma respond_markdown (rt : Runtime) (format text : string) :
  String.eqb format "json" = false ->
  RouteMulti.respond rt format text
  = ([console_info "/api/ocr: success"],
     Resolved (new_Response text 200 [("content-type", markdownContentType)])).
Proof. intros Hj. unfold RouteMulti.respond. rewrite Hj. reflexivity. Qed.

Lemma respond_returns (rt : Runtime) (format text : string) :
  exists r, outcome (RouteMulti.respond rt format text) = Resolved r
            /\ status r = 200%N.
Proof.
  destruct (String.eqb format "json") eqn:Hj.
  - rewrite (respond_json _ _ _ Hj). eexists. split; reflexivity.
  - rewrite (respond_markdown _ _ _ Hj). eexists. split; reflexivity.
Qed.

(** ** Runs of the multi-page handler *)

Section MultiRuns.

Variable rt : Runtime.

Lemma multi_not_multipart (req : NextRequest) :
  multipart req = false ->
  RouteMulti.POST rt req
  = rejected "/api/ocr: invalid content-type"
      (new_Response "Content-Type must be multipart/form-data" 400 []).
Proof.
  unfold multipart, RouteMulti.POST, RouteMulti.handle. intros ->. reflexivity.
Qed.

Lemma multi_body_unreadable (req : NextRequest) (err : Thrown) :
  multipart req = true ->
  formData req = Rejected err ->
  RouteMulti.POST rt req
  = ([req_formData; console_error "/api/ocr: failure"],
     Resolved (new_Response
            ("Erreur: " ++ messageOf err)
            500 [])).
Proof.
  unfold multipart, RouteMulti.POST, RouteMulti.handle. intros -> Hf.
  unfold await. rewrite Hf. reflexivity.
Qed.

Lemma multi_body_pending (req : NextRequest) :
  multipart req = true ->
  formData req = Pending ->
  RouteMulti.POST rt req = ([req_formData], Pending).
Proof.
  unfold multipart, RouteMulti.POST, RouteMulti.handle. intros -> Hf.
  unfold await. rewrite Hf. reflexivity.
Qed.

Lemma multi_with_form (req : NextRequest) (form : FormData) :
  multipart req = true ->
  formData req = Resolved form ->
  RouteMulti.POST rt req
  = let (t, r) := try_catch (RouteMulti.dispatch rt form) failure in
    (req_formData :: t, r).
Proof.
  unfold multipart, RouteMulti.POST, RouteMulti.handle. intros -> Hf.
  unfold await. rewrite Hf. simpl.
  destruct (RouteMulti.dispatch rt form) as [t [r|e|]]; simpl;
    first [reflexivity | destruct e; reflexivity].
Qed.

Lemma dispatch_missing (form : FormData) :
  RouteMulti.inputFiles form = [] ->
  RouteMulti.dispatch rt form
  = rejected "/api/ocr: missing or invalid file(s) field"
      (new_Response "Missing image file(s) (JPEG/PNG only)" 400 []).
Proof.
  intros H. unfold RouteMulti.dispatch. rewrite H. reflexivity.
Qed.

Lemma dispatch_invalid (form : FormData) :
  RouteMulti.inputFiles form <> [] ->
  forallb isImage (RouteMulti.inputFiles form) = false ->
  RouteMulti.dispatch rt form
  = rejected "/api/ocr: invalid mime type"
      (new_Response
         "Only JPEG and PNG images are accepted (PDF must be converted client-side)"
         415 []).
Proof.
  intros Hne Hbad. unfold RouteMulti.dispatch.
  rewrite (length_eqb_pos _ Hne).
  destruct (find RouteMulti.invalidMime (RouteMulti.inputFiles form)) eqn:E.
  - reflexivity.
  - apply find_invalid_none in E. congruence.
Qed.

Lemma dispatch_too_large (form : FormData) :
  RouteMulti.inputFiles form <> [] ->
  forallb isImage (RouteMulti.inputFiles form) = true ->
  (maxSize < RouteMulti.totalSize (RouteMulti.inputFiles form))%N ->
  RouteMulti.dispatch rt form
  = rejected "/api/ocr: files too large"
      (new_Response
         ("Fichiers trop volumineux ("
            ++ JS.number_to_string
                 (JS.round_MiB (RouteMulti.totalSize (RouteMulti.inputFiles form)))
            ++ "MB > 4MB).") 413 []).
Proof.
  intros Hne Hok Hbig. unfold RouteMulti.dispatch.
  rewrite (length_eqb_pos _ Hne).
  apply find_invalid_none in Hok. rewrite Hok.
  apply N.ltb_lt in Hbig. rewrite Hbig. reflexivity.
Qed.

Lemma accepted_inv (form : FormData) :
  accepted form = true ->
  RouteMulti.inputFiles form <> []
  /\ forallb isImage (RouteMulti.inputFiles form) = true
  /\ (RouteMulti.totalSize (RouteMulti.inputFiles form) <= maxSize)%N.
Proof.
  unfold accepted. intros H.
  apply andb_true_iff in H as [H Hsz]. apply andb_true_iff in H as [Hne Himg].
  repeat split; auto.
  - intros E. rewrite E in Hne. discriminate.
  - now apply N.leb_le.
Qed.

Lemma dispatch_accepted (form : FormData) :
  accepted form = true ->
  RouteMulti.dispatch rt form
  = match generateText rt (callOf rt form) with
    | Resolved text =>
        (upToCall rt form ++ trace (RouteMulti.respond rt (formatOf form) text),
         outcome (RouteMulti.respond rt (formatOf form) text))
    | Rejected err =>
        (upToCall rt form ++ [console_error "/api/ocr: provider call failed"],
         Rejected err)
    | Pending => (upToCall rt form, Pending)
    end.
Proof.
  intros H. apply accepted_inv in H as (Hne & Himg & Hsz).
  unfold RouteMulti.dispatch.
  rewrite (length_eqb_pos _ Hne).
  apply find_invalid_none in Himg. rewrite Himg.
  apply N.ltb_ge in Hsz. rewrite Hsz.
  rewrite mapM_encodeFile.
  unfold upToCall, callOf, targetLangOf, formatOf, callProvider, await, trace, outcome.
  simpl.
  destruct (generateText rt _) as [text|err|]; simpl.
  - destruct (RouteMulti.respond rt _ text) as [t r]. simpl.
    now rewrite <- app_assoc.
  - now rewrite <- app_assoc.
  - reflexivity.
Qed.

Lemma multi_accepted (req : NextRequest) (form : FormData) :
  multipart req = true ->
  formData req = Resolved form ->
  accepted form = true ->
  RouteMulti.POST rt req
  = match generateText rt (callOf rt form) with
    | Resolved text =>
        (req_formData :: upToCall rt form
           ++ trace (RouteMulti.respond rt (formatOf form) text),
         outcome (RouteMulti.respond rt (formatOf form) text))
    | Rejected err =>
        (req_formData :: upToCall rt form
           ++ [console_error "/api/ocr: provider call failed";
               console_error "/api/ocr: failure"],
         Resolved (new_Response
                ("Erreur: " ++ messageOf err)
                500 []))
    | Pending => (req_formData :: upToCall rt form, Pending)
    end.
Proof.
  intros Hm Hf Ha. rewrite (multi_with_form _ _ Hm Hf), (dispatch_accepted _ Ha).
  destruct (generateText rt _) as [text|err|]; simpl.
  - destruct (respond_returns rt (formatOf form) text) as (r & Hr & _).
    rewrite Hr. reflexivity.
  - rewrite <- app_assoc. destruct err; reflexivity.
  - reflexivity.
Qed.

End MultiRuns.

(** ** Runs of the single-image handler *)

Section SingleRuns.

Variable rt : Runtime.

Lemma single_not_multipart (req : NextRequest) :
  multipart req = false ->
  Route.POST rt req
  = rejected "/api/ocr: invalid content-type"
      (new_Response "Content-Type must be multipart/form-data" 400 []).
Proof.
  unfold multipart, Route.POST, Route.handle. intros ->. reflexivity.
Qed.

Lemma single_with_form (req : NextRequest) (form : FormData) :
  multipart req = true ->
  formData req = Resolved form ->
  Route.POST rt req
  = let (t, r) := try_catch (Route.dispatch rt form) failure in
    (req_formData :: t, r).
Proof.
  unfold multipart, Route.POST, Route.handle. intros -> Hf.
  unfold await. rewrite Hf. simpl.
  destruct (Route.dispatch rt form) as [t [r|e|]]; simpl;
    first [reflexivity | destruct e; reflexivity].
Qed.

Lemma single_missing (form : FormData) :
  (forall f, Form.get "file" form <> Some (EntryFile f)) ->
  Route.dispatch rt form
  = rejected "/api/ocr: missing or invalid file field"
      (new_Response "Missing image file (JPEG/PNG only)" 400 []).
Proof.
  intros H. unfold Route.dispatch.
  destruct (Form.get "file" form) as [[s|f]|]; try reflexivity.
  now elim (H f).
Qed.

Lemma single_invalid (form : FormData) (file : File) :
  Form.get "file" form = Some (EntryFile file) ->
  Route.invalidMime file = true ->
  Route.dispatch rt form
  = rejected "/api/ocr: invalid mime type"
      (new_Response "Only JPEG and PNG images are accepted" 415 []).
Proof.
  intros Hg Hbad. unfold Route.dispatch. rewrite Hg, Hbad. reflexivity.
Qed.

Lemma single_too_large (form : FormData) (file : File) :
  Form.get "file" form = Some (EntryFile file) ->
  Route.invalidMime file = false ->
  (maxSize < size file)%N ->
  Route.dispatch rt form
  = rejected "/api/ocr: file too large"
      (new_Response
         ("Fichier trop volumineux ("
            ++ JS.number_to_string (JS.round_MiB (size file))
            ++ "MB > 4MB).") 413 []).
Proof.
  intros Hg Hok Hbig. unfold Route.dispatch. rewrite Hg, Hok.
  apply N.ltb_lt in Hbig. rewrite Hbig. reflexivity.
Qed.

Lemma single_accepted (req : NextRequest) (form : FormData) (file : File) :
  multipart req = true ->
  formData req = Resolved form ->
  Form.get "file" form = Some (EntryFile file) ->
  Route.invalidMime file = false ->
  (size file <= maxSize)%N ->
  Route.POST rt req
  = let args := Route.providerArgs rt (targetLangOf form) (Route.dataUrl file) in
    let pre := [req_formData; file_arrayBuffer file;
                console_info "/api/ocr: request";
                console_info "/api/ocr: prepare call";
                provider_call args] in
    match generateText rt args with
    | Resolved text =>
        (pre ++ [console_info "/api/ocr: success"],
         Resolved (new_Response text 200 [("content-type", markdownContentType)]))
    | Rejected err =>
        (pre ++ [console_error "/api/ocr: provider call failed";
                 console_error "/api/ocr: failure"],
         Resolved (new_Response ("Erreur: " ++ messageOf err) 500 []))
    | Pending => (pre, Pending)
    end.
Proof.
  intros Hm Hf Hg Hok Hsz. rewrite (single_with_form _ _ Hm Hf).
  unfold Route.dispatch. rewrite Hg, Hok.
  apply N.ltb_ge in Hsz. rewrite Hsz.
  unfold targetLangOf, callProvider, await. simpl.
  destruct (generateText rt _) as [text|err|]; simpl; [|destruct err|]; reflexivity.
Qed.

(** The types the single-image handler lets through. *)
Lemma single_invalidMime_spec (file : File) :
  Route.invalidMime file = false
  <-> type file = "image/jpeg" \/ type file = "image/png".
Proof.
  unfold Route.invalidMime. split.
  - intros H. apply orb_false_iff in H as [_ H].
    apply andb_false_iff in H as [H|H]; apply negb_false_iff, String.eqb_eq in H; auto.
  - intros [H|H]; rewrite H; reflexivity.
Qed.

End SingleRuns.

(* ===================================================================== *)
(** ** Validation: content type, MIME types, total size *)
(* ===================================================================== *)

(** C8: a request whose Content-Type header does not declare multipart
    form data (it does not contain [multipart/form-data], or is absent)
    is answered 400 at once by either handler: the run consists of one
    warning and the response, so the body is never read, no later check
    runs and the provider is not called. *)
Theorem C8_non_multipart_is_400_unread (rt : Runtime) (req : NextRequest)
    (m : Eff Response) :
  multipart req = false ->
  m = RouteMulti.POST rt req \/ m = Route.POST rt req ->
  m = rejected "/api/ocr: invalid content-type"
        (new_Response "Content-Type must be multipart/form-data" 400 [])
  /\ status_of m = Some 400%N
  /\ reads_body m = false
  /\ provider_calls m = [].
Proof.
  intros Hm [-> | ->];
    [rewrite (multi_not_multipart rt _ Hm) | rewrite (single_not_multipart rt _ Hm)];
    repeat split.
Qed.

Lemma C8_witness :
  status_of
    (RouteMulti.POST (Sample.answering "text")
       (Sample.request "application/json" [("file", EntryFile (Sample.png 10))]))
  = Some 400%N.
Proof.
  exact (proj1 (proj2
    (C8_non_multipart_is_400_unread (Sample.answering "text")
       (Sample.request "application/json" [("file", EntryFile (Sample.png 10))])
       _ eq_refl (or_introl eq_refl)))).
Defined.

Lemma totalSize_nonempty (files : list File) :
  (maxSize < RouteMulti.totalSize files)%N -> files <> [].
Proof. intros H ->. now apply N.nlt_0_r in H. Qed.

Lemma multi_oversized_no_call (rt : Runtime) (req : NextRequest) (form : FormData) :
  formData req = Resolved form ->
  (maxSize < RouteMulti.totalSize (RouteMulti.inputFiles form))%N ->
  provider_calls (RouteMulti.POST rt req) = [].
Proof.
  intros Hf Hbig.
  destruct (multipart req) eqn:Hm.
  - rewrite (multi_with_form rt _ _ Hm Hf).
    pose proof (totalSize_nonempty _ Hbig) as Hne.
    destruct (forallb isImage (RouteMulti.inputFiles form)) eqn:Himg.
    + rewrite (dispatch_too_large rt _ Hne Himg Hbig). reflexivity.
    + rewrite (dispatch_invalid rt _ Hne Himg). reflexivity.
  - rewrite (multi_not_multipart rt _ Hm). reflexivity.
Qed.

Lemma status_respond (rt : Runtime) (format text : string) :
  status_of (RouteMulti.respond rt format text) = Some 200%N.
Proof.
  destruct (respond_returns rt format text) as (r & Hr & Hs).
  unfold status_of. rewrite Hr, Hs. reflexivity.
Qed.

(** Past the first two checks, the status of the multi-page handler
    ([None] while the provider has not answered). *)
Lemma multi_status (rt : Runtime) (req : NextRequest) (form : FormData) :
  multipart req = true ->
  formData req = Resolved form ->
  RouteMulti.inputFiles form <> [] ->
  status_of (RouteMulti.POST rt req)
  = if negb (forallb isImage (RouteMulti.inputFiles form)) then Some 415%N
    else if (maxSize <? RouteMulti.totalSize (RouteMulti.inputFiles form))%N
         then Some 413%N
         else match generateText rt (callOf rt form) with
              | Resolved _ => Some 200%N
              | Rejected _ => Some 500%N
              | Pending => None
              end.
Proof.
  intros Hm Hf Hne.
  destruct (forallb isImage (RouteMulti.inputFiles form)) eqn:Himg; simpl.
  - destruct (maxSize <? _)%N eqn:Hsz.
    + apply N.ltb_lt in Hsz.
      rewrite (multi_with_form rt _ _ Hm Hf), (dispatch_too_large rt _ Hne Himg Hsz).
      reflexivity.
    + assert (Ha : accepted form = true).
      { unfold accepted. rewrite (length_eqb_pos _ Hne), Himg. simpl.
        apply N.leb_le. now apply N.ltb_ge in Hsz. }
      rewrite (multi_accepted rt _ _ Hm Hf Ha).
      destruct (generateText rt _) as [text|err|]; try reflexivity.
      exact (status_respond rt (formatOf form) text).
  - rewrite (multi_with_form rt _ _ Hm Hf), (dispatch_invalid rt _ Hne Himg).
    reflexivity.
Qed.

(** Past the content type, the status of the single-image handler for
    a request with a [file]. *)
Lemma single_status (rt : Runtime) (req : NextRequest) (form : FormData)
    (file : File) :
  multipart req = true ->
  formData req = Resolved form ->
  Form.get "file" form = Some (EntryFile file) ->
  status_of (Route.POST rt req)
  = if Route.invalidMime file then Some 415%N
    else if (maxSize <? size file)%N then Some 413%N
         else match generateText rt
                      (Route.providerArgs rt (targetLangOf form) (Route.dataUrl file)) with
              | Resolved _ => Some 200%N
              | Rejected _ => Some 500%N
              | Pending => None
              end.
Proof.
  intros Hm Hf Hg.
  destruct (Route.invalidMime file) eqn:Hok.
  - rewrite (single_with_form rt _ _ Hm Hf), (single_invalid rt _ _ Hg Hok).
    reflexivity.
  - destruct (maxSize <? size file)%N eqn:Hsz.
    + apply N.ltb_lt in Hsz.
      rewrite (single_with_form rt _ _ Hm Hf), (single_too_large rt _ _ Hg Hok Hsz).
      reflexivity.
    + apply N.ltb_ge in Hsz.
      rewrite (single_accepted rt _ _ _ Hm Hf Hg Hok Hsz). simpl.
      destruct (generateText rt _); reflexivity.
Qed.

(** C1 as stated fails.  An oversized upload that does not pass the MIME
    check is answered 415, not 413; and the single-image handler, which
    reads the [file] entry only, sends a request whose files sum to
    6 MiB to the provider when the [file] itself is small. *)
Lemma C1_counterexample :
  let form := [("file", EntryFile (Sample.pdf (5 * Sample.MiB)))] in
  let req := Sample.request Sample.multipartCT form in
  let form' := [("file", EntryFile (Sample.png (1 * Sample.MiB)));
                ("files[]", EntryFile (Sample.png (5 * Sample.MiB)))] in
  let req' := Sample.request Sample.multipartCT form' in
  (formData req = Resolved form
   /\ (maxSize < RouteMulti.totalSize (RouteMulti.inputFiles form))%N
   /\ status_of (RouteMulti.POST (Sample.answering "text") req) = Some 415%N
   /\ status_of (RouteMulti.POST (Sample.answering "text") req) <> Some 413%N)
  /\ (formData req' = Resolved form'
      /\ (maxSize < RouteMulti.totalSize (imageSequence form'))%N
      /\ status_of (Route.POST (Sample.answering "text") req') = Some 200%N
      /\ length (provider_calls (Route.POST (Sample.answering "text") req')) = 1%nat).
Proof. repeat split. discriminate. Qed.

(** C1, amended.  The multi-page handler: whenever the summed size of
    the files of a request (its [file] entry and its [files[]] entries)
    exceeds 4 MiB the provider is not called, and the status is that of
    the first check the request fails: 400 when the content type is not
    multipart, 415 when some file is not of an [image/] type, and
    otherwise 413 with the message
    [Fichiers trop volumineux (<n>MB > 4MB).], [n] being the total size
    in MiB rounded to the nearest integer.  The single-image handler
    counts its [file] entry only: whenever the size of that file exceeds
    4 MiB the provider is not called and the status is 400 when the
    content type is not multipart, 415 when the file is neither JPEG nor
    PNG, and otherwise 413 with the message
    [Fichier trop volumineux (<n>MB > 4MB).]; a request whose [file] is
    within the limit is never answered 413 by it, whatever its
    [files[]] entries weigh. *)
Theorem C1_oversized_is_413 (rt : Runtime) (req : NextRequest) (form : FormData) :
  formData req = Resolved form ->
  (forall files, files = RouteMulti.inputFiles form ->
     (maxSize < RouteMulti.totalSize files)%N ->
     provider_calls (RouteMulti.POST rt req) = []
     /\ (multipart req = false ->
         status_of (RouteMulti.POST rt req) = Some 400%N)
     /\ (multipart req = true ->
         forallb isImage files = false ->
         status_of (RouteMulti.POST rt req) = Some 415%N)
     /\ (multipart req = true ->
         forallb isImage files = true ->
         RouteMulti.POST rt req
         = ([req_formData; console_warn "/api/ocr: files too large"],
            Resolved (new_Response
                   ("Fichiers trop volumineux ("
                      ++ JS.number_to_string (JS.round_MiB (RouteMulti.totalSize files))
                      ++ "MB > 4MB).") 413 []))))
  /\ (forall file, Form.get "file" form = Some (EntryFile file) ->
        (maxSize < size file)%N ->
        provider_calls (Route.POST rt req) = []
        /\ (multipart req = false ->
            status_of (Route.POST rt req) = Some 400%N)
        /\ (multipart req = true ->
            Route.invalidMime file = true ->
            status_of (Route.POST rt req) = Some 415%N)
        /\ (multipart req = true ->
            Route.invalidMime file = false ->
            Route.POST rt req
            = ([req_formData; console_warn "/api/ocr: file too large"],
               Resolved (new_Response
                      ("Fichier trop volumineux ("
                         ++ JS.number_to_string (JS.round_MiB (size file))
                         ++ "MB > 4MB).") 413 []))))
  /\ (forall file, Form.get "file" form = Some (EntryFile file) ->
        (size file <= maxSize)%N ->
        status_of (Route.POST rt req) <> Some 413%N).
Proof.
  intros Hf. split; [|split].
  - intros files -> Hbig.
    pose proof (totalSize_nonempty _ Hbig) as Hne.
    split; [exact (multi_oversized_no_call rt _ _ Hf Hbig)|].
    split; [|split].
    + intros Hm. now rewrite (multi_not_multipart rt _ Hm).
    + intros Hm Himg. rewrite (multi_status rt _ _ Hm Hf Hne), Himg. reflexivity.
    + intros Hm Himg. rewrite (multi_with_form rt _ _ Hm Hf).
      rewrite (dispatch_too_large rt _ Hne Himg Hbig).
      reflexivity.
  - intros file Hg Hbig. split; [|split; [|split]].
    + destruct (multipart req) eqn:Hm;
        [|now rewrite (single_not_multipart rt _ Hm)].
      rewrite (single_with_form rt _ _ Hm Hf).
      destruct (Route.invalidMime file) eqn:Hok.
      * now rewrite (single_invalid rt _ _ Hg Hok).
      * now rewrite (single_too_large rt _ _ Hg Hok Hbig).
    + intros Hm. now rewrite (single_not_multipart rt _ Hm).
    + intros Hm Hok. rewrite (single_status rt _ _ _ Hm Hf Hg), Hok. reflexivity.
    + intros Hm Hok. rewrite (single_with_form rt _ _ Hm Hf).
      rewrite (single_too_large rt _ _ Hg Hok Hbig). reflexivity.
  - intros file Hg Hsz.
    destruct (multipart req) eqn:Hm;
      [|rewrite (single_not_multipart rt _ Hm); discriminate].
    rewrite (single_status rt _ _ _ Hm Hf Hg).
    apply N.ltb_ge in Hsz. rewrite Hsz.
    destruct (Route.invalidMime file); [discriminate|].
    destruct (generateText rt _); discriminate.
Qed.

Lemma C1_witness :
  let req :=
    Sample.request Sample.multipartCT
      [("file", EntryFile (Sample.png (5 * Sample.MiB)));
       ("files[]", EntryFile (Sample.png (1 * Sample.MiB)))] in
  RouteMulti.POST (Sample.answering "text") req
  = ([req_formData; console_warn "/api/ocr: files too large"],
     Resolved (new_Response "Fichiers trop volumineux (6MB > 4MB)." 413 []))
  /\ Route.POST (Sample.answering "text") req
     = ([req_formData; console_warn "/api/ocr: file too large"],
        Resolved (new_Response "Fichier trop volumineux (5MB > 4MB)." 413 [])).
Proof.
  intros req.
  destruct (C1_oversized_is_413 (Sample.answering "text") req _ eq_refl)
    as (Hmulti & Hsingle & _).
  split.
  - exact (proj2 (proj2 (proj2 (Hmulti _ eq_refl eq_refl))) eq_refl eq_refl).
  - exact (proj2 (proj2 (proj2 (Hsingle _ eq_refl eq_refl))) eq_refl eq_refl).
Defined.

Lemma forallb_false_exists (files : list File) :
  forallb isImage files = false <-> exists f, In f files /\ isImage f = false.
Proof.
  split.
  - induction files as [|f files IH]; simpl; [discriminate|].
    destruct (isImage f) eqn:E; simpl.
    + intros H. destruct (IH H) as (g & Hin & Hg). exists g; auto.
    + intros _. exists f; auto.
  - intros (f & Hin & Hf).
    destruct (forallb isImage files) eqn:E; [|reflexivity].
    rewrite forallb_forall in E. rewrite (E _ Hin) in Hf. discriminate.
Qed.

(** C2 as stated fails on the single-image handler: a GIF, whose type
    does begin with [image/], is the cause of a 415. *)
Lemma C2_counterexample :
  let req := Sample.request Sample.multipartCT [("file", EntryFile Sample.gif)] in
  JS.startsWith (type Sample.gif) "image/" = true
  /\ status_of (Route.POST (Sample.answering "text") req) = Some 415%N.
Proof. split; reflexivity. Qed.

(** C2, amended: for a multipart request with at least one file, the
    multi-page handler answers 415 exactly when some file of the request
    has a declared type that does not begin with [image/]; the
    single-image handler is stricter and answers 415 exactly when the
    type of its file is neither [image/jpeg] nor [image/png]. *)
Theorem C2_unsupported_media_type (rt : Runtime) (req : NextRequest)
    (form : FormData) :
  multipart req = true ->
  formData req = Resolved form ->
  (RouteMulti.inputFiles form <> [] ->
   (status_of (RouteMulti.POST rt req) = Some 415%N
    <-> exists f, In f (RouteMulti.inputFiles form)
                  /\ JS.startsWith (type f) "image/" = false))
  /\ (forall file, Form.get "file" form = Some (EntryFile file) ->
      (status_of (Route.POST rt req) = Some 415%N
       <-> type file <> "image/jpeg" /\ type file <> "image/png")).
Proof.
  intros Hm Hf. split.
  - intros Hne. rewrite (multi_status rt _ _ Hm Hf Hne).
    fold isImage. rewrite <- forallb_false_exists.
    destruct (forallb isImage (RouteMulti.inputFiles form)); simpl.
    + split; [|discriminate].
      destruct (maxSize <? _)%N; [discriminate|].
      destruct (generateText rt _); discriminate.
    + tauto.
  - intros file Hg.
    destruct (Route.invalidMime file) eqn:E.
    + rewrite (single_with_form rt _ _ Hm Hf), (single_invalid rt _ _ Hg E).
      split; [intros _|reflexivity].
      split; intros H;
        assert (Route.invalidMime file = false) by (apply single_invalidMime_spec; auto);
        congruence.
    + split.
      * destruct (N.lt_ge_cases maxSize (size file)) as [Hbig|Hsz].
        -- rewrite (single_with_form rt _ _ Hm Hf), (single_too_large rt _ _ Hg E Hbig).
           discriminate.
        -- rewrite (single_accepted rt _ _ _ Hm Hf Hg E Hsz). simpl.
           destruct (generateText rt _); discriminate.
      * apply single_invalidMime_spec in E. intros [H1 H2]. destruct E; contradiction.
Qed.

Lemma C2_witness :
  let req :=
    Sample.request Sample.multipartCT
      [("file", EntryFile (Sample.png 10));
       ("files[]", EntryFile (Sample.pdf 10))] in
  status_of (RouteMulti.POST (Sample.answering "text") req) = Some 415%N
  /\ status_of (Route.POST (Sample.answering "text") req) <> Some 415%N.
Proof.
  intros req.
  destruct (C2_unsupported_media_type (Sample.answering "text") req _ eq_refl eq_refl)
    as [Hmulti Hsingle].
  split.
  - apply Hmulti; [discriminate|].
    exists (Sample.pdf 10). split; [right; left; reflexivity | reflexivity].
  - intros H. apply (Hsingle _ eq_refl) in H. destruct H as [_ H]. now apply H.
Defined.

(* ===================================================================== *)
(** ** What a run depends on *)
(* ===================================================================== *)

Lemma respond_format (rt : Runtime) (f f' text : string) :
  String.eqb f "json" = String.eqb f' "json" ->
  RouteMulti.respond rt f text = RouteMulti.respond rt f' text.
Proof. unfold RouteMulti.respond. intros ->. reflexivity. Qed.

Lemma providerArgs_format (rt : Runtime) (tl f f' : string) (ds : list RouteMulti.DataUrl) :
  String.eqb f "json" = String.eqb f' "json" ->
  RouteMulti.providerArgs rt tl f ds = RouteMulti.providerArgs rt tl f' ds.
Proof.
  unfold RouteMulti.providerArgs, RouteMulti.buildSystemPrompt, RouteMulti.userText.
  intros ->. reflexivity.
Qed.

Lemma accepted_ext (form form' : FormData) :
  RouteMulti.inputFiles form = RouteMulti.inputFiles form' ->
  accepted form = accepted form'.
Proof. unfold accepted. intros ->. reflexivity. Qed.

Lemma accepted_false_cases (form : FormData) :
  accepted form = false ->
  RouteMulti.inputFiles form = []
  \/ (RouteMulti.inputFiles form <> []
      /\ forallb isImage (RouteMulti.inputFiles form) = false)
  \/ (RouteMulti.inputFiles form <> []
      /\ forallb isImage (RouteMulti.inputFiles form) = true
      /\ (maxSize < RouteMulti.totalSize (RouteMulti.inputFiles form))%N).
Proof.
  unfold accepted. intros H.
  destruct (RouteMulti.inputFiles form) as [|f files] eqn:E; [now left|right].
  assert (Hne : f :: files <> []) by discriminate.
  destruct (forallb isImage (f :: files)) eqn:Himg; [right|left; auto].
  repeat split; auto.
  simpl in H. now apply N.leb_gt in H.
Qed.

Lemma multi_rejected_ext (rt : Runtime) (form form' : FormData) :
  RouteMulti.inputFiles form = RouteMulti.inputFiles form' ->
  accepted form = false ->
  RouteMulti.dispatch rt form = RouteMulti.dispatch rt form'.
Proof.
  intros Hfiles Ha.
  apply accepted_false_cases in Ha as [He | [(Hne & Himg) | (Hne & Himg & Hbig)]].
  - rewrite (dispatch_missing rt _ He). rewrite Hfiles in He.
    now rewrite (dispatch_missing rt _ He).
  - rewrite (dispatch_invalid rt _ Hne Himg). rewrite Hfiles in Hne, Himg.
    now rewrite (dispatch_invalid rt _ Hne Himg).
  - rewrite (dispatch_too_large rt _ Hne Himg Hbig). rewrite Hfiles in Hne, Himg, Hbig.
    rewrite (dispatch_too_large rt _ Hne Himg Hbig). now rewrite Hfiles.
Qed.

Lemma multi_dispatch_ext (rt : Runtime) (form form' : FormData) :
  RouteMulti.inputFiles form = RouteMulti.inputFiles form' ->
  targetLangOf form = targetLangOf form' ->
  String.eqb (formatOf form) "json" = String.eqb (formatOf form') "json" ->
  RouteMulti.dispatch rt form = RouteMulti.dispatch rt form'.
Proof.
  intros Hfiles Hlang Hfmt.
  destruct (accepted form) eqn:Ha.
  - assert (Ha' : accepted form' = true) by (now rewrite <- (accepted_ext _ _ Hfiles)).
    rewrite (dispatch_accepted rt _ Ha), (dispatch_accepted rt _ Ha').
    unfold upToCall, callOf. rewrite <- Hfiles, <- Hlang.
    rewrite (providerArgs_format rt _ _ _ _ Hfmt).
    destruct (generateText rt _) as [text|err|]; try reflexivity.
    now rewrite (respond_format rt _ _ text Hfmt).
  - exact (multi_rejected_ext rt _ _ Hfiles Ha).
Qed.

Lemma multi_POST_ext (rt : Runtime) (ct : option string) (form form' : FormData) :
  RouteMulti.dispatch rt form = RouteMulti.dispatch rt form' ->
  RouteMulti.POST rt (requestOf ct form) = RouteMulti.POST rt (requestOf ct form').
Proof.
  intros H. unfold RouteMulti.POST, RouteMulti.handle, requestOf, await. simpl.
  now rewrite H.
Qed.

Lemma single_dispatch_ext (rt : Runtime) (form form' : FormData) :
  Form.get "file" form = Form.get "file" form' ->
  targetLangOf form = targetLangOf form' ->
  Route.dispatch rt form = Route.dispatch rt form'.
Proof.
  unfold Route.dispatch, targetLangOf. intros -> ->. reflexivity.
Qed.

Lemma single_POST_ext (rt : Runtime) (ct : option string) (form form' : FormData) :
  Route.dispatch rt form = Route.dispatch rt form' ->
  Route.POST rt (requestOf ct form) = Route.POST rt (requestOf ct form').
Proof.
  intros H. unfold Route.POST, Route.handle, requestOf, await. simpl.
  now rewrite H.
Qed.

Lemma get_without (key k : string) (form : FormData) :
  String.eqb k key = false ->
  Form.get k (without key form) = Form.get k form.
Proof.
  intros Hk. induction form as [|[k' v] form IH]; simpl; [reflexivity|].
  destruct (String.eqb k' key) eqn:E; simpl.
  - apply String.eqb_eq in E. subst k'.
    rewrite String.eqb_sym, Hk. exact IH.
  - destruct (String.eqb k' k); [reflexivity | exact IH].
Qed.

(** ** The call to the provider *)

Lemma no_call_in_reads (files : list File) :
  filter is_provider_call (map file_arrayBuffer files) = [].
Proof. induction files; simpl; auto. Qed.

Lemma no_call_in_respond (rt : Runtime) (f text : string) :
  filter is_provider_call (trace (RouteMulti.respond rt f text)) = [].
Proof.
  destruct (String.eqb f "json") eqn:Hj.
  - now rewrite (respond_json _ _ _ Hj).
  - now rewrite (respond_markdown _ _ _ Hj).
Qed.

Lemma calls_accepted (rt : Runtime) (req : NextRequest) (form : FormData) :
  multipart req = true ->
  formData req = Resolved form ->
  accepted form = true ->
  provider_calls (RouteMulti.POST rt req) = [provider_call (callOf rt form)].
Proof.
  intros Hm Hf Ha. unfold provider_calls.
  rewrite (multi_accepted rt _ _ Hm Hf Ha).
  destruct (generateText rt _) as [text|err|]; unfold trace, upToCall; simpl;
    rewrite !filter_app, no_call_in_reads; simpl; try reflexivity.
  pose proof (no_call_in_respond rt (formatOf form) text) as Hr.
  unfold trace in Hr. now rewrite Hr.
Qed.

Lemma calls_not_accepted (rt : Runtime) (req : NextRequest) (form : FormData) :
  formData req = Resolved form ->
  accepted form = false ->
  provider_calls (RouteMulti.POST rt req) = [].
Proof.
  intros Hf Ha. destruct (multipart req) eqn:Hm.
  - rewrite (multi_with_form rt _ _ Hm Hf).
    apply accepted_false_cases in Ha as [He | [(Hne & Himg) | (Hne & Himg & Hbig)]].
    + now rewrite (dispatch_missing rt _ He).
    + now rewrite (dispatch_invalid rt _ Hne Himg).
    + now rewrite (dispatch_too_large rt _ Hne Himg Hbig).
  - now rewrite (multi_not_multipart rt _ Hm).
Qed.

Lemma reads_of_reads (files : list File) (rest : list Event) :
  flat_map (fun e => match e with file_arrayBuffer f => [f] | _ => [] end)
           (map file_arrayBuffer files ++ rest)
  = files ++ flat_map (fun e => match e with file_arrayBuffer f => [f] | _ => [] end) rest.
Proof. induction files as [|f files IH]; simpl; [reflexivity | now rewrite IH]. Qed.

Lemma files_read_accepted (rt : Runtime) (req : NextRequest) (form : FormData) :
  multipart req = true ->
  formData req = Resolved form ->
  accepted form = true ->
  files_read (RouteMulti.POST rt req) = RouteMulti.inputFiles form.
Proof.
  intros Hm Hf Ha. unfold files_read.
  rewrite (multi_accepted rt _ _ Hm Hf Ha).
  destruct (generateText rt _) as [text|err|]; unfold trace, upToCall; simpl;
    rewrite <- ?app_assoc, reads_of_reads; simpl.
  - destruct (String.eqb (formatOf form) "json") eqn:Hj;
      [rewrite (respond_json _ _ _ Hj) | rewrite (respond_markdown _ _ _ Hj)];
      simpl; now rewrite app_nil_r.
  - now rewrite app_nil_r.
  - now rewrite app_nil_r.
Qed.

Lemma request_eta (req : NextRequest) (form : FormData) :
  formData req = Resolved form -> req = requestOf (content_type req) form.
Proof. destruct req as [ct fd]. simpl. intros ->. reflexivity. Qed.

(* ===================================================================== *)
(** ** Normalisation of the two file fields *)
(* ===================================================================== *)

(** C3 as stated fails on the single-image handler: images supplied in
    [files[]] only are not accepted, the request is answered 400 and
    nothing is sent to the provider. *)
Lemma C3_counterexample :
  let form := [("files[]", EntryFile (Sample.png 10))] in
  let req := Sample.request Sample.multipartCT form in
  imageSequence form = [Sample.png 10]
  /\ status_of (Route.POST (Sample.answering "text") req) = Some 400%N
  /\ provider_calls (Route.POST (Sample.answering "text") req) = [].
Proof. repeat split. Qed.

(** C3, amended: the multi-page handler takes images from the singular
    [file] field and from the repeated [files[]] field and makes one
    ordered sequence of them, the singular file first (if present), then
    the [files[]] entries in submission order; that sequence is what the
    three file checks decide on, what is read and base64-encoded, and
    what is sent, in order, after the text part of the single user
    message.  The single-image handler only looks at [file]: the
    [files[]] entries have no effect on its run. *)
Theorem C3_one_ordered_sequence (rt : Runtime) (req : NextRequest)
    (form : FormData) :
  multipart req = true ->
  formData req = Resolved form ->
  RouteMulti.inputFiles form = imageSequence form
  /\ accepted form
     = (negb (length (imageSequence form) =? 0)%nat
        && forallb isImage (imageSequence form)
        && (RouteMulti.totalSize (imageSequence form) <=? maxSize)%N)
  /\ (accepted form = false -> provider_calls (RouteMulti.POST rt req) = [])
  /\ (accepted form = true ->
      files_read (RouteMulti.POST rt req) = imageSequence form
      /\ exists args,
           provider_calls (RouteMulti.POST rt req) = [provider_call args]
           /\ messages args
              = [ {| role := "user";
                     content :=
                       TextPart (RouteMulti.userText (targetLangOf form) (formatOf form))
                         :: map imagePart (imageSequence form) |} ])
  /\ Route.POST rt req
     = Route.POST rt (requestOf (content_type req) (without "files[]" form)).
Proof.
  intros Hm Hf. pose proof (inputFiles_sequence form) as Hseq.
  split; [exact Hseq|]. split; [unfold accepted; now rewrite Hseq|].
  split; [exact (calls_not_accepted rt _ _ Hf)|]. split.
  - intros Ha. split.
    + now rewrite (files_read_accepted rt _ _ Hm Hf Ha).
    + exists (callOf rt form). split; [exact (calls_accepted rt _ _ Hm Hf Ha)|].
      destruct (accepted_inv _ Ha) as (_ & Himg & _).
      unfold callOf, RouteMulti.providerArgs. simpl.
      now rewrite (encoded_parts _ Himg), Hseq.
  - rewrite (request_eta _ _ Hf) at 1. apply single_POST_ext, single_dispatch_ext.
    + symmetry. now apply get_without.
    + unfold targetLangOf. now rewrite get_without.
Qed.

Lemma C3_witness :
  let req :=
    Sample.request Sample.multipartCT
      [("files[]", EntryFile (Sample.png 20));
       ("targetLang", EntryString "fr");
       ("file", EntryFile Sample.gif);
       ("files[]", EntryString "stray");
       ("files[]", EntryFile (Sample.png 30))] in
  let bad := Sample.request Sample.multipartCT [("files[]", EntryFile (Sample.pdf 20))] in
  files_read (RouteMulti.POST (Sample.answering "text") req)
  = [Sample.gif; Sample.png 20; Sample.png 30]
  /\ provider_calls (RouteMulti.POST (Sample.answering "text") bad) = [].
Proof.
  intros req bad. split.
  - exact (proj1
      (proj1 (proj2 (proj2 (proj2
         (C3_one_ordered_sequence (Sample.answering "text") req _ eq_refl eq_refl))))
       eq_refl)).
  - exact (proj1 (proj2 (proj2
      (C3_one_ordered_sequence (Sample.answering "text") bad _ eq_refl eq_refl)))
      eq_refl).
Defined.

(* ===================================================================== *)
(** ** Normalisation of the provider's answer *)
(* ===================================================================== *)

Lemma single_body_unreadable (rt : Runtime) (req : NextRequest) (err : Thrown) :
  multipart req = true ->
  formData req = Rejected err ->
  Route.POST rt req
  = ([req_formData; console_error "/api/ocr: failure"],
     Resolved (new_Response ("Erreur: " ++ messageOf err) 500 [])).
Proof.
  unfold multipart, Route.POST, Route.handle. intros -> Hf.
  unfold await. rewrite Hf. destruct err; reflexivity.
Qed.

Lemma single_body_pending (rt : Runtime) (req : NextRequest) :
  multipart req = true ->
  formData req = Pending ->
  Route.POST rt req = ([req_formData], Pending).
Proof.
  unfold multipart, Route.POST, Route.handle. intros -> Hf.
  unfold await. rewrite Hf. reflexivity.
Qed.

Lemma in_calls {A} (m : Eff A) (args : GenerateTextArgs) :
  In (provider_call args) (trace m) <-> In (provider_call args) (provider_calls m).
Proof.
  unfold provider_calls. rewrite filter_In. simpl. tauto.
Qed.

(** The provider is called by the multi-page handler only for a readable
    multipart request that passed the file checks, and then with the
    arguments built from its form. *)
Lemma multi_call_inv (rt : Runtime) (req : NextRequest) (args : GenerateTextArgs) :
  In (provider_call args) (trace (RouteMulti.POST rt req)) ->
  exists form,
    multipart req = true /\ formData req = Resolved form
    /\ accepted form = true /\ args = callOf rt form.
Proof.
  intros Hin. apply in_calls in Hin.
  destruct (multipart req) eqn:Hm;
    [|now rewrite (multi_not_multipart rt _ Hm) in Hin].
  destruct (formData req) as [form|err|] eqn:Hf;
    [|now rewrite (multi_body_unreadable rt _ _ Hm Hf) in Hin
     |now rewrite (multi_body_pending rt _ Hm Hf) in Hin].
  exists form. destruct (accepted form) eqn:Ha.
  - rewrite (calls_accepted rt _ _ Hm Hf Ha) in Hin.
    destruct Hin as [[= <-]|[]]. auto.
  - now rewrite (calls_not_accepted rt _ _ Hf Ha) in Hin.
Qed.

Lemma single_call_inv (rt : Runtime) (req : NextRequest) (args : GenerateTextArgs) :
  In (provider_call args) (trace (Route.POST rt req)) ->
  exists form file,
    multipart req = true /\ formData req = Resolved form
    /\ Form.get "file" form = Some (EntryFile file)
    /\ Route.invalidMime file = false
    /\ (size file <= maxSize)%N
    /\ args = Route.providerArgs rt (targetLangOf form) (Route.dataUrl file).
Proof.
  intros Hin. apply in_calls in Hin.
  destruct (multipart req) eqn:Hm;
    [|now rewrite (single_not_multipart rt _ Hm) in Hin].
  destruct (formData req) as [form|err|] eqn:Hf;
    [|now rewrite (single_body_unreadable rt _ _ Hm Hf) in Hin
     |now rewrite (single_body_pending rt _ Hm Hf) in Hin].
  exists form.
  destruct (Form.get "file" form) as [[s|file]|] eqn:Hg;
    try (rewrite (single_with_form rt _ _ Hm Hf), single_missing in Hin;
         [contradiction | intros f; rewrite Hg; discriminate]).
  exists file.
  destruct (Route.invalidMime file) eqn:Hok;
    [now rewrite (single_with_form rt _ _ Hm Hf), (single_invalid rt _ _ Hg Hok) in Hin|].
  destruct (N.lt_ge_cases maxSize (size file)) as [Hbig|Hsz];
    [now rewrite (single_with_form rt _ _ Hm Hf), (single_too_large rt _ _ Hg Hok Hbig) in Hin|].
  rewrite (single_accepted rt _ _ _ Hm Hf Hg Hok Hsz) in Hin.
  repeat split; auto.
  unfold provider_calls, trace in Hin.
  destruct (generateText rt _); simpl in Hin; destruct Hin as [[= <-]|[]]; reflexivity.
Qed.

Lemma multi_answer (rt : Runtime) (req : NextRequest) (form : FormData)
    (text : string) :
  multipart req = true ->
  formData req = Resolved form ->
  accepted form = true ->
  generateText rt (callOf rt form) = Resolved text ->
  outcome (RouteMulti.POST rt req)
  = outcome (RouteMulti.respond rt (formatOf form) text).
Proof.
  intros Hm Hf Ha Hg. rewrite (multi_accepted rt _ _ Hm Hf Ha), Hg. reflexivity.
Qed.

Lemma multi_markdown (rt : Runtime) (req : NextRequest) (form : FormData)
    (args : GenerateTextArgs) (text : string) :
  formData req = Resolved form ->
  formatOf form <> "json" ->
  In (provider_call args) (trace (RouteMulti.POST rt req)) ->
  generateText rt args = Resolved text ->
  outcome (RouteMulti.POST rt req)
  = Resolved {| status := 200;
           headers := [("content-type", "text/markdown; charset=utf-8")];
           body := BodyText text |}.
Proof.
  intros Hf Hfmt Hin Hg.
  destruct (multi_call_inv rt _ _ Hin) as (form' & Hm & Hf' & Ha & ->).
  assert (form' = form) by congruence. subst form'.
  rewrite (multi_answer rt _ _ _ Hm Hf Ha Hg).
  apply String.eqb_neq in Hfmt. now rewrite (respond_markdown _ _ _ Hfmt).
Qed.

Lemma multi_json (rt : Runtime) (req : NextRequest) (form : FormData)
    (args : GenerateTextArgs) (text : string) :
  formData req = Resolved form ->
  formatOf form = "json" ->
  In (provider_call args) (trace (RouteMulti.POST rt req)) ->
  generateText rt args = Resolved text ->
  outcome (RouteMulti.POST rt req) = Resolved (jsonResponse (jsonBody rt text)).
Proof.
  intros Hf Hfmt Hin Hg.
  destruct (multi_call_inv rt _ _ Hin) as (form' & Hm & Hf' & Ha & ->).
  assert (form' = form) by congruence. subst form'.
  rewrite (multi_answer rt _ _ _ Hm Hf Ha Hg).
  rewrite respond_json; [reflexivity | now rewrite Hfmt].
Qed.

(** Whatever the stack allows, some value is nested too deeply for it. *)
Lemma stringify_too_deep (print : Q -> string) (depth : nat) :
  Json.stringify print depth (Demo.nested depth) = None.
Proof.
  induction depth as [|depth IH]; [reflexivity|].
  cbn [Demo.nested Json.stringify Json.traverse]. now rewrite IH.
Qed.

(** C4 as stated fails: a text that parses is not always answered by the
    value it parses to.  The body is the serialisation of that value,
    and the [try] covers the serialisation too.  The text [1e400] parses
    (to [Infinity]) and is answered [null]; arrays nested too deeply
    for the serialiser parse and are answered wrapped, as a text that
    does not parse is. *)
Lemma C4_counterexample :
  let form := [("file", EntryFile (Sample.png 10)); ("format", EntryString "json")] in
  let req := Sample.request Sample.multipartCT form in
  let deep := Demo.brackets 1001 in
  (formatOf form = "json"
   /\ generateText (Demo.engine "1e400") (callOf (Demo.engine "1e400") form)
      = Resolved "1e400"
   /\ JSON_parse (Demo.engine "1e400") "1e400" = Some (JNumber (Infinity false))
   /\ outcome (RouteMulti.POST (Demo.engine "1e400") req)
      = Resolved (jsonResponse "null")
   /\ JSON_parse (Demo.engine "1e400") "null" = Some JNull
   /\ JNull <> JNumber (Infinity false))
  /\ (generateText (Demo.engine deep) (callOf (Demo.engine deep) form)
      = Resolved deep
      /\ JSON_parse (Demo.engine deep) deep = Some (Demo.nested 1001)
      /\ outcome (RouteMulti.POST (Demo.engine deep) req)
         = Resolved (jsonResponse (wrappedBody deep))
      /\ JSON_parse (Demo.engine deep) (wrappedBody deep) <> Some (Demo.nested 1001)).
Proof.
  intros form req deep. split.
  - repeat split; try (vm_compute; reflexivity). discriminate.
  - split; [vm_compute; reflexivity|].
    split; [vm_compute; reflexivity|].
    split; [vm_compute; reflexivity|].
    vm_compute. discriminate.
Qed.

(** C4, amended: for a request with [format = "json"] whose provider
    call returns the text [T], the response has status 200, the content
    type [application/json], and for body: the serialisation of the
    value [T] parses to, when [T] parses and that value serialises; the
    serialisation of the object [{ "content": T }] when [T] does not
    parse, and also when the value it parses to does not serialise.  The
    serialisation writes a number that is not finite as [null].  Either
    way the body is the output of [JSON.stringify]. *)
Theorem C4_json_or_wrapped (rt : Runtime) (req : NextRequest) (form : FormData)
    (args : GenerateTextArgs) (T : string) :
  formData req = Resolved form ->
  formatOf form = "json" ->
  In (provider_call args) (trace (RouteMulti.POST rt req)) ->
  generateText rt args = Resolved T ->
  outcome (RouteMulti.POST rt req)
  = Resolved
      {| status := 200;
         headers := [("content-type", "application/json")];
         body := BodyText
                   match JSON_parse rt T with
                   | Some parsed =>
                       match JSON_stringify rt parsed with
                       | Some serialised => serialised
                       | None => wrappedBody T
                       end
                   | None => wrappedBody T
                   end |}
  /\ JSON_stringify rt (JObject [("content", JString T)]) = Some (wrappedBody T)
  /\ (forall negative, JSON_stringify rt (JNumber (Infinity negative)) = Some "null").
Proof.
  intros Hf Hfmt Hin Hg. split; [|split].
  - exact (multi_json rt _ _ _ _ Hf Hfmt Hin Hg).
  - exact (stringify_wrapped rt T).
  - intros negative. unfold JSON_stringify. reflexivity.
Qed.

Lemma C4_witness :
  let form := [("file", EntryFile (Sample.png 10)); ("format", EntryString "json")] in
  outcome (RouteMulti.POST (Sample.answering "null")
             (Sample.request Sample.multipartCT form))
  = Resolved (jsonResponse "null")
  /\ outcome (RouteMulti.POST (Sample.answering "Total: 12")
                (Sample.request Sample.multipartCT form))
     = Resolved (jsonResponse (wrappedBody "Total: 12")).
Proof.
  intros form. split.
  - apply (C4_json_or_wrapped (Sample.answering "null")
             (Sample.request Sample.multipartCT form) form
             (callOf (Sample.answering "null") form) "null");
      try reflexivity.
    simpl. repeat (first [left; reflexivity | right]).
  - apply (C4_json_or_wrapped (Sample.answering "Total: 12")
             (Sample.request Sample.multipartCT form) form
             (callOf (Sample.answering "Total: 12") form) "Total: 12");
      try reflexivity.
    simpl. repeat (first [left; reflexivity | right]).
Defined.

(** C7: for a request whose format is Markdown (any format but JSON)
    and whose provider call returns the text [T], the response has
    status 200, body [T] unchanged and the header
    [content-type: text/markdown; charset=utf-8]; the single-image
    handler, which knows no other format, answers so whenever its
    provider call returns. *)
Theorem C7_markdown_passthrough (rt : Runtime) (req : NextRequest)
    (args : GenerateTextArgs) (T : string) :
  generateText rt args = Resolved T ->
  let markdown :=
    {| status := 200;
       headers := [("content-type", "text/markdown; charset=utf-8")];
       body := BodyText T |} in
  (forall form,
     formData req = Resolved form ->
     formatOf form <> "json" ->
     In (provider_call args) (trace (RouteMulti.POST rt req)) ->
     outcome (RouteMulti.POST rt req) = Resolved markdown)
  /\ (In (provider_call args) (trace (Route.POST rt req)) ->
      outcome (Route.POST rt req) = Resolved markdown).
Proof.
  intros Hg markdown. split.
  - intros form Hf Hfmt Hin. exact (multi_markdown rt _ _ _ _ Hf Hfmt Hin Hg).
  - intros Hin.
    destruct (single_call_inv rt _ _ Hin) as (form & file & Hm & Hf & Hfile & Hok & Hsz & ->).
    rewrite (single_accepted rt _ _ _ Hm Hf Hfile Hok Hsz). simpl. rewrite Hg.
    reflexivity.
Qed.

Lemma C7_witness :
  let form := [("file", EntryFile (Sample.png 10)); ("format", EntryString "markdown")] in
  let req := Sample.request Sample.multipartCT form in
  let markdown :=
    {| status := 200;
       headers := [("content-type", "text/markdown; charset=utf-8")];
       body := BodyText "# Invoice" |} in
  outcome (RouteMulti.POST (Sample.answering "# Invoice") req) = Resolved markdown
  /\ outcome (Route.POST (Sample.answering "# Invoice") req) = Resolved markdown.
Proof.
  intros form req markdown. split.
  - apply (proj1 (C7_markdown_passthrough (Sample.answering "# Invoice") req
                    (callOf (Sample.answering "# Invoice") form) "# Invoice" eq_refl)
             form); [reflexivity | discriminate |].
    simpl. repeat (first [left; reflexivity | right]).
  - apply (proj2 (C7_markdown_passthrough (Sample.answering "# Invoice") req
                    (Route.providerArgs (Sample.answering "# Invoice") "auto"
                       (Route.dataUrl (Sample.png 10)))
                    "# Invoice" eq_refl)).
    simpl. repeat (first [left; reflexivity | right]).
Defined.

(* ===================================================================== *)
(** ** The [format] and [targetLang] fields *)
(* ===================================================================== *)

(** C9: the [format] field is never validated.  A request whose format
    is anything but the string [json] (absent, empty, [xml], a file)
    runs exactly as the same request with [format = markdown], and when
    its provider call returns, the answer is the Markdown response;
    whether a request passes the checks does not depend on the format,
    and a request that does not pass is answered the same whatever
    format it carries. *)
Theorem C9_format_not_validated (rt : Runtime) (ct : option string)
    (form : FormData) :
  (formatOf form <> "json" ->
   RouteMulti.POST rt (requestOf ct form)
   = RouteMulti.POST rt
       (requestOf ct (withField "format" (EntryString "markdown") form)))
  /\ (forall args T,
        formatOf form <> "json" ->
        In (provider_call args) (trace (RouteMulti.POST rt (requestOf ct form))) ->
        generateText rt args = Resolved T ->
        outcome (RouteMulti.POST rt (requestOf ct form))
        = Resolved {| status := 200;
                 headers := [("content-type", "text/markdown; charset=utf-8")];
                 body := BodyText T |})
  /\ (forall v,
        accepted (withField "format" v form) = accepted form
        /\ (accepted form = false ->
            RouteMulti.POST rt (requestOf ct (withField "format" v form))
            = RouteMulti.POST rt (requestOf ct form)))
  /\ formatOf (without "format" form) = "markdown"
  /\ formatOf (withField "format" (EntryString "") form) = "markdown"
  /\ formatOf (withField "format" (EntryString "xml") form) <> "json".
Proof.
  split; [|split; [|split]].
  - intros Hfmt. apply multi_POST_ext, multi_dispatch_ext; try reflexivity.
    apply String.eqb_neq in Hfmt. now rewrite Hfmt.
  - intros args T Hfmt Hin Hg.
    exact (multi_markdown rt (requestOf ct form) form _ _ eq_refl Hfmt Hin Hg).
  - intros v. split; [reflexivity|].
    intros Ha. apply multi_POST_ext, multi_rejected_ext; [reflexivity | exact Ha].
  - split; [|split; [reflexivity | discriminate]].
    unfold formatOf.
    assert (H : Form.get "format" (without "format" form) = None);
      [|now rewrite H].
    induction form as [|[k v] form IH]; simpl; [reflexivity|].
    destruct (String.eqb k "format") eqn:E; simpl; [exact IH|].
    now rewrite E.
Qed.

Lemma C9_witness :
  let form := [("file", EntryFile (Sample.png 10)); ("format", EntryString "xml")] in
  let nofile := [("targetLang", EntryString "fr")] in
  let ct := Some Sample.multipartCT in
  RouteMulti.POST (Sample.answering "# Invoice") (requestOf ct form)
  = RouteMulti.POST (Sample.answering "# Invoice")
      (requestOf ct (withField "format" (EntryString "markdown") form))
  /\ outcome (RouteMulti.POST (Sample.answering "# Invoice") (requestOf ct form))
     = Resolved {| status := 200;
              headers := [("content-type", "text/markdown; charset=utf-8")];
              body := BodyText "# Invoice" |}
  /\ RouteMulti.POST (Sample.answering "# Invoice")
       (requestOf ct (withField "format" (EntryString "yaml") nofile))
     = RouteMulti.POST (Sample.answering "# Invoice") (requestOf ct nofile).
Proof.
  intros form nofile ct.
  destruct (C9_format_not_validated (Sample.answering "# Invoice") ct form)
    as (Hsame & Hmd & _).
  destruct (C9_format_not_validated (Sample.answering "# Invoice") ct nofile)
    as (_ & _ & Hrej & _).
  split; [|split].
  - apply Hsame. discriminate.
  - apply (Hmd (callOf (Sample.answering "# Invoice") form));
      [discriminate | | reflexivity].
    simpl. repeat (first [left; reflexivity | right]).
  - apply (Hrej (EntryString "yaml")). reflexivity.
Defined.

(** The single-image handler has no [format] at all: the entry has no
    effect on its run. *)
Lemma single_ignores_format (rt : Runtime) (ct : option string) (form : FormData)
    (v : FormDataEntryValue) :
  Route.POST rt (requestOf ct (withField "format" v form))
  = Route.POST rt (requestOf ct form).
Proof. apply single_POST_ext, single_dispatch_ext; reflexivity. Qed.

(** C10: an empty [targetLang] is treated exactly like ["auto"].  On
    receipt the empty string is replaced by ["auto"]; the prompt builder
    takes the no-translation branch for both; so, for any format, system
    prompt and user text are identical, and so are the whole runs of the
    two requests, in either handler. *)
Theorem C10_empty_targetLang_is_auto (rt : Runtime) (ct : option string)
    (form : FormData) (format : string) :
  Form.string_or (Some (EntryString "")) "auto" = "auto"
  /\ shouldTranslate "" = false
  /\ shouldTranslate "auto" = false
  /\ languageDirective ""
     = "Output language: keep the original language; do NOT translate."
  /\ RouteMulti.buildSystemPrompt "" format = RouteMulti.buildSystemPrompt "auto" format
  /\ RouteMulti.userText "" format = RouteMulti.userText "auto" format
  /\ Route.buildSystemPrompt "" = Route.buildSystemPrompt "auto"
  /\ Route.userText "" = Route.userText "auto"
  /\ RouteMulti.POST rt (requestOf ct (withField "targetLang" (EntryString "") form))
     = RouteMulti.POST rt (requestOf ct (withField "targetLang" (EntryString "auto") form))
  /\ Route.POST rt (requestOf ct (withField "targetLang" (EntryString "") form))
     = Route.POST rt (requestOf ct (withField "targetLang" (EntryString "auto") form)).
Proof.
  do 8 (split; [reflexivity|]). split.
  - apply multi_POST_ext, multi_dispatch_ext; reflexivity.
  - apply single_POST_ext, single_dispatch_ext; reflexivity.
Qed.

(* ===================================================================== *)
(** ** The system prompt *)
(* ===================================================================== *)






















(* ===================================================================== *)
(** ** The client preprocessor *)
(* ===================================================================== *)

Lemma Qgt_bool_true (a b : Q) : Client.Qgt_bool a b = true -> b < a.
Proof.
  unfold Client.Qgt_bool. intros H. apply negb_true_iff in H.
  apply Qnot_le_lt. intros Hle. apply Qle_bool_iff in Hle. congruence.
Qed.

Lemma Qgt_bool_false (a b : Q) : Client.Qgt_bool a b = false -> a <= b.
Proof.
  unfold Client.Qgt_bool. intros H. apply negb_false_iff in H.
  now apply Qle_bool_iff.
Qed.

Lemma of_N_le (a b : N) : Client.of_N a <= Client.of_N b <-> (a <= b)%N.
Proof. unfold Client.of_N. rewrite <- Zle_Qle. lia. Qed.

Lemma of_N_lt (a b : N) : Client.of_N a < Client.of_N b <-> (a < b)%N.
Proof. unfold Client.of_N. rewrite <- Zlt_Qlt. lia. Qed.

Lemma to_unsigned_long_le (x : Q) (m : N) :
  x <= Client.of_N m -> (Client.to_unsigned_long x <= m)%N.
Proof.
  intros H. unfold Client.to_unsigned_long.
  apply Qfloor_resp_le in H. unfold Client.of_N in H. rewrite Qfloor_Z in H.
  apply N.le_trans with (Z.to_N (Qfloor x)).
  - apply N.Div0.mod_le.
  - lia.
Qed.

Lemma scaled_le (a m c : N) :
  (a <= c)%N -> (0 < c)%N ->
  Client.of_N a * Client.of_N m / Client.of_N c <= Client.of_N m.
Proof.
  intros Hac Hc. apply Qle_shift_div_r.
  - change 0 with (Client.of_N 0). now apply of_N_lt.
  - unfold Client.of_N. rewrite <- !inject_Z_mult, <- Zle_Qle. nia.
Qed.

(** Neither dimension of the canvas exceeds [maxDimension]. *)
Lemma render_bounded (br : Client.Browser) (maxDimension : N) (file : File) (w h : N) :
  (Client.width (Client.render br maxDimension file w h) <= maxDimension)%N
  /\ (Client.height (Client.render br maxDimension file w h) <= maxDimension)%N.
Proof.
  unfold Client.render, Client.scale.
  destruct (Client.Qgt_bool (Client.of_N w) (Client.of_N h)) eqn:Ewh;
    destruct (Client.Qgt_bool (Client.of_N w) (Client.of_N maxDimension)) eqn:Ewm;
    cbn [andb].
  - apply Qgt_bool_true, of_N_lt in Ewh. cbn [Client.width Client.height].
    split; apply to_unsigned_long_le; [apply Qle_refl|].
    apply scaled_le; lia.
  - apply Qgt_bool_true, of_N_lt in Ewh. apply Qgt_bool_false, of_N_le in Ewm.
    destruct (Client.Qgt_bool (Client.of_N h) (Client.of_N maxDimension)) eqn:Ehm.
    + apply Qgt_bool_true, of_N_lt in Ehm. lia.
    + cbn [Client.width Client.height].
      split; apply to_unsigned_long_le; apply of_N_le; lia.
  - apply Qgt_bool_false, of_N_le in Ewh.
    destruct (Client.Qgt_bool (Client.of_N h) (Client.of_N maxDimension)) eqn:Ehm.
    + apply Qgt_bool_true, of_N_lt in Ehm. cbn [Client.width Client.height].
      split; apply to_unsigned_long_le; [|apply Qle_refl].
      apply scaled_le; lia.
    + apply Qgt_bool_true, of_N_lt in Ewm. apply Qgt_bool_false, of_N_le in Ehm. lia.
  - apply Qgt_bool_false, of_N_le in Ewh. apply Qgt_bool_false, of_N_le in Ewm.
    destruct (Client.Qgt_bool (Client.of_N h) (Client.of_N maxDimension)) eqn:Ehm.
    + apply Qgt_bool_true, of_N_lt in Ehm. cbn [Client.width Client.height].
      split; apply to_unsigned_long_le; [|apply Qle_refl].
      apply scaled_le; lia.
    + apply Qgt_bool_false, of_N_le in Ehm. cbn [Client.width Client.height].
      split; apply to_unsigned_long_le; apply of_N_le; lia.
Qed.

Lemma compressImage_spec (maxDimension : N) (quality : Q) (br : Client.Browser)
    (file : File) (w h : N) :
  Client.faithful br ->
  Client.decode br file = Some (w, h) ->
  exists out,
    Client.compressImage maxDimension quality br file = Some out
    /\ compressed_or_original maxDimension quality br file w h out.
Proof.
  intros Hfaithful Hdec.
  unfold Client.compressImage, compressed_or_original. rewrite Hdec.
  destruct (Client.toBlob br _ "image/jpeg" quality) as [blob|] eqn:Eblob.
  - eexists. split; [reflexivity|]. split; [reflexivity|].
    unfold Client.longest.
    rewrite (Hfaithful _ _ _ _ (name file) "image/jpeg" Eblob).
    eexists. split; [reflexivity|].
    destruct (render_bounded br maxDimension file w h).
    now apply N.max_lub.
  - exists file. split; reflexivity.
Qed.

(** C6: [compressImage] does not return a file for every input.  The
    promise it returns is resolved from [img.onload] only, and no
    [img.onerror] is set: for an image the browser cannot load (a
    truncated download, a picture beyond its decoding limits) the
    promise never settles, in either client, and nothing is returned:
    neither a JPEG nor the original file. *)
Theorem C6_unloadable_image_never_returns (br : Client.Browser) (file : File) :
  Client.decode br file = None ->
  Client.compressImage_single br file = None
  /\ Client.compressImage_multi br file = None
  /\ forall env, Page.browser env = br -> Page.compressImage env file = Pending.
Proof.
  intros Hdec.
  unfold Client.compressImage_single, Client.compressImage_multi,
    Page.compressImage, Client.compressImage.
  rewrite Hdec. repeat split. intros env ->.
  unfold Client.compressImage_multi, Client.compressImage. now rewrite Hdec.
Qed.

Lemma C6_witness :
  Client.compressImage_single Demo.strict Demo.truncated = None
  /\ Client.compressImage_multi Demo.strict Demo.truncated = None.
Proof.
  destruct (C6_unloadable_image_never_returns Demo.strict Demo.truncated eq_refl)
    as (Hsingle & Hmulti & _).
  split; assumption.
Defined.

(** X26: once the image has loaded, [compressImage] resolves; when the
    encoder yields a blob, the result is typed [image/jpeg] and its
    longest dimension does not exceed the maximum of the client (1200
    in the single-image client, 720 in the multi-page client); when the
    encoder yields no blob, the result is the original file itself. *)
Theorem X26_compressImage_once_loaded (br : Client.Browser) (file : File)
    (w h : N) :
  Client.faithful br ->
  Client.decode br file = Some (w, h) ->
  (exists out,
     Client.compressImage_single br file = Some out
     /\ compressed_or_original 1200 (8 # 10) br file w h out)
  /\ (exists out,
        Client.compressImage_multi br file = Some out
        /\ compressed_or_original 720 (6 # 10) br file w h out).
Proof.
  intros Hfaithful Hdec. split; now apply compressImage_spec.
Qed.

Lemma sample_browser_faithful : Client.faithful Sample.browser.
Proof.
  intros canvas ty q blob nm ty'. simpl.
  destruct ((Client.width canvas =? 720)%N && (Client.height canvas =? 480)%N) eqn:E;
    [|discriminate].
  intros [= <-]. simpl.
  apply andb_true_iff in E as [Hw Hh].
  apply N.eqb_eq in Hw, Hh. now rewrite Hw, Hh.
Qed.

Lemma X26_witness :
  (exists out,
     Client.compressImage_single Sample.browser Sample.photo = Some out
     /\ out = Sample.photo)
  /\ (exists out,
        Client.compressImage_multi Sample.browser Sample.photo = Some out
        /\ type out = "image/jpeg"
        /\ exists d, Client.longest Sample.browser out = Some d /\ (d <= 720)%N).
Proof.
  destruct (X26_compressImage_once_loaded Sample.browser Sample.photo 1440 960
              sample_browser_faithful eq_refl)
    as [(o1 & H1 & S1) (o2 & H2 & S2)].
  split; [exists o1 | exists o2]; split; auto.
Defined.

(* ===================================================================== *)
(** * Further properties of the handlers *)
(* ===================================================================== *)

Lemma single_dispatch_cases (rt : Runtime) (form : FormData) :
  (forall f, Form.get "file" form <> Some (EntryFile f))
  \/ exists file, Form.get "file" form = Some (EntryFile file).
Proof.
  destruct (Form.get "file" form) as [[s|f]|]; [left | right | left];
    try (intros f'; discriminate). now exists f.
Qed.

(** How a run of the multi-page handler ends. *)
Lemma multi_ends (rt : Runtime) (req : NextRequest) :
  (exists r, outcome (RouteMulti.POST rt req) = Resolved r
             /\ knownStatus (status r) = true)
  \/ (outcome (RouteMulti.POST rt req) = Pending
      /\ ((multipart req = true /\ formData req = Pending)
          \/ exists args,
               In (provider_call args) (trace (RouteMulti.POST rt req))
               /\ generateText rt args = Pending)).
Proof.
  destruct (multipart req) eqn:Hm;
    [|rewrite (multi_not_multipart rt _ Hm); left; eexists; split; reflexivity].
  destruct (formData req) as [form|err|] eqn:Hf;
    [|rewrite (multi_body_unreadable rt _ _ Hm Hf); left; eexists; split; reflexivity
     |rewrite (multi_body_pending rt _ Hm Hf); right; split; [reflexivity | now left]].
  destruct (accepted form) eqn:Ha.
  - pose proof (calls_accepted rt _ _ Hm Hf Ha) as Hcall.
    assert (Hin : In (provider_call (callOf rt form)) (trace (RouteMulti.POST rt req))).
    { apply in_calls. rewrite Hcall. now left. }
    revert Hin. rewrite (multi_accepted rt _ _ Hm Hf Ha).
    destruct (generateText rt (callOf rt form)) as [text|err|] eqn:Hg; intros Hin.
    + left. destruct (respond_returns rt (formatOf form) text) as (r & Hr & Hs).
      exists r. split; [exact Hr | now rewrite Hs].
    + left. eexists; split; reflexivity.
    + right. split; [reflexivity|]. right. now exists (callOf rt form).
  - left. rewrite (multi_with_form rt _ _ Hm Hf).
    apply accepted_false_cases in Ha as [He | [(Hne & Himg) | (Hne & Himg & Hbig)]].
    + rewrite (dispatch_missing rt _ He). eexists; split; reflexivity.
    + rewrite (dispatch_invalid rt _ Hne Himg). eexists; split; reflexivity.
    + rewrite (dispatch_too_large rt _ Hne Himg Hbig). eexists; split; reflexivity.
Qed.

(** How a run of the single-image handler ends. *)
Lemma single_ends (rt : Runtime) (req : NextRequest) :
  (exists r, outcome (Route.POST rt req) = Resolved r
             /\ knownStatus (status r) = true)
  \/ (outcome (Route.POST rt req) = Pending
      /\ ((multipart req = true /\ formData req = Pending)
          \/ exists args,
               In (provider_call args) (trace (Route.POST rt req))
               /\ generateText rt args = Pending)).
Proof.
  destruct (multipart req) eqn:Hm;
    [|rewrite (single_not_multipart rt _ Hm); left; eexists; split; reflexivity].
  destruct (formData req) as [form|err|] eqn:Hf;
    [|rewrite (single_body_unreadable rt _ _ Hm Hf); left; eexists; split; reflexivity
     |rewrite (single_body_pending rt _ Hm Hf); right; split; [reflexivity | now left]].
  destruct (single_dispatch_cases rt form) as [Hnone | [file Hg]].
  - left. rewrite (single_with_form rt _ _ Hm Hf), (single_missing rt _ Hnone).
    eexists; split; reflexivity.
  - destruct (Route.invalidMime file) eqn:Hok.
    + left. rewrite (single_with_form rt _ _ Hm Hf), (single_invalid rt _ _ Hg Hok).
      eexists; split; reflexivity.
    + destruct (N.lt_ge_cases maxSize (size file)) as [Hbig|Hsz].
      * left.
        rewrite (single_with_form rt _ _ Hm Hf), (single_too_large rt _ _ Hg Hok Hbig).
        eexists; split; reflexivity.
      * rewrite (single_accepted rt _ _ _ Hm Hf Hg Hok Hsz). cbv zeta.
        destruct (generateText rt _) as [text|err|] eqn:Hgen.
        -- left. eexists; split; reflexivity.
        -- left. eexists; split; reflexivity.
        -- right. split; [reflexivity|]. right.
           eexists. split; [|exact Hgen].
           simpl. repeat (first [left; reflexivity | right]).
Qed.

(** X1: a handler never throws.  A run either ends with a response,
    whose status is then one of 200, 400, 413, 415 and 500, or never
    ends; and it never ends exactly when a promise it awaits never
    settles: that of [req.formData()], awaited for a multipart request,
    or that of the call it made to the provider. *)
Theorem X1_never_throws (rt : Runtime) (req : NextRequest) (m : Eff Response) :
  m = RouteMulti.POST rt req \/ m = Route.POST rt req ->
  (forall err, outcome m <> Rejected err)
  /\ (forall r, outcome m = Resolved r -> knownStatus (status r) = true)
  /\ (outcome m = Pending
      <-> (multipart req = true /\ formData req = Pending)
          \/ exists args,
               In (provider_call args) (trace m) /\ generateText rt args = Pending).
Proof.
  intros Hm.
  assert (Hends :
    (exists r, outcome m = Resolved r /\ knownStatus (status r) = true)
    \/ (outcome m = Pending
        /\ ((multipart req = true /\ formData req = Pending)
            \/ exists args,
                 In (provider_call args) (trace m) /\ generateText rt args = Pending))).
  { destruct Hm as [-> | ->]; [apply multi_ends | apply single_ends]. }
  split; [|split; [|split]].
  - intros err He. destruct Hends as [(r & Hr & _) | (Hp & _)]; congruence.
  - intros r Hr. destruct Hends as [(r' & Hr' & Hk) | (Hp & _)]; congruence.
  - intros Hp. destruct Hends as [(r & Hr & _) | (_ & Hwhy)]; [congruence | exact Hwhy].
  - intros [(Hmp & Hf) | (args & Hin & Hg)].
    + destruct Hm as [-> | ->];
        [now rewrite (multi_body_pending rt _ Hmp Hf)
        |now rewrite (single_body_pending rt _ Hmp Hf)].
    + destruct Hm as [-> | ->].
      * destruct (multi_call_inv rt _ _ Hin) as (form & Hmp & Hf & Ha & ->).
        now rewrite (multi_accepted rt _ _ Hmp Hf Ha), Hg.
      * destruct (single_call_inv rt _ _ Hin)
          as (form & file & Hmp & Hf & Hfile & Hok & Hsz & ->).
        rewrite (single_accepted rt _ _ _ Hmp Hf Hfile Hok Hsz). cbv zeta.
        now rewrite Hg.
Qed.

Lemma X1_witness :
  let req := Sample.request Sample.multipartCT [("file", EntryFile (Sample.png 10))] in
  outcome (RouteMulti.POST Demo.silent req) = Pending
  /\ outcome (Route.POST Demo.silent req) = Pending
  /\ knownStatus 200 = true.
Proof.
  intros req. split; [|split].
  - apply (proj2 (proj2 (X1_never_throws Demo.silent req _ (or_introl eq_refl)))).
    right. exists (callOf Demo.silent [("file", EntryFile (Sample.png 10))]).
    split; [|reflexivity].
    simpl. repeat (first [left; reflexivity | right]).
  - apply (proj2 (proj2 (X1_never_throws Demo.silent req _ (or_intror eq_refl)))).
    right.
    exists (Route.providerArgs Demo.silent "auto" (Route.dataUrl (Sample.png 10))).
    split; [|reflexivity].
    simpl. repeat (first [left; reflexivity | right]).
  - exact (proj1 (proj2 (X1_never_throws (Sample.answering "text") req _
                           (or_introl eq_refl))) _ eq_refl).
Defined.

(** X2: a multipart request without a file is answered 400 before
    anything else happens: neither a file is read nor the provider
    called.  For the multi-page handler that is a request whose [file]
    and [files[]] entries hold no file; for the single-image handler, a
    request whose first [file] entry is missing or a plain string. *)
Theorem X2_missing_file_is_400 (rt : Runtime) (req : NextRequest) (form : FormData) :
  multipart req = true ->
  formData req = Resolved form ->
  (imageSequence form = [] ->
   RouteMulti.POST rt req
   = ([req_formData; console_warn "/api/ocr: missing or invalid file(s) field"],
      Resolved (new_Response "Missing image file(s) (JPEG/PNG only)" 400 [])))
  /\ ((forall f, Form.get "file" form <> Some (EntryFile f)) ->
      Route.POST rt req
      = ([req_formData; console_warn "/api/ocr: missing or invalid file field"],
         Resolved (new_Response "Missing image file (JPEG/PNG only)" 400 []))).
Proof.
  intros Hm Hf. split.
  - intros He. rewrite <- inputFiles_sequence in He.
    now rewrite (multi_with_form rt _ _ Hm Hf), (dispatch_missing rt _ He).
  - intros Hnone.
    now rewrite (single_with_form rt _ _ Hm Hf), (single_missing rt _ Hnone).
Qed.

Lemma X2_witness :
  let req :=
    Sample.request Sample.multipartCT
      [("file", EntryString "scan.png"); ("files[]", EntryString "page-1");
       ("targetLang", EntryString "fr")] in
  status_of (RouteMulti.POST (Sample.answering "text") req) = Some 400%N
  /\ status_of (Route.POST (Sample.answering "text") req) = Some 400%N.
Proof.
  intros req.
  destruct (X2_missing_file_is_400 (Sample.answering "text") req _ eq_refl eq_refl)
    as [Hmulti Hsingle].
  split.
  - now rewrite (Hmulti eq_refl).
  - rewrite Hsingle; [reflexivity | intros f; discriminate].
Defined.

(** X3: when the provider call fails, the request is answered 500 with
    the plain text [Erreur: <message>] ([Erreur: unknown] when the
    thrown value is not an [Error]); the failure is logged twice, by
    the inner and by the outer handler, and these are the last events
    of the run. *)
Theorem X3_provider_failure_is_500 (rt : Runtime) (req : NextRequest)
    (args : GenerateTextArgs) (err : Thrown) (m : Eff Response) :
  m = RouteMulti.POST rt req \/ m = Route.POST rt req ->
  In (provider_call args) (trace m) ->
  generateText rt args = Rejected err ->
  outcome m = Resolved (new_Response ("Erreur: " ++ messageOf err) 500 [])
  /\ exists before,
       trace m = before ++ [provider_call args;
                            console_error "/api/ocr: provider call failed";
                            console_error "/api/ocr: failure"].
Proof.
  intros [-> | ->] Hin Hg.
  - destruct (multi_call_inv rt _ _ Hin) as (form & Hm & Hf & Ha & ->).
    rewrite (multi_accepted rt _ _ Hm Hf Ha), Hg. split; [reflexivity|].
    exists (req_formData :: map file_arrayBuffer (RouteMulti.inputFiles form)
              ++ [console_info "/api/ocr: request"; console_info "/api/ocr: prepare call"]).
    unfold trace, upToCall. simpl. now rewrite <- !app_assoc.
  - destruct (single_call_inv rt _ _ Hin) as (form & file & Hm & Hf & Hfile & Hok & Hsz & ->).
    rewrite (single_accepted rt _ _ _ Hm Hf Hfile Hok Hsz). simpl. rewrite Hg.
    split; [reflexivity|].
    now exists [req_formData; file_arrayBuffer file;
                console_info "/api/ocr: request"; console_info "/api/ocr: prepare call"].
Qed.

Lemma X3_witness :
  let rt := Demo.failing (JsError "429 rate limited") in
  let form := [("file", EntryFile (Sample.png 10))] in
  outcome (RouteMulti.POST rt (Sample.request Sample.multipartCT form))
  = Resolved (new_Response "Erreur: 429 rate limited" 500 [])
  /\ outcome (Route.POST (Demo.failing NonError) (Sample.request Sample.multipartCT form))
     = Resolved (new_Response "Erreur: unknown" 500 []).
Proof.
  intros rt form. split.
  - apply (X3_provider_failure_is_500 rt _ (callOf rt form) (JsError "429 rate limited") _
             (or_introl eq_refl)); [|reflexivity].
    simpl. repeat (first [left; reflexivity | right]).
  - apply (X3_provider_failure_is_500 (Demo.failing NonError) _
             (Route.providerArgs (Demo.failing NonError) "auto"
                (Route.dataUrl (Sample.png 10)))
             NonError _ (or_intror eq_refl)); [|reflexivity].
    simpl. repeat (first [left; reflexivity | right]).
Defined.

(** X4: when the body cannot be read as form data, the request is
    answered 500 with [Erreur: <message>]; no file is read and the
    provider is not called. *)
Theorem X4_unreadable_body_is_500 (rt : Runtime) (req : NextRequest) (err : Thrown)
    (m : Eff Response) :
  m = RouteMulti.POST rt req \/ m = Route.POST rt req ->
  multipart req = true ->
  formData req = Rejected err ->
  m = ([req_formData; console_error "/api/ocr: failure"],
       Resolved (new_Response ("Erreur: " ++ messageOf err) 500 []))
  /\ provider_calls m = []
  /\ files_read m = [].
Proof.
  intros [-> | ->] Hm Hf;
    [rewrite (multi_body_unreadable rt _ _ Hm Hf)
    |rewrite (single_body_unreadable rt _ _ Hm Hf)];
    repeat split.
Qed.

Lemma X4_witness :
  status_of
    (RouteMulti.POST (Sample.answering "text")
       {| content_type := Some Sample.multipartCT;
          formData := Rejected (JsError "Failed to parse body as FormData.") |})
  = Some 500%N.
Proof.
  pose proof (X4_unreadable_body_is_500 (Sample.answering "text")
                {| content_type := Some Sample.multipartCT;
                   formData := Rejected (JsError "Failed to parse body as FormData.") |}
                _ _ (or_introl eq_refl) eq_refl eq_refl) as [H _].
  now rewrite H.
Defined.

Lemma no_read_in_rejected (msg : string) (r : Response) :
  files_read (let (t, x) := try_catch (rejected msg r) failure in (req_formData :: t, x)) = []
  /\ provider_calls
       (let (t, x) := try_catch (rejected msg r) failure in (req_formData :: t, x)) = [].
Proof. split; reflexivity. Qed.

(** X5: the provider is called at most once per request, and the
    content of a file is read only by a run that goes on to call the
    provider: a rejected request costs neither a read nor a call. *)
Theorem X5_at_most_one_call (rt : Runtime) (req : NextRequest) (m : Eff Response) :
  m = RouteMulti.POST rt req \/ m = Route.POST rt req ->
  (length (provider_calls m) <= 1)%nat
  /\ (provider_calls m = [] -> files_read m = []).
Proof.
  intros [-> | ->].
  - destruct (multipart req) eqn:Hm;
      [|rewrite (multi_not_multipart rt _ Hm); split; [simpl; lia | reflexivity]].
    destruct (formData req) as [form|err|] eqn:Hf;
      [|rewrite (multi_body_unreadable rt _ _ Hm Hf); split; [simpl; lia | reflexivity]
       |rewrite (multi_body_pending rt _ Hm Hf); split; [simpl; lia | reflexivity]].
    destruct (accepted form) eqn:Ha.
    + rewrite (calls_accepted rt _ _ Hm Hf Ha). split; [simpl; lia | discriminate].
    + rewrite (calls_not_accepted rt _ _ Hf Ha). split; [simpl; lia | intros _].
      rewrite (multi_with_form rt _ _ Hm Hf).
      apply accepted_false_cases in Ha as [He | [(Hne & Himg) | (Hne & Himg & Hbig)]].
      * rewrite (dispatch_missing rt _ He). apply no_read_in_rejected.
      * rewrite (dispatch_invalid rt _ Hne Himg). apply no_read_in_rejected.
      * rewrite (dispatch_too_large rt _ Hne Himg Hbig). apply no_read_in_rejected.
  - destruct (multipart req) eqn:Hm;
      [|rewrite (single_not_multipart rt _ Hm); split; [simpl; lia | reflexivity]].
    destruct (formData req) as [form|err|] eqn:Hf;
      [|rewrite (single_body_unreadable rt _ _ Hm Hf); split; [simpl; lia | reflexivity]
       |rewrite (single_body_pending rt _ Hm Hf); split; [simpl; lia | reflexivity]].
    destruct (single_dispatch_cases rt form) as [Hnone | [file Hg]].
    + rewrite (single_with_form rt _ _ Hm Hf), (single_missing rt _ Hnone).
      split; [simpl; lia | reflexivity].
    + destruct (Route.invalidMime file) eqn:Hok.
      * rewrite (single_with_form rt _ _ Hm Hf), (single_invalid rt _ _ Hg Hok).
        split; [simpl; lia | reflexivity].
      * destruct (N.lt_ge_cases maxSize (size file)) as [Hbig|Hsz].
        -- rewrite (single_with_form rt _ _ Hm Hf), (single_too_large rt _ _ Hg Hok Hbig).
           split; [simpl; lia | reflexivity].
        -- rewrite (single_accepted rt _ _ _ Hm Hf Hg Hok Hsz). simpl.
           destruct (generateText rt _); (split; [simpl; lia | discriminate]).
Qed.

Lemma X5_witness :
  let big :=
    Sample.request Sample.multipartCT
      [("files[]", EntryFile (Sample.png (3 * Sample.MiB)));
       ("files[]", EntryFile (Sample.png (3 * Sample.MiB)))] in
  files_read (RouteMulti.POST (Sample.answering "text") big) = [].
Proof.
  intros big.
  exact (proj2 (X5_at_most_one_call (Sample.answering "text") big _ (or_introl eq_refl))
           eq_refl).
Defined.

(** X6: past the content-type check and with a readable body, the
    answer is 413 exactly when every file has an image type and the
    total size is strictly above 4 MiB; a total of exactly 4 MiB is
    let through.  For the single-image handler: exactly when the file
    is a JPEG or PNG strictly above 4 MiB. *)
Theorem X6_too_large_exactly_when (rt : Runtime) (req : NextRequest) (form : FormData) :
  multipart req = true ->
  formData req = Resolved form ->
  (status_of (RouteMulti.POST rt req) = Some 413%N
   <-> forallb isImage (imageSequence form) = true
       /\ (maxSize < RouteMulti.totalSize (imageSequence form))%N)
  /\ (forall file, Form.get "file" form = Some (EntryFile file) ->
      (status_of (Route.POST rt req) = Some 413%N
       <-> Route.invalidMime file = false /\ (maxSize < size file)%N)).
Proof.
  intros Hm Hf. split.
  - rewrite <- inputFiles_sequence.
    destruct (RouteMulti.inputFiles form) as [|f files] eqn:E.
    + rewrite (multi_with_form rt _ _ Hm Hf), (dispatch_missing rt _ E).
      split; [discriminate | intros [_ H]; now apply N.nlt_0_r in H].
    + rewrite <- E. assert (Hne : RouteMulti.inputFiles form <> []) by (rewrite E; discriminate).
      rewrite (multi_status rt _ _ Hm Hf Hne).
      destruct (forallb isImage (RouteMulti.inputFiles form)); simpl.
      * destruct (maxSize <? _)%N eqn:Hsz.
        -- apply N.ltb_lt in Hsz. tauto.
        -- apply N.ltb_ge in Hsz. split.
           ++ destruct (generateText rt _); discriminate.
           ++ intros [_ H]. lia.
      * split; [discriminate | intros [H _]; discriminate].
  - intros file Hg. destruct (Route.invalidMime file) eqn:Hok.
    + rewrite (single_with_form rt _ _ Hm Hf), (single_invalid rt _ _ Hg Hok).
      split; [discriminate | intros [H _]; discriminate].
    + destruct (N.lt_ge_cases maxSize (size file)) as [Hbig|Hsz].
      * rewrite (single_with_form rt _ _ Hm Hf), (single_too_large rt _ _ Hg Hok Hbig).
        split; auto.
      * rewrite (single_accepted rt _ _ _ Hm Hf Hg Hok Hsz). simpl. split.
        -- destruct (generateText rt _); discriminate.
        -- intros [_ H]. lia.
Qed.

Lemma X6_witness :
  let atLimit :=
    Sample.request Sample.multipartCT
      [("file", EntryFile (Sample.png (3 * Sample.MiB)));
       ("files[]", EntryFile (Sample.png (1 * Sample.MiB)))] in
  let above :=
    Sample.request Sample.multipartCT
      [("file", EntryFile (Sample.png (3 * Sample.MiB)));
       ("files[]", EntryFile (Sample.png (1 * Sample.MiB + 1)))] in
  status_of (RouteMulti.POST (Sample.answering "text") atLimit) <> Some 413%N
  /\ status_of (RouteMulti.POST (Sample.answering "text") above) = Some 413%N.
Proof.
  intros atLimit above. split.
  - intros H.
    apply (proj1 (X6_too_large_exactly_when (Sample.answering "text") atLimit _
                    eq_refl eq_refl)) in H.
    destruct H as [_ H]. discriminate H.
  - apply (proj1 (X6_too_large_exactly_when (Sample.answering "text") above _
                    eq_refl eq_refl)).
    split; reflexivity.
Defined.

(* ===================================================================== *)
(** * The process-wide configuration *)
(* ===================================================================== *)

Lemma or_else_nonempty (s d : string) : d <> "" -> JS.or_else s d <> "".
Proof. unfold JS.or_else. destruct s; simpl; [auto | discriminate]. Qed.

Lemma opt_or_else_nonempty (x : option string) (d : string) :
  d <> "" -> JS.opt_or_else x d <> "".
Proof. destruct x; simpl; [apply or_else_nonempty | auto]. Qed.

Lemma truthy_nonempty (s : string) : JS.truthy s = true <-> s <> "".
Proof. destruct s; simpl; split; congruence. Qed.

(** X7: the model identifier is never empty, and a non-empty
    [OCR_MODEL] is the model, whatever the provider and the other
    variables say; an empty variable counts as unset. *)
Theorem X7_model_resolution (env : string -> option string) :
  Route.resolveModel env <> ""
  /\ RouteMulti.resolveModel env <> ""
  /\ (forall m, env "OCR_MODEL" = Some m -> m <> "" ->
        Route.resolveModel env = m /\ RouteMulti.resolveModel env = m).
Proof.
  unfold Route.resolveModel, RouteMulti.resolveModel. repeat split.
  - destruct (JS.truthy (JS.opt_or_else (env "OCR_MODEL") "")) eqn:E.
    + now apply truthy_nonempty.
    + destruct (String.eqb _ "openrouter"); apply opt_or_else_nonempty; discriminate.
  - destruct (JS.truthy (JS.opt_or_else (env "OCR_MODEL") "")) eqn:E.
    + now apply truthy_nonempty.
    + destruct (String.eqb _ "openrouter"); apply opt_or_else_nonempty; discriminate.
  - rewrite H. simpl. destruct m; [contradiction | reflexivity].
  - rewrite H. simpl. destruct m; [contradiction | reflexivity].
Qed.

Lemma X7_witness :
  Route.resolveModel Demo.overrideEnv = "acme/vision-1"
  /\ RouteMulti.resolveModel Demo.overrideEnv = "acme/vision-1".
Proof.
  apply (proj2 (proj2 (X7_model_resolution Demo.overrideEnv)) "acme/vision-1" eq_refl).
  discriminate.
Defined.

(** X8: client and model are chosen for the same provider.  Without an
    [OCR_MODEL], an OpenRouter client goes with the OpenRouter model and
    a Together client with the Together model; the provider name is
    matched whatever its letter case, any other name means Together;
    and a Together client built with a key never has an empty one. *)
Theorem X8_client_and_model_agree (env : string -> option string) :
  JS.opt_or_else (env "OCR_MODEL") "" = "" ->
  match createClient env with
  | OpenRouter key =>
      providerOf env = "openrouter"
      /\ key = JS.opt_or_else (env "OPENROUTER_API_KEY") ""
      /\ Route.resolveModel env
         = JS.opt_or_else (env "OPENROUTER_MODEL") "meta-llama/llama-4-maverick:free"
      /\ RouteMulti.resolveModel env
         = JS.opt_or_else (env "OPENROUTER_MODEL")
             "mistralai/mistral-small-3.2-24b-instruct:free"
  | TogetherDefault =>
      providerOf env <> "openrouter"
      /\ togetherKey env = ""
      /\ Route.resolveModel env = RouteMulti.resolveModel env
      /\ RouteMulti.resolveModel env
         = JS.opt_or_else (env "TOGETHER_VISION_MODEL")
             "meta-llama/Llama-4-Scout-17B-16E-Instruct"
  | TogetherAI key baseURL =>
      providerOf env <> "openrouter"
      /\ key = togetherKey env /\ key <> ""
      /\ baseURL = "https://api.together.xyz/v1"
      /\ Route.resolveModel env = RouteMulti.resolveModel env
      /\ RouteMulti.resolveModel env
         = JS.opt_or_else (env "TOGETHER_VISION_MODEL")
             "meta-llama/Llama-4-Scout-17B-16E-Instruct"
  end.
Proof.
  intros Hmodel.
  unfold createClient, Route.resolveModel, RouteMulti.resolveModel.
  rewrite Hmodel. simpl.
  fold (providerOf env). fold (togetherKey env).
  destruct (String.eqb (providerOf env) "openrouter") eqn:Ep.
  - apply String.eqb_eq in Ep. auto.
  - apply String.eqb_neq in Ep.
    destruct (JS.truthy (togetherKey env)) eqn:Ek; simpl.
    + apply truthy_nonempty in Ek. auto 10.
    + destruct (togetherKey env); [auto | discriminate].
Qed.

Lemma X8_witness :
  createClient Demo.openrouterEnv = OpenRouter "sk-or"
  /\ RouteMulti.resolveModel Demo.openrouterEnv
     = "mistralai/mistral-small-3.2-24b-instruct:free".
Proof.
  pose proof (X8_client_and_model_agree Demo.openrouterEnv eq_refl) as H.
  change (createClient Demo.openrouterEnv) with (OpenRouter "sk-or") in H.
  destruct H as (_ & _ & _ & H). split; [reflexivity | exact H].
Defined.

(** X9: a request without a [targetLang] field runs exactly as the same
    request with [targetLang = auto]. *)
Theorem X9_missing_targetLang_is_auto (rt : Runtime) (ct : option string)
    (form : FormData) :
  Form.get "targetLang" form = None ->
  RouteMulti.POST rt (requestOf ct form)
  = RouteMulti.POST rt (requestOf ct (withField "targetLang" (EntryString "auto") form))
  /\ Route.POST rt (requestOf ct form)
     = Route.POST rt (requestOf ct (withField "targetLang" (EntryString "auto") form)).
Proof.
  intros H.
  assert (Hlang : targetLangOf form
                  = targetLangOf (withField "targetLang" (EntryString "auto") form))
    by (unfold targetLangOf; now rewrite H).
  split.
  - apply multi_POST_ext, multi_dispatch_ext; [reflexivity | exact Hlang | reflexivity].
  - apply single_POST_ext, single_dispatch_ext; [reflexivity | exact Hlang].
Qed.

Lemma X9_witness :
  let form := [("file", EntryFile (Sample.png 10)); ("format", EntryString "json")] in
  RouteMulti.POST (Sample.answering "null") (requestOf (Some Sample.multipartCT) form)
  = RouteMulti.POST (Sample.answering "null")
      (requestOf (Some Sample.multipartCT)
         (withField "targetLang" (EntryString "auto") form)).
Proof.
  intros form.
  exact (proj1 (X9_missing_targetLang_is_auto (Sample.answering "null")
                  (Some Sample.multipartCT) form eq_refl)).
Defined.

(* ===================================================================== *)
(** * Further properties of compressImage *)
(* ===================================================================== *)

Lemma Qfloor_scaled (a m c : N) :
  (0 < c)%N ->
  Qfloor (Client.of_N a * Client.of_N m / Client.of_N c) = Z.of_N (a * m / c).
Proof.
  intros Hc. unfold Client.of_N. rewrite <- inject_Z_mult.
  rewrite N2Z.inj_div, N2Z.inj_mul.
  destruct (Z.of_N c) as [|p|p] eqn:E; try lia.
  unfold Qdiv, Qinv, Qmult, inject_Z, Qfloor. simpl.
  now rewrite Z.mul_1_r.
Qed.

Lemma scaled_small (a m c : N) :
  (a <= c)%N -> (0 < c)%N -> (a * m / c <= m)%N.
Proof.
  intros Hac Hc. apply N.Div0.div_le_upper_bound. nia.
Qed.

Lemma to_unsigned_long_scaled (a m c : N) :
  (a <= c)%N -> (0 < c)%N -> (m < 2 ^ 32)%N ->
  Client.to_unsigned_long (Client.of_N a * Client.of_N m / Client.of_N c)
  = (a * m / c)%N.
Proof.
  intros Hac Hc Hm. unfold Client.to_unsigned_long.
  rewrite (Qfloor_scaled _ _ _ Hc), N2Z.id.
  apply N.mod_small. pose proof (scaled_small a m c Hac Hc). lia.
Qed.

Lemma to_unsigned_long_of_N (n : N) :
  (n < 2 ^ 32)%N -> Client.to_unsigned_long (Client.of_N n) = n.
Proof.
  intros H. unfold Client.to_unsigned_long, Client.of_N.
  rewrite Qfloor_Z, N2Z.id. now apply N.mod_small.
Qed.

Lemma Qgt_bool_of_N (a b : N) : Client.Qgt_bool (Client.of_N a) (Client.of_N b) = (b <? a)%N.
Proof.
  destruct (b <? a)%N eqn:E.
  - apply N.ltb_lt in E. unfold Client.Qgt_bool. apply negb_true_iff.
    destruct (Qle_bool (Client.of_N a) (Client.of_N b)) eqn:Q; [|reflexivity].
    apply Qle_bool_iff, of_N_le in Q. lia.
  - apply N.ltb_ge in E. unfold Client.Qgt_bool. apply negb_false_iff.
    now apply Qle_bool_iff, of_N_le.
Qed.

(** The dimensions of the canvas, case by case. *)
Lemma render_dimensions (br : Client.Browser) (maxDimension : N) (file : File) (w h : N) :
  (maxDimension < 2 ^ 32)%N ->
  let canvas := Client.render br maxDimension file w h in
  ((h < w)%N -> (maxDimension < w)%N ->
   Client.width canvas = maxDimension
   /\ Client.height canvas = (h * maxDimension / w)%N)
  /\ ((w <= h)%N -> (maxDimension < h)%N ->
      Client.width canvas = (w * maxDimension / h)%N
      /\ Client.height canvas = maxDimension)
  /\ ((w <= maxDimension)%N -> (h <= maxDimension)%N ->
      Client.width canvas = w /\ Client.height canvas = h).
Proof.
  intros Hmax canvas. subst canvas. unfold Client.render, Client.scale.
  rewrite !Qgt_bool_of_N. split; [|split].
  - intros Hhw Hbig.
    rewrite (proj2 (N.ltb_lt _ _) Hhw), (proj2 (N.ltb_lt _ _) Hbig).
    cbn [andb Client.width Client.height]. split.
    + now apply to_unsigned_long_of_N.
    + apply to_unsigned_long_scaled; lia.
  - intros Hwh Hbig.
    rewrite (proj2 (N.ltb_ge _ _) Hwh), (proj2 (N.ltb_lt _ _) Hbig).
    cbn [andb Client.width Client.height]. split.
    + apply to_unsigned_long_scaled; lia.
    + now apply to_unsigned_long_of_N.
  - intros Hw Hh.
    rewrite (proj2 (N.ltb_ge _ _) Hw), (proj2 (N.ltb_ge _ _) Hh), andb_false_r.
    cbn [Client.width Client.height].
    split; apply to_unsigned_long_of_N; lia.
Qed.

(** X10: the size of the canvas.  An image wider than tall and wider
    than the maximum becomes [maxDimension] wide and
    [floor(h * maxDimension / w)] high; an image at least as tall as
    wide and taller than the maximum becomes [maxDimension] high and
    [floor(w * maxDimension / h)] wide; an image within the maximum
    keeps its size.  So an image is never enlarged, and one that
    exceeds the maximum comes out with its longest side exactly at the
    maximum. *)
Theorem X10_canvas_dimensions (br : Client.Browser) (maxDimension : N) (file : File)
    (w h : N) :
  (maxDimension < 2 ^ 32)%N ->
  let canvas := Client.render br maxDimension file w h in
  ((h < w)%N -> (maxDimension < w)%N ->
   Client.width canvas = maxDimension
   /\ Client.height canvas = (h * maxDimension / w)%N)
  /\ ((w <= h)%N -> (maxDimension < h)%N ->
      Client.width canvas = (w * maxDimension / h)%N
      /\ Client.height canvas = maxDimension)
  /\ ((w <= maxDimension)%N -> (h <= maxDimension)%N ->
      Client.width canvas = w /\ Client.height canvas = h)
  /\ (Client.width canvas <= w)%N
  /\ (Client.height canvas <= h)%N
  /\ ((maxDimension < N.max w h)%N ->
      N.max (Client.width canvas) (Client.height canvas) = maxDimension).
Proof.
  intros Hmax canvas.
  destruct (render_dimensions br maxDimension file w h Hmax) as (Hland & Hport & Hkeep).
  fold canvas in Hland, Hport, Hkeep.
  split; [exact Hland|]. split; [exact Hport|]. split; [exact Hkeep|].
  destruct (N.lt_ge_cases h w) as [Hhw|Hwh].
  - destruct (N.lt_ge_cases maxDimension w) as [Hbig|Hsmall].
    + destruct (Hland Hhw Hbig) as [-> ->].
      pose proof (scaled_small h maxDimension w).
      assert (h * maxDimension / w <= h)%N by (apply N.Div0.div_le_upper_bound; nia).
      repeat split; try lia.
    + destruct (Hkeep Hsmall) as [-> ->]; lia.
  - destruct (N.lt_ge_cases maxDimension h) as [Hbig|Hsmall].
    + destruct (Hport Hwh Hbig) as [-> ->].
      pose proof (scaled_small w maxDimension h).
      assert (w * maxDimension / h <= w)%N by (apply N.Div0.div_le_upper_bound; nia).
      repeat split; try lia.
    + destruct (Hkeep) as [-> ->]; lia.
Qed.

Lemma X10_witness :
  let canvas := Client.render Sample.browser 720 Sample.photo 1000 333 in
  Client.width canvas = 720%N /\ Client.height canvas = 239%N.
Proof.
  intros canvas.
  destruct (X10_canvas_dimensions Sample.browser 720 Sample.photo 1000 333 eq_refl)
    as (Hland & _).
  exact (Hland eq_refl eq_refl).
Defined.

(** X11: the proportions are kept to within one pixel: for an image of
    [w] x [h] pixels and its canvas of [cw] x [ch],
    [|cw * h - ch * w|] is below the longest side of the image. *)
Theorem X11_aspect_ratio_kept (br : Client.Browser) (maxDimension : N) (file : File)
    (w h : N) :
  (maxDimension < 2 ^ 32)%N ->
  (0 < w)%N -> (0 < h)%N ->
  let canvas := Client.render br maxDimension file w h in
  (Z.abs (Z.of_N (Client.width canvas) * Z.of_N h
          - Z.of_N (Client.height canvas) * Z.of_N w)
   < Z.of_N (N.max w h))%Z.
Proof.
  intros Hmax Hw Hh canvas.
  destruct (render_dimensions br maxDimension file w h Hmax) as (Hland & Hport & Hkeep).
  fold canvas in Hland, Hport, Hkeep.
  destruct (N.lt_ge_cases h w) as [Hhw|Hwh].
  - destruct (N.lt_ge_cases maxDimension w) as [Hbig|Hsmall].
    + destruct (Hland Hhw Hbig) as [-> ->].
      pose proof (N.Div0.div_mod (h * maxDimension) w) as E.
      assert (R : ((h * maxDimension) mod w < w)%N) by (apply N.mod_upper_bound; lia).
      rewrite N.max_l by lia.
      generalize dependent ((h * maxDimension) mod w)%N.
      generalize (h * maxDimension / w)%N. intros q r E R. lia.
    + destruct (Hkeep Hsmall) as [-> ->]; lia.
  - destruct (N.lt_ge_cases maxDimension h) as [Hbig|Hsmall].
    + destruct (Hport Hwh Hbig) as [-> ->].
      pose proof (N.Div0.div_mod (w * maxDimension) h) as E.
      assert (R : ((w * maxDimension) mod h < h)%N) by (apply N.mod_upper_bound; lia).
      rewrite N.max_r by lia.
      generalize dependent ((w * maxDimension) mod h)%N.
      generalize (w * maxDimension / h)%N. intros q r E R. lia.
    + destruct (Hkeep) as [-> ->]; lia.
Qed.

Lemma X11_witness :
  let canvas := Client.render Sample.browser 1200 Sample.photo 4032 3024 in
  (Z.abs (Z.of_N (Client.width canvas) * 3024 - Z.of_N (Client.height canvas) * 4032)
   < 4032)%Z.
Proof.
  intros canvas.
  exact (X11_aspect_ratio_kept Sample.browser 1200 Sample.photo 4032 3024
           eq_refl eq_refl eq_refl).
Defined.

Lemma demo_nullOnEmpty : nullOnEmpty Demo.panorama.
Proof.
  intros canvas ty q [H|H]; simpl; rewrite H; [reflexivity|].
  now rewrite orb_true_r.
Qed.

(** X12: an image (of at least one pixel each way) so elongated that
    its short side scales below one pixel gets a canvas without pixels; a browser that encodes no blob
    from such a canvas makes [compressImage] fall back, and the
    original file is returned, uncompressed. *)
Theorem X12_elongated_image_returned_as_is (br : Client.Browser) (maxDimension : N)
    (quality : Q) (file : File) (w h : N) :
  nullOnEmpty br ->
  Client.decode br file = Some (w, h) ->
  (0 < w)%N -> (0 < h)%N ->
  (0 < maxDimension < 2 ^ 32)%N ->
  (h * maxDimension < w)%N \/ (w * maxDimension < h)%N ->
  (Client.width (Client.render br maxDimension file w h) = 0
   \/ Client.height (Client.render br maxDimension file w h) = 0)%N
  /\ Client.compressImage maxDimension quality br file = Some file.
Proof.
  intros Hnull Hdec Hw Hh [Hpos Hmax] Hlong.
  destruct (render_dimensions br maxDimension file w h Hmax) as (Hland & Hport & _).
  assert (Hempty :
    (Client.width (Client.render br maxDimension file w h) = 0
     \/ Client.height (Client.render br maxDimension file w h) = 0)%N).
  { destruct Hlong as [Hl|Hl].
    - right. assert (h < w)%N by nia. assert (maxDimension < w)%N by nia.
      destruct (Hland H H0) as [_ ->]. now apply N.div_small.
    - left. assert (w <= h)%N by nia. assert (maxDimension < h)%N by nia.
      destruct (Hport H H0) as [-> _]. now apply N.div_small. }
  split; [exact Hempty|].
  unfold Client.compressImage. rewrite Hdec.
  now rewrite (Hnull _ "image/jpeg" quality Hempty).
Qed.

Lemma X12_witness :
  Client.compressImage_multi Demo.panorama Sample.photo = Some Sample.photo.
Proof.
  refine (proj2 (X12_elongated_image_returned_as_is Demo.panorama 720 (6 # 10)
                   Sample.photo 10000 10 demo_nullOnEmpty eq_refl eq_refl eq_refl _ _)).
  - split; reflexivity.
  - left. reflexivity.
Defined.

(* ===================================================================== *)
(** * Properties of the page *)
(* ===================================================================== *)

(** ** Selecting a file *)

Lemma preview_typed (env : Page.Env) (file : File) (scale : Q) (p : File) :
  Page.previewOf env file scale = Some p -> type p = "image/jpeg".
Proof.
  unfold Page.previewOf.
  destruct (Page.pdfToImg env file "firstPage" scale) as [err|images]; [discriminate|].
  destruct (Page.truthyImages images); [|discriminate].
  destruct (Page.fetch env _); [discriminate|]. now intros [= <-].
Qed.

Lemma choose_wellTyped (env : Page.Env) (scale : Q) (file : File) (st : Page.State) :
  wellTyped st -> wellTyped (Page.choose env scale file st).
Proof.
  intros [Himg Hpdf]. unfold Page.choose.
  destruct (String.eqb (type file) "application/pdf") eqn:Epdf.
  - apply String.eqb_eq in Epdf.
    destruct (Page.previewOf env file scale) as [p|] eqn:Ep; split; simpl.
    + intros f [= <-]. left. exact (preview_typed _ _ _ _ Ep).
    + now intros f [= <-].
    + discriminate.
    + now intros f [= <-].
  - destruct (String.eqb (type file) "image/jpeg" || String.eqb (type file) "image/png")
      eqn:Eimg.
    + split; simpl; [|discriminate]. intros f [= <-].
      apply orb_true_iff in Eimg as [E|E]; apply String.eqb_eq in E; [left | right];
        exact E.
    + split; simpl; auto.
Qed.

Lemma import_wellTyped (env : Page.Env) (st : Page.State) :
  wellTyped st ->
  wellTyped (Page.importExample env st) /\ wellTyped (Page.importExamplePdf env st).
Proof.
  intros Hst. split.
  - unfold Page.importExample. destruct (Page.fetch env _) as [e|r]; [exact Hst|].
    destruct (Page.asset_ok r); simpl; [|exact Hst].
    split; simpl; [|discriminate]. intros f [= <-]. now left.
  - unfold Page.importExamplePdf. destruct (Page.fetch env _) as [e|r]; [exact Hst|].
    destruct (Page.asset_ok r); simpl; [|exact Hst].
    destruct (Page.previewOf env _ (8 # 10)) as [p|] eqn:Ep; split; simpl;
      try discriminate; try (now intros f [= <-]).
    intros f [= <-]. left. exact (preview_typed _ _ _ _ Ep).
Qed.

Lemma imageTyped_eqb (f : File) :
  String.eqb (type f) "image/jpeg" || String.eqb (type f) "image/png" = true
  <-> imageTyped f.
Proof.
  unfold imageTyped. rewrite orb_true_iff, !String.eqb_eq. tauto.
Qed.

(** X13: whatever is dropped, selected or imported, the image the page
    holds is typed [image/jpeg] or [image/png] and the PDF it holds is
    typed [application/pdf]; selecting an image discards the PDF,
    selecting a PDF replaces the image by the preview of its first page
    or by nothing, and a file of any other type changes neither. *)
Theorem X13_selection_keeps_types (env : Page.Env) (file : option File)
    (st : Page.State) :
  wellTyped st ->
  (wellTyped (Page.onDrop env file st)
   /\ wellTyped (Page.onSelectFile env file st)
   /\ wellTyped (Page.importExample env st)
   /\ wellTyped (Page.importExamplePdf env st))
  /\ (forall f, file = Some f ->
      let st' := Page.onSelectFile env file st in
      (imageTyped f -> Page.imageFile st' = Some f /\ Page.pdfFile st' = None)
      /\ (type f = "application/pdf" ->
          Page.pdfFile st' = Some f
          /\ Page.imageFile st' = Page.previewOf env f 1)
      /\ (~ imageTyped f -> type f <> "application/pdf" ->
          Page.imageFile st' = Page.imageFile st
          /\ Page.pdfFile st' = Page.pdfFile st)).
Proof.
  intros Hst. split; [split; [|split]|].
  - unfold Page.onDrop. destruct file; [apply choose_wellTyped|]; exact Hst.
  - unfold Page.onSelectFile. destruct file; [apply choose_wellTyped|]; exact Hst.
  - exact (import_wellTyped env st Hst).
  - intros f -> st'. subst st'. unfold Page.onSelectFile, Page.choose.
    split; [|split].
    + intros Hf. assert (Hn : String.eqb (type f) "application/pdf" = false)
        by (destruct Hf as [H|H]; rewrite H; reflexivity).
      rewrite Hn, (proj2 (imageTyped_eqb f) Hf). split; reflexivity.
    + intros Hf. rewrite Hf. simpl. now destruct (Page.previewOf env f 1).
    + intros Hn Hp. apply String.eqb_neq in Hp. rewrite Hp.
      destruct (String.eqb (type f) "image/jpeg" || String.eqb (type f) "image/png") eqn:E;
        [|split; reflexivity].
      exfalso. now apply Hn, imageTyped_eqb.
Qed.

Lemma initial_wellTyped : wellTyped Demo.initial.
Proof. split; intros f H; discriminate H. Qed.

Lemma X13_witness :
  let env := Demo.env Demo.working (Sample.answering "text") in
  let st' := Page.onSelectFile env (Some Demo.notes) Demo.initial in
  let st'' := Page.onSelectFile env (Some Demo.document) Demo.initial in
  (Page.imageFile st' = None /\ Page.pdfFile st' = None)
  /\ Page.pdfFile st'' = Some Demo.document.
Proof.
  intros env st' st''.
  destruct (X13_selection_keeps_types env (Some Demo.notes) Demo.initial initial_wellTyped)
    as [_ Hnotes].
  destruct (X13_selection_keeps_types env (Some Demo.document) Demo.initial initial_wellTyped)
    as [_ Hdoc].
  split.
  - apply (Hnotes Demo.notes eq_refl); [intros [H|H]; discriminate H | discriminate].
  - apply (Hdoc Demo.document eq_refl). reflexivity.
Defined.

(** ** The form a run submits *)

Lemma compress_out (env : Page.Env) (f out : File) :
  Page.compressImage env f = Resolved out ->
  name out = name f /\ (type out = "image/jpeg" \/ out = f).
Proof.
  unfold Page.compressImage, Client.compressImage_multi, Client.compressImage.
  destruct (Client.decode (Page.browser env) f) as [[w h]|]; [|discriminate].
  destruct (Client.toBlob _ _ _ _); intros [= <-]; auto.
Qed.

Lemma compress_never_rejects (env : Page.Env) (f : File) (err : Thrown) :
  Page.compressImage env f <> Rejected err.
Proof.
  unfold Page.compressImage. destruct (Client.compressImage_multi _ f); discriminate.
Qed.

Lemma pageOf_out (env : Page.Env) (pdf : File) (url : string) (i : N) (out : File) :
  Page.pageOf env pdf url i = Resolved out ->
  name out = pageName pdf i /\ type out = "image/jpeg".
Proof.
  unfold Page.pageOf. destruct (Page.fetch env (Some url)) as [e|r]; simpl; [discriminate|].
  intros H. apply compress_out in H as [Hn [Ht | ->]]; auto.
Qed.

Lemma appendPages_out (env : Page.Env) (pdf : File) (urls : list string) :
  forall (i : N) (form out : FormData),
    Page.appendPages env pdf urls i form = Resolved out ->
    exists pages,
      out = form ++ map (fun p => ("files[]", EntryFile p)) pages
      /\ map name pages = pageNames pdf (length urls) i
      /\ Forall (fun p => type p = "image/jpeg") pages.
Proof.
  induction urls as [|url urls IH]; intros i form out H; simpl in H.
  - injection H as <-. exists []. simpl. now rewrite app_nil_r.
  - destruct (Page.pageOf env pdf url i) as [p| |] eqn:Ep; simpl in H; try discriminate.
    destruct (IH _ _ _ H) as (pages & -> & Hnames & Htypes).
    destruct (pageOf_out _ _ _ _ _ Ep) as [Hn Ht].
    exists (p :: pages). unfold Page.append. rewrite <- app_assoc. simpl.
    repeat split; [now rewrite Hn, Hnames | now constructor].
Qed.

Lemma get_app (key : string) (a b : FormData) :
  Form.get key (a ++ b)
  = match Form.get key a with Some v => Some v | None => Form.get key b end.
Proof.
  induction a as [|[k v] a IH]; simpl; [reflexivity|].
  now destruct (String.eqb k key).
Qed.


Lemma pages_entries (pages : list File) :
  Form.getAll "files[]" (map (fun p => ("files[]", EntryFile p)) pages)
  = map EntryFile pages
  /\ (forall key, String.eqb "files[]" key = false ->
      Form.get key (map (fun p => ("files[]", EntryFile p)) pages) = None)
  /\ Files_of (map EntryFile pages) = pages
  /\ filesOf (map (fun p => ("files[]", EntryFile p)) pages) = pages.
Proof.
  repeat split.
  - induction pages; simpl; [reflexivity | now f_equal].
  - intros key Hk. induction pages; cbn [map Form.get]; [reflexivity | now rewrite Hk].
  - induction pages; simpl; [reflexivity | now f_equal].
  - induction pages; simpl; [reflexivity | now f_equal].
Qed.

Lemma filesOf_app (a b : FormData) : filesOf (a ++ b) = filesOf a ++ filesOf b.
Proof.
  induction a as [|[k [s|f]] a IH]; simpl; [reflexivity | exact IH | now rewrite IH].
Qed.



Lemma buildForm_files (env : Page.Env) (st : Page.State) (form : FormData) :
  wellTyped st ->
  Page.buildForm env st = Resolved form ->
  Forall imageTyped (filesOf form).
Proof.
  intros [Himg Hpdf] H. unfold Page.buildForm in H.
  assert (Hend : forall pre : FormData,
            filesOf (Page.append "format" (EntryString (Page.outputFormat st))
                       (Page.append "targetLang" (EntryString (Page.targetLang st)) pre))
            = filesOf pre).
  { intros pre. unfold Page.append. rewrite !filesOf_app. simpl. now rewrite !app_nil_r. }
  destruct (Page.pdfFile st) as [pdf|].
  - destruct (Page.pdfToImg env pdf "all" (8 # 10)) as [err|[url|urls]]; simpl in H;
      try discriminate.
    + destruct (JS.truthy url); simpl in H.
      * destruct (Page.pageOf env pdf url 0) as [p| |] eqn:Ep; simpl in H; try discriminate.
        injection H as <-. rewrite Hend. simpl. constructor; [|constructor].
        left. exact (proj2 (pageOf_out _ _ _ _ _ Ep)).
      * injection H as <-. rewrite Hend. constructor.
    + destruct (Page.appendPages env pdf urls 0 []) as [pagesForm| |] eqn:Ep; simpl in H;
        try discriminate.
      injection H as <-. rewrite Hend.
      destruct (appendPages_out _ _ _ _ _ _ Ep) as (pages & -> & _ & Htypes).
      simpl. rewrite (proj2 (proj2 (proj2 (pages_entries pages)))).
      eapply Forall_impl; [|exact Htypes]. intros f Hf. now left.
  - destruct (Page.imageFile st) as [image|] eqn:Ei; simpl in H.
    + destruct (Page.compressImage env image) as [out| |] eqn:Ec; simpl in H;
        try discriminate.
      injection H as <-. rewrite Hend. simpl. constructor; [|constructor].
      destruct (compress_out _ _ _ Ec) as [_ [Ht | ->]]; [now left | now apply Himg].
    + injection H as <-. rewrite Hend. constructor.
Qed.

Lemma sequence_in_filesOf (form : FormData) (f : File) :
  In f (imageSequence form) -> In f (filesOf form).
Proof.
  unfold imageSequence. intros H. apply in_app_or in H as [H|H].
  - destruct (Form.get "file" form) as [[s|g]|] eqn:E; try contradiction.
    destruct H as [<-|[]].
    induction form as [|[k [s|h]] form IH]; simpl in *; try discriminate.
    + destruct (String.eqb k "file"); [discriminate | auto].
    + destruct (String.eqb k "file"); [injection E as ->; now left | right; auto].
  - induction form as [|[k [s|h]] form IH]; simpl in *; try contradiction.
    + destruct (String.eqb k "files[]"); simpl in H; auto.
    + destruct (String.eqb k "files[]"); simpl in H; [destruct H as [->|H]|]; auto.
Qed.

Lemma imageTyped_isImage (f : File) : imageTyped f -> isImage f = true.
Proof. unfold isImage. intros [H|H]; rewrite H; reflexivity. Qed.

(** X15: the page never submits a file the endpoint refuses for its
    type.  Whatever image or PDF the page holds (typed as the page
    selects them), every file of the form it builds is typed
    [image/jpeg] or [image/png], and neither handler answers that form
    with 415. *)
Theorem X15_page_is_never_refused_415 (env : Page.Env) (st : Page.State)
    (form : FormData) (rt : Runtime) (ct : option string) :
  wellTyped st ->
  Page.buildForm env st = Resolved form ->
  Forall imageTyped (filesOf form)
  /\ status_of (RouteMulti.POST rt (requestOf ct form)) <> Some 415%N
  /\ status_of (Route.POST rt (requestOf ct form)) <> Some 415%N.
Proof.
  intros Hst Hform. pose proof (buildForm_files _ _ _ Hst Hform) as Hfiles.
  rewrite Forall_forall in Hfiles. split; [now apply Forall_forall|]. split.
  - destruct (multipart (requestOf ct form)) eqn:Hm;
      [|rewrite (multi_not_multipart rt _ Hm); discriminate].
    destruct (RouteMulti.inputFiles form) as [|f files] eqn:E.
    + rewrite (multi_with_form rt _ _ Hm eq_refl), (dispatch_missing rt _ E). discriminate.
    + assert (Hne : RouteMulti.inputFiles form <> []) by (rewrite E; discriminate).
      rewrite (multi_status rt _ _ Hm eq_refl Hne).
      assert (Hall : forallb isImage (RouteMulti.inputFiles form) = true).
      { apply forallb_forall. intros g Hg. rewrite inputFiles_sequence in Hg.
        apply imageTyped_isImage, Hfiles, sequence_in_filesOf, Hg. }
      rewrite Hall. simpl. destruct (maxSize <? _)%N; [discriminate|].
      destruct (generateText rt _); discriminate.
  - destruct (multipart (requestOf ct form)) eqn:Hm;
      [|rewrite (single_not_multipart rt _ Hm); discriminate].
    destruct (single_dispatch_cases rt form) as [Hnone | [file Hg]].
    + rewrite (single_with_form rt _ _ Hm eq_refl), (single_missing rt _ Hnone).
      discriminate.
    + assert (Hok : Route.invalidMime file = false).
      { apply single_invalidMime_spec. apply Hfiles, sequence_in_filesOf.
        unfold imageSequence. rewrite Hg. now left. }
      destruct (N.lt_ge_cases maxSize (size file)) as [Hbig|Hsz].
      * rewrite (single_with_form rt _ _ Hm eq_refl), (single_too_large rt _ _ Hg Hok Hbig).
        discriminate.
      * rewrite (single_accepted rt _ _ _ Hm eq_refl Hg Hok Hsz). simpl.
        destruct (generateText rt _); discriminate.
Qed.

Lemma X15_witness :
  let st := Page.setImageFile (Some (Sample.png (5 * Sample.MiB))) Demo.initial in
  exists form,
    Page.buildForm (Demo.env Demo.working (Sample.answering "text")) st
    = Resolved form
    /\ status_of (RouteMulti.POST (Sample.answering "text")
                    (requestOf (Some Sample.multipartCT) form)) <> Some 415%N.
Proof.
  intros st. eexists. split; [reflexivity|].
  refine (proj1 (proj2 (X15_page_is_never_refused_415
                          (Demo.env Demo.working (Sample.answering "text")) st _
                          (Sample.answering "text") (Some Sample.multipartCT) _ eq_refl))).
  split; simpl; [|discriminate]. intros f [= <-]. now right.
Defined.

(** ** Runs of the page *)

Lemma runOcr_selected (env : Page.Env) (st : Page.State) :
  selected st ->
  Page.runOcr env st
  = match Page.buildForm env st with
    | Pending => Page.Hanging (started st)
    | Rejected err => Page.Done (Page.failed err (started st)) []
    | Resolved form =>
        match Page.andThen (Page.fetchOcr env form) (Page.readAnswer env st) with
        | Pending => Page.Hanging (started st)
        | Rejected err => Page.Done (Page.failed err (started st)) [form]
        | Resolved text =>
            Page.Done (Page.setLoading false (Page.setResult text (started st))) [form]
        end
    end.
Proof.
  intros [H|H]; unfold Page.runOcr;
    destruct (Page.imageFile st) eqn:Ei; destruct (Page.pdfFile st) eqn:Ep;
    try contradiction; reflexivity.
Qed.

Lemma runOcr_nothing (env : Page.Env) (st : Page.State) :
  Page.imageFile st = None -> Page.pdfFile st = None ->
  Page.runOcr env st = Page.Done st [].
Proof. unfold Page.runOcr. now intros -> ->. Qed.

Lemma selected_dec (st : Page.State) :
  selected st \/ (Page.imageFile st = None /\ Page.pdfFile st = None).
Proof.
  unfold selected. destruct (Page.imageFile st); destruct (Page.pdfFile st);
    auto; left; [left | left | right]; discriminate.
Qed.

Lemma buildForm_rejected (env : Page.Env) (st : Page.State) (err : Thrown) :
  Page.buildForm env st = Rejected err ->
  Page.pdfFile st <> None /\ err = JsError "Failed to convert PDF to images".
Proof.
  unfold Page.buildForm. destruct (Page.pdfFile st) as [pdf|].
  - intros H. split; [discriminate|].
    destruct (Page.andThen (Page.settled (Page.pdfToImg env pdf "all" (8 # 10))) _)
      as [form| |]; simpl in H; congruence.
  - destruct (Page.imageFile st) as [image|]; simpl; [|discriminate].
    destruct (Page.compressImage env image) eqn:E; simpl; try discriminate.
    now apply compress_never_rejects in E.
Qed.

(** X16: when the conversion of the PDF fails, whether the rasteriser
    or the fetch of a page image rejects, nothing is sent: a run on a
    PDF that ends without a request shows
    [Erreur: Failed to convert PDF to images] and is no longer
    loading; and a rejecting rasteriser ends the run in this way. *)
Theorem X16_pdf_conversion_failure (env : Page.Env) (st : Page.State) (pdf : File) :
  Page.pdfFile st = Some pdf ->
  (forall st', Page.runOcr env st = Page.Done st' [] ->
     Page.result st' = "Erreur: Failed to convert PDF to images"
     /\ Page.loading st' = false)
  /\ (forall err, Page.pdfToImg env pdf "all" (8 # 10) = inl err ->
        exists st', Page.runOcr env st = Page.Done st' []).
Proof.
  intros Hpdf.
  assert (Hsel : selected st) by (right; rewrite Hpdf; discriminate).
  rewrite (runOcr_selected env st Hsel). split.
  - intros st' H. destruct (Page.buildForm env st) as [form|err|] eqn:E.
    + destruct (Page.andThen _ _); discriminate.
    + destruct (buildForm_rejected _ _ _ E) as [_ ->]. injection H as <-. split; reflexivity.
    + discriminate.
  - intros err Herr. unfold Page.buildForm. rewrite Hpdf, Herr. simpl. eauto.
Qed.

Lemma X16_witness :
  let env := Demo.envWith (inl (JsError "Invalid PDF structure")) (Sample.answering "text") in
  let st := Page.setPdfFile (Some Demo.document) Demo.initial in
  shown (Page.runOcr env st) = Some "Erreur: Failed to convert PDF to images"
  /\ requests (Page.runOcr env st) = [].
Proof.
  intros env st.
  destruct (X16_pdf_conversion_failure env st Demo.document eq_refl) as [Hshown Hends].
  destruct (Hends _ eq_refl) as [st' Hrun]. rewrite Hrun.
  unfold shown, Page.rendered. rewrite (proj1 (Hshown st' Hrun)).
  split; reflexivity.
Defined.

(** X17: [compressImage] installs no error handler, so when the image
    does not load its promise never settles: the run never finishes,
    nothing is sent, and the page is left in the loading state with an
    empty result. *)
Theorem X17_unloadable_image_hangs (env : Page.Env) (st : Page.State) (image : File) :
  Page.imageFile st = Some image ->
  Page.pdfFile st = None ->
  Client.decode (Page.browser env) image = None ->
  Page.runOcr env st = Page.Hanging (started st)
  /\ Page.loading (started st) = true
  /\ Page.result (started st) = "".
Proof.
  intros Hi Hp Hdec.
  assert (Hsel : selected st) by (left; rewrite Hi; discriminate).
  rewrite (runOcr_selected env st Hsel). unfold Page.buildForm. rewrite Hp, Hi.
  unfold Page.compressImage, Client.compressImage_multi, Client.compressImage.
  rewrite Hdec. repeat split.
Qed.

Lemma X17_witness :
  let env := Demo.env Demo.dead (Sample.answering "text") in
  let st := Page.setImageFile (Some (Sample.png 10)) Demo.initial in
  requests (Page.runOcr env st) = [] /\ shown (Page.runOcr env st) = None.
Proof.
  intros env st.
  destruct (X17_unloadable_image_hangs env st (Sample.png 10) eq_refl eq_refl eq_refl)
    as [Hrun _].
  rewrite Hrun. split; reflexivity.
Defined.

(** X18: a run with nothing selected does nothing at all; any run that
    finishes has sent at most one request, has left the selected files,
    the language and the format as they were, and, if something was
    selected, has switched the loading state off. *)
Theorem X18_run_bookkeeping (env : Page.Env) (st st' : Page.State)
    (sent : list FormData) :
  Page.runOcr env st = Page.Done st' sent ->
  (length sent <= 1)%nat
  /\ Page.imageFile st' = Page.imageFile st
  /\ Page.pdfFile st' = Page.pdfFile st
  /\ Page.targetLang st' = Page.targetLang st
  /\ Page.outputFormat st' = Page.outputFormat st
  /\ (selected st -> Page.loading st' = false)
  /\ (~ selected st -> st' = st /\ sent = []).
Proof.
  intros H. destruct (selected_dec st) as [Hsel | [Hi Hp]].
  - rewrite (runOcr_selected env st Hsel) in H.
    assert (Hno : ~ ~ selected st) by tauto.
    destruct (Page.buildForm env st) as [form|err|]; try discriminate.
    + destruct (Page.andThen _ _) as [text|err|]; try discriminate;
        injection H as <- <-; repeat split; simpl; auto; try lia; contradiction.
    + injection H as <- <-; repeat split; simpl; auto; try lia; contradiction.
  - rewrite (runOcr_nothing env st Hi Hp) in H. injection H as <- <-.
    repeat split; simpl; auto. intros [Hs|Hs]; contradiction.
Qed.

Lemma X18_witness :
  let env := Demo.env Demo.working (Sample.answering "# Invoice") in
  let st := Page.setImageFile (Some (Sample.png 10)) Demo.initial in
  exists st' form,
    Page.runOcr env st = Page.Done st' [form]
    /\ Page.loading st' = false
    /\ Page.imageFile st' = Some (Sample.png 10).
Proof.
  intros env st. eexists. eexists. split; [reflexivity|].
  destruct (X18_run_bookkeeping env st _ _ eq_refl) as (_ & Hi & _ & _ & _ & Hl & _).
  split; [apply Hl; left; discriminate | exact Hi].
Defined.

(** X19: an answer that is not a success is shown as [Erreur: ]
    followed by its body, or by [HTTP <status>] when the body is empty;
    a request that fails to be sent is shown as [Erreur: ] followed by
    the message of the failure.  In both cases the request counts as
    sent and the loading state is switched off. *)
Theorem X19_failures_are_shown (env : Page.Env) (st : Page.State) (form : FormData) :
  selected st ->
  Page.buildForm env st = Resolved form ->
  (forall res, Page.fetchOcr env form = Resolved res -> Page.res_ok res = false ->
     Page.runOcr env st
     = Page.Done
         (Page.setLoading false
            (Page.setResult
               ("Erreur: " ++ JS.or_else (Page.res_text res)
                                 ("HTTP " ++ JS.number_to_string (Page.res_status res)))
               (started st)))
         [form])
  /\ (forall err, Page.fetchOcr env form = Rejected err ->
        Page.runOcr env st
        = Page.Done
            (Page.setLoading false
               (Page.setResult ("Erreur: " ++ messageOf err) (started st)))
            [form]).
Proof.
  intros Hsel Hform. rewrite (runOcr_selected env st Hsel), Hform. split.
  - intros res Hres Hok. rewrite Hres. simpl. unfold Page.readAnswer. rewrite Hok.
    reflexivity.
  - intros err Herr. rewrite Herr. destruct err; reflexivity.
Qed.

Lemma X19_witness :
  let env := Demo.envWith (inr (Page.ManyImages [])) (Sample.answering "text") in
  let st := Page.setPdfFile (Some Demo.document) Demo.initial in
  shown (Page.runOcr env st) = Some "Erreur: Missing image file(s) (JPEG/PNG only)".
Proof.
  intros env st.
  assert (Hsel : selected st) by (right; discriminate).
  destruct (X19_failures_are_shown env st _ Hsel eq_refl) as [Hres _].
  now rewrite (Hres _ eq_refl eq_refl).
Defined.

(** ** The page in front of the multi-page handler *)

(** Every answer of the multi-page handler other than a 200 carries a
    non-empty text and a status outside the success range. *)
Lemma multi_error_shape (rt : Runtime) (req : NextRequest) (r : Response) :
  outcome (RouteMulti.POST rt req) = Resolved r ->
  status r <> 200%N ->
  exists text,
    body r = BodyText text /\ JS.truthy text = true
    /\ ((200 <=? status r) && (status r <=? 299))%N = false.
Proof.
  intros H Hs.
  destruct (multipart req) eqn:Hm;
    [|rewrite (multi_not_multipart rt _ Hm) in H; injection H as <-; eexists; repeat split].
  destruct (formData req) as [form|err|] eqn:Hf;
    [|rewrite (multi_body_unreadable rt _ _ Hm Hf) in H; injection H as <-;
      eexists; repeat split
     |rewrite (multi_body_pending rt _ Hm Hf) in H; discriminate H].
  destruct (accepted form) eqn:Ha.
  - rewrite (multi_accepted rt _ _ Hm Hf Ha) in H.
    destruct (generateText rt _) as [text|err|];
      [|injection H as <-; eexists; repeat split|discriminate H].
    exfalso. apply Hs.
    destruct (respond_returns rt (formatOf form) text) as (r' & Hr' & Hs').
    simpl in H. congruence.
  - rewrite (multi_with_form rt _ _ Hm Hf) in H.
    apply accepted_false_cases in Ha as [He | [(Hne & Himg) | (Hne & Himg & Hbig)]].
    + rewrite (dispatch_missing rt _ He) in H. injection H as <-. eexists; repeat split.
    + rewrite (dispatch_invalid rt _ Hne Himg) in H. injection H as <-.
      eexists; repeat split.
    + rewrite (dispatch_too_large rt _ Hne Himg Hbig) in H. injection H as <-.
      eexists; repeat split.
Qed.

(** X20: every refusal and every failure of the multi-page handler
    reaches the user word for word: when the handler answers the form
    of a run with a status other than 200, the page shows [Erreur: ]
    followed by the text of that answer, so that a failure of the
    provider, which the handler already reports as [Erreur: <message>],
    is shown as [Erreur: Erreur: <message>]. *)
Theorem X20_refusals_reach_the_user (env : Page.Env) (rt : Runtime)
    (st : Page.State) (form : FormData) (r : Response) :
  Page.fetchOcr env = viaServer (RouteMulti.POST rt) ->
  selected st ->
  Page.buildForm env st = Resolved form ->
  outcome (RouteMulti.POST rt (requestOf (Some formContentType) form)) = Resolved r ->
  status r <> 200%N ->
  exists text,
    body r = BodyText text
    /\ shown (Page.runOcr env st) = Some ("Erreur: " ++ text)%string
    /\ requests (Page.runOcr env st) = [form].
Proof.
  intros Hvia Hsel Hform Hr Hs.
  destruct (multi_error_shape rt _ _ Hr Hs) as (text & Hbody & Htext & Hok).
  exists text. split; [exact Hbody|].
  rewrite (runOcr_selected env st Hsel), Hform, Hvia. unfold viaServer. rewrite Hr.
  simpl. unfold Page.readAnswer, Page.res_ok. simpl. rewrite Hok, Hbody. simpl.
  unfold JS.or_else. rewrite Htext. split; reflexivity.
Qed.

Lemma X20_witness :
  let rt := Demo.failing (JsError "429 rate limited") in
  let env := Demo.env Demo.working rt in
  let st := Page.setImageFile (Some (Sample.png 10)) Demo.initial in
  shown (Page.runOcr env st) = Some "Erreur: Erreur: 429 rate limited".
Proof.
  intros rt env st.
  assert (Hsel : selected st) by (left; discriminate).
  destruct (X20_refusals_reach_the_user env rt st _ _
              eq_refl Hsel eq_refl eq_refl) as (text & Hbody & Hshown & _).
  - discriminate.
  - injection Hbody as <-. exact Hshown.
Defined.





(** X22: a PDF in which the rasteriser finds no page (an empty list, or
    an empty string) is submitted all the same, as a form with the
    language and the format and no file; the multi-page handler
    refuses it and the page shows
    [Erreur: Missing image file(s) (JPEG/PNG only)]. *)
Theorem X22_pdf_without_pages (env : Page.Env) (rt : Runtime)
    (st : Page.State) (pdf : File) :
  Page.fetchOcr env = viaServer (RouteMulti.POST rt) ->
  Page.pdfFile st = Some pdf ->
  Page.pdfToImg env pdf "all" (8 # 10) = inr (Page.ManyImages [])
  \/ Page.pdfToImg env pdf "all" (8 # 10) = inr (Page.OneImage "") ->
  requests (Page.runOcr env st)
  = [[("targetLang", EntryString (Page.targetLang st));
      ("format", EntryString (Page.outputFormat st))]]
  /\ shown (Page.runOcr env st) = Some "Erreur: Missing image file(s) (JPEG/PNG only)".
Proof.
  intros Hvia Hpdf Himgs.
  assert (Hsel : selected st) by (right; rewrite Hpdf; discriminate).
  assert (Hform : Page.buildForm env st
                  = Resolved [("targetLang", EntryString (Page.targetLang st));
                                   ("format", EntryString (Page.outputFormat st))]).
  { unfold Page.buildForm. rewrite Hpdf. destruct Himgs as [-> | ->]; reflexivity. }
  rewrite (runOcr_selected env st Hsel), Hform, Hvia. unfold viaServer.
  rewrite (multi_with_form rt
             (requestOf (Some formContentType)
                [("targetLang", EntryString (Page.targetLang st));
                 ("format", EntryString (Page.outputFormat st))])
             _ eq_refl eq_refl).
  rewrite (dispatch_missing rt
             [("targetLang", EntryString (Page.targetLang st));
              ("format", EntryString (Page.outputFormat st))] eq_refl).
  split; reflexivity.
Qed.

Lemma X22_witness :
  let env := Demo.envWith (inr (Page.OneImage "")) (Sample.answering "text") in
  let st := Page.setPdfFile (Some Demo.document) Demo.initial in
  shown (Page.runOcr env st) = Some "Erreur: Missing image file(s) (JPEG/PNG only)".
Proof.
  intros env st.
  exact (proj2 (X22_pdf_without_pages env (Sample.answering "text") st
                  Demo.document eq_refl eq_refl (or_intror eq_refl))).
Defined.

(** ** The page in front of the single-image handler *)

Lemma pdf_form_no_file (env : Page.Env) (st : Page.State) (pdf : File)
    (urls : list string) (form : FormData) :
  Page.pdfFile st = Some pdf ->
  Page.pdfToImg env pdf "all" (8 # 10) = inr (Page.ManyImages urls) ->
  Page.buildForm env st = Resolved form ->
  Form.get "file" form = None.
Proof.
  intros Hpdf Himgs H. unfold Page.buildForm in H. rewrite Hpdf, Himgs in H. simpl in H.
  destruct (Page.appendPages env pdf urls 0 []) as [pagesForm| |] eqn:Ep; simpl in H;
    try discriminate.
  injection H as <-.
  destruct (appendPages_out _ _ _ _ _ _ Ep) as (pages & -> & _ & _).
  unfold Page.append. simpl. rewrite !get_app.
  now rewrite (proj1 (proj2 (pages_entries pages)) "file" eq_refl).
Qed.

(** X23: the page in front of the single-image handler.  The pages of a
    PDF travel in [files[]], which that handler does not read: whenever
    the rasteriser returns a list of pages, be it of one page, the
    request is refused without a call to the provider and the page
    shows [Erreur: Missing image file (JPEG/PNG only)]. *)
Theorem X23_pdf_pages_refused_by_single_handler (env : Page.Env) (rt : Runtime)
    (st : Page.State) (pdf : File)
    (urls : list string) (form : FormData) :
  Page.fetchOcr env = viaServer (Route.POST rt) ->
  Page.pdfFile st = Some pdf ->
  Page.pdfToImg env pdf "all" (8 # 10) = inr (Page.ManyImages urls) ->
  Page.buildForm env st = Resolved form ->
  shown (Page.runOcr env st) = Some "Erreur: Missing image file (JPEG/PNG only)"
  /\ requests (Page.runOcr env st) = [form]
  /\ provider_calls (Route.POST rt (requestOf (Some formContentType) form)) = [].
Proof.
  intros Hvia Hpdf Himgs Hform.
  assert (Hsel : selected st) by (right; rewrite Hpdf; discriminate).
  pose proof (pdf_form_no_file _ _ _ _ _ Hpdf Himgs Hform) as Hnone.
  assert (Hmiss : forall f, Form.get "file" form <> Some (EntryFile f))
    by (intros f; rewrite Hnone; discriminate).
  assert (Hrun : Route.POST rt (requestOf (Some formContentType) form)
                 = ([req_formData; console_warn "/api/ocr: missing or invalid file field"],
                    Resolved (new_Response "Missing image file (JPEG/PNG only)" 400 []))).
  { rewrite (single_with_form rt (requestOf (Some formContentType) form) form
               eq_refl eq_refl).
    now rewrite (single_missing rt _ Hmiss). }
  rewrite (runOcr_selected env st Hsel), Hform, Hvia. unfold viaServer. rewrite Hrun.
  repeat split.
Qed.

Lemma X23_witness :
  let env := Demo.envVia (viaServer (Route.POST (Sample.answering "# Invoice"))) in
  let st := Page.setPdfFile (Some Demo.document) Demo.initial in
  shown (Page.runOcr env st) = Some "Erreur: Missing image file (JPEG/PNG only)".
Proof.
  intros env st.
  exact (proj1 (X23_pdf_pages_refused_by_single_handler env
                  (Sample.answering "# Invoice") st Demo.document
                  ["blob:page-1"; "blob:page-2"] _ eq_refl eq_refl eq_refl eq_refl)).
Defined.



(** ** JSON end to end *)


